(** * Ledger extraction pipeline: a shallow embedding and its properties

    The development follows the Python sources module by module:
    [schema.py], [scorer.py], [classifier.py], [extractor.py], [pipeline.py],
    [ocr.py], [loader.py] and [batch.py].

    Modelling conventions.
    - Python [str] values are [string]s whose characters are code points
      below 256; [len] is [String.length].
    - A Python [float] is a [pyfloat]: a finite value, held as the exact
      rational, an infinity or NaN. Rounding to 53 bits is not represented;
      overflow is: a result at or beyond the magnitude that a double rounds
      to an infinity is that infinity. Equality of finite values is [==].
      The rule score, computed from constants only, is a rational.
    - A reply of a generative service is read through [json.loads]; the model
      starts from the outcome of that call ([llm_reply]).
    - The text conversions of [str], [int] and [float] that are not
      expanded (rendering a float or a container, reading a numeral) are the
      fields of a [Builtins] record every definition and theorem takes as a
      parameter.
    - Exceptions are values of [exn]; a computation that may raise returns a
      [result], and code that talks to the outside returns an [M], which
      threads the state of the world (service state, cache files, call log).
      Output to the terminal is left out.
    - Paths are those of [os.path] on a POSIX system. The project root, the
      PDF files and the prompt files are parameters of the definitions that
      read them; opening a PDF that is there, rendering a page and saving
      its image are taken to succeed. *)

From Stdlib Require Import ZArith QArith Lqa String Ascii List.
From stdpp Require Import base list strings pretty gmap sorting.

Set Warnings "-register-all".
Open Scope Q_scope.
Open Scope string_scope.

(** ** Text operations of [str] *)

Module Text.

(** [str.isspace] on the code points below 256. *)
Definition isspace (c : ascii) : bool :=
  let n := N_of_ascii c in
  ((9 <=? n) && (n <=? 13) || (28 <=? n) && (n <=? 32)
   || (n =? 133) || (n =? 160))%N.

Fixpoint lstrip (s : string) : string :=
  match s with
  | EmptyString => EmptyString
  | String c rest => if isspace c then lstrip rest else s
  end.

Fixpoint rstrip (s : string) : string :=
  match s with
  | EmptyString => EmptyString
  | String c rest =>
      match rstrip rest with
      | EmptyString => if isspace c then EmptyString else String c EmptyString
      | kept => String c kept
      end
  end.

(** [s.strip()] *)
Definition strip (s : string) : string := rstrip (lstrip s).

(** [str.lower] on one code point below 256. *)
Definition lower_char (c : ascii) : ascii :=
  let n := N_of_ascii c in
  if ((65 <=? n) && (n <=? 90) || (192 <=? n) && (n <=? 214)
      || (216 <=? n) && (n <=? 222))%N
  then ascii_of_N (n + 32) else c.

(** [s.lower()] *)
Fixpoint lower (s : string) : string :=
  match s with
  | EmptyString => EmptyString
  | String c rest => String (lower_char c) (lower rest)
  end.

(** [needle in hay] *)
Fixpoint contains (needle hay : string) : bool :=
  String.prefix needle hay
  || match hay with
     | EmptyString => false
     | String _ rest => contains needle rest
     end.

(** [s in options], for a tuple of strings. *)
Definition one_of (s : string) (options : list string) : bool :=
  existsb (String.eqb s) options.

(** What reading in text mode makes of the characters of a file: every
    CR LF and every other CR is read as LF. *)
Fixpoint universal_newlines (s : string) : string :=
  match s with
  | EmptyString => EmptyString
  | String c rest =>
      if Ascii.eqb c "013"
      then String "010"
             match rest with
             | EmptyString => EmptyString
             | String c' rest' =>
                 if Ascii.eqb c' "010" then universal_newlines rest'
                 else universal_newlines rest
             end
      else String c (universal_newlines rest)
  end.

(** A string all of whose characters are whitespace. *)
Fixpoint all_space (s : string) : bool :=
  match s with
  | EmptyString => true
  | String c rest => isspace c && all_space rest
  end.

End Text.

(** ** Values of [float] *)

Inductive pyfloat : Type :=
| Finite (q : Q)
| PInf
| NInf
| NaN.

(** ** Values decoded from JSON, and exceptions *)

(** [json.loads] reads [NaN], [Infinity] and [-Infinity], and a numeral too
    large for a double as an infinity: a decoded float is any [pyfloat]. *)
Inductive json : Type :=
| JNull
| JBool (b : bool)
| JInt (z : Z)
| JFloat (x : pyfloat)
| JStr (s : string)
| JList (items : list json)
| JDict (fields : list (string * json)).

Inductive exn : Type :=
| TypeError | ValueError | AttributeError | KeyError
| RuntimeError | JSONDecodeError | ServiceError | FileNotFoundError
| OverflowError | ZeroDivisionError.

Inductive result (A : Type) : Type :=
| Ok (a : A)
| Raise (e : exn).
Arguments Ok {A} a.
Arguments Raise {A} e.

#[global] Instance result_ret : MRet result := @Ok.
#[global] Instance result_bind : MBind result := fun A B f m =>
  match m with Ok a => f a | Raise e => Raise e end.

(** [for x in xs: ...] collecting one result per element, stopping at the
    first exception. *)
Fixpoint result_map {A B : Type} (f : A -> result B) (xs : list A)
  : result (list B) :=
  match xs with
  | [] => Ok []
  | x :: rest => y ← f x; ys ← result_map f rest; Ok (y :: ys)
  end.

(** ** Arithmetic and comparisons of [float] *)

Module Float.

(** The least magnitude a double rounds to an infinity: [2^1024 - 2^970]. *)
Definition overflow : Q := inject_Z (2 ^ 1024 - 2 ^ 970).

(** The finite result [q] of an operation, as a float. *)
Definition rounded (q : Q) : pyfloat :=
  if Qle_bool overflow q then PInf
  else if Qle_bool q (- overflow) then NInf
  else Finite q.

(** [float(z)] for an [int] that fits. *)
Definition of_Z (z : Z) : pyfloat := Finite (inject_Z z).

Definition neg (x : pyfloat) : pyfloat :=
  match x with
  | Finite q => Finite (- q)
  | PInf => NInf
  | NInf => PInf
  | NaN => NaN
  end.

(** [x + y] *)
Definition add (x y : pyfloat) : pyfloat :=
  match x, y with
  | NaN, _ => NaN
  | _, NaN => NaN
  | Finite a, Finite b => rounded (a + b)
  | PInf, NInf => NaN
  | NInf, PInf => NaN
  | PInf, _ => PInf
  | _, PInf => PInf
  | NInf, _ => NInf
  | _, NInf => NInf
  end.

(** [x - y] *)
Definition sub (x y : pyfloat) : pyfloat := add x (neg y).

(** The infinity with the sign of [a], or NaN when [a] is zero. *)
Definition infinity_times (inf : pyfloat) (a : Q) : pyfloat :=
  if Qeq_bool a 0 then NaN
  else if Qle_bool 0 a then inf
  else neg inf.

(** [x * y] *)
Definition mul (x y : pyfloat) : pyfloat :=
  match x, y with
  | NaN, _ => NaN
  | _, NaN => NaN
  | Finite a, Finite b => rounded (a * b)
  | Finite a, inf => infinity_times inf a
  | inf, Finite a => infinity_times inf a
  | PInf, PInf => PInf
  | NInf, NInf => PInf
  | PInf, NInf => NInf
  | NInf, PInf => NInf
  end.

Definition is_zero (x : pyfloat) : bool :=
  match x with Finite q => Qeq_bool q 0 | _ => false end.

(** The quotient of [x] by a divisor [y] that is not zero. *)
Definition quotient (x y : pyfloat) : pyfloat :=
  match x, y with
  | NaN, _ => NaN
  | _, NaN => NaN
  | Finite a, Finite b => rounded (a / b)
  | Finite _, _ => Finite 0
  | inf, Finite b => if Qle_bool 0 b then inf else neg inf
  | _, _ => NaN
  end.

(** [x / y]: a zero divisor raises. *)
Definition div (x y : pyfloat) : result pyfloat :=
  if is_zero y then Raise ZeroDivisionError else Ok (quotient x y).

(** [x < y]: no comparison holds of NaN. *)
Definition ltb (x y : pyfloat) : bool :=
  match x, y with
  | NaN, _ => false
  | _, NaN => false
  | Finite a, Finite b => negb (Qle_bool b a)
  | NInf, NInf => false
  | NInf, _ => true
  | _, NInf => false
  | PInf, _ => false
  | Finite _, PInf => true
  end.

(** [x <= y] *)
Definition leb (x y : pyfloat) : bool :=
  match x, y with
  | NaN, _ => false
  | _, NaN => false
  | Finite a, Finite b => Qle_bool a b
  | NInf, _ => true
  | _, PInf => true
  | _, NInf => false
  | PInf, _ => false
  end.

(** [float(z)]: an [int] beyond the range of a double raises. *)
Definition of_int (z : Z) : result pyfloat :=
  if Qle_bool overflow (inject_Z (Z.abs z)) then Raise OverflowError
  else Ok (of_Z z).

(** [int(x)]: truncation toward zero. *)
Definition to_int (x : pyfloat) : result Z :=
  match x with
  | Finite q => Ok (Z.quot (Qnum q) (Zpos (Qden q)))
  | NaN => Raise ValueError
  | _ => Raise OverflowError
  end.

(** [bool(x)] *)
Definition truthy (x : pyfloat) : bool :=
  match x with Finite q => negb (Qeq_bool q 0) | _ => true end.

End Float.

Module Py.

(** [v is None] *)
Definition is_none (v : json) : bool :=
  match v with JNull => true | _ => false end.

(** Truth value of [v], as used by [v or default]. *)
Definition truthy (v : json) : bool :=
  match v with
  | JNull => false
  | JBool b => b
  | JInt z => negb (z =? 0)%Z
  | JFloat x => Float.truthy x
  | JStr s => negb (String.eqb s "")
  | JList items => match items with [] => false | _ => true end
  | JDict fields => match fields with [] => false | _ => true end
  end.

(** The number an ordering comparison sees, an [int] with its exact value;
    [str], [list], [dict] and [None] do not compare with an [int]. *)
Definition number (v : json) : result pyfloat :=
  match v with
  | JBool b => Ok (Finite (if b then 1 else 0))
  | JInt z => Ok (Float.of_Z z)
  | JFloat x => Ok x
  | _ => Raise TypeError
  end.

(** [lo <= v <= hi] *)
Definition between (lo hi : Z) (v : json) : result bool :=
  x ← number v;
  Ok (Float.leb (Float.of_Z lo) x && Float.leb x (Float.of_Z hi)).

(** [v > bound] *)
Definition greater (v : json) (bound : Z) : result bool :=
  x ← number v; Ok (Float.ltb (Float.of_Z bound) x).

(** [v in options], for a tuple of strings: only an equal [str] is in it. *)
Definition in_strings (v : json) (options : list string) : bool :=
  match v with JStr s => Text.one_of s options | _ => false end.

(** The value a dict holds under [key], if any. *)
Fixpoint find (fields : list (string * json)) (key : string) : option json :=
  match fields with
  | [] => None
  | (k, v) :: rest => if String.eqb k key then Some v else find rest key
  end.

(** [d.get(key, default)] *)
Definition get (fields : list (string * json)) (key : string)
    (default : json) : json :=
  match find fields key with Some v => v | None => default end.

(** The receiver of [.get]: anything but a dict has no such attribute. *)
Definition as_dict (v : json) : result (list (string * json)) :=
  match v with JDict fields => Ok fields | _ => Raise AttributeError end.

Fixpoint chars (s : string) : list json :=
  match s with
  | EmptyString => []
  | String c rest => JStr (String c EmptyString) :: chars rest
  end.

(** The elements [for x in v] goes through. *)
Definition iter (v : json) : result (list json) :=
  match v with
  | JList items => Ok items
  | JStr s => Ok (chars s)
  | JDict fields => Ok (map (fun kv => JStr (fst kv)) fields)
  | _ => Raise TypeError
  end.

(** The text of a value known to be a [str]. *)
Definition str_value (v : json) : string :=
  match v with JStr s => s | _ => "" end.

(** [min(a, b)] and [max(a, b)]: the second argument is chosen only when
    the comparison with the first holds, so never when it is NaN. *)
Definition min (a b : pyfloat) : pyfloat := if Float.ltb b a then b else a.
Definition max (a b : pyfloat) : pyfloat := if Float.ltb a b then b else a.

(** [enumerate(xs)] *)
Fixpoint enumerate_from {A : Type} (i : Z) (xs : list A) : list (Z * A) :=
  match xs with
  | [] => []
  | x :: rest => (i, x) :: enumerate_from (i + 1)%Z rest
  end.
Definition enumerate {A : Type} (xs : list A) : list (Z * A) :=
  enumerate_from 0%Z xs.

End Py.

(** The text conversions of the built-ins that are not expanded here:
    [str] of a float or a container, and [int] and [float] of text. *)
Record Builtins : Type := {
  repr_of : json -> string;
  int_of_text : string -> result Z;
  float_of_text : string -> result pyfloat;
}.

(** ** schema.py *)

Definition TransactionType : list string := ["Debit"; "Credit"; "Unknown"].
Definition PageType : list string :=
  ["Full_Balance_Sheet"; "Sectional_List"; "Unknown"].

Record LedgerRow : Type := {
  doc_id : string;
  page_id : Z;
  row_id : Z;
  description : string;
  transaction_type : string;
  pounds : json;
  shillings : json;
  pence : json;
  pence_fraction : json;
  model_conf_description : pyfloat;
  model_conf_transaction_type : pyfloat;
  model_conf_pounds : pyfloat;
  model_conf_shillings : pyfloat;
  model_conf_pence : pyfloat;
  model_conf_pence_fraction : pyfloat;
  rule_based_confidence : Q;
  row_confidence : pyfloat;
}.

Record PageMetadata : Type := {
  meta_doc_id : string;
  meta_page_id : Z;
  page_type : string;
  financial_structure_overview : string;
}.

(** ** scorer.py *)

(** [if x < 0.0: x = 0.0 elif x > 1.0: x = 1.0] *)
Definition clamp_unit (x : Q) : Q :=
  if Qlt_le_dec x 0 then 0 else if Qlt_le_dec 1 x then 1 else x.

Definition compute_rule_based_confidence
    (row : LedgerRow) (typical_max_pounds : option Z) : result Q :=
  let score := 1 in
  (* 1) description length check *)
  let text := Text.strip (description row) in
  let score :=
    if (String.length text =? 0)%nat then score - 0.4
    else if (String.length text <? 3)%nat then score - 0.2
    else score in
  (* 2) numeric sanity checks *)
  let pounds := pounds row in
  let shillings := shillings row in
  let pence := pence row in
  score ←
    (if Py.is_none shillings then Ok score
     else inside ← Py.between 0 19 shillings;
          Ok (if negb inside then score - 0.2 else score));
  score ←
    (if Py.is_none pence then Ok score
     else inside ← Py.between 0 11 pence;
          Ok (if negb inside then score - 0.2 else score));
  score ←
    match typical_max_pounds with
    | Some typical =>
        if Py.is_none pounds then Ok score
        else large ← Py.greater pounds (typical * 3);
             Ok (if (large : bool) then score - 0.2 else score)
    | None => Ok score
    end;
  (* 3) transaction type check *)
  let score :=
    if negb (Text.one_of (transaction_type row) TransactionType)
    then score - 0.3 else score in
  (* 4) no monetary field at all *)
  let score :=
    if Py.is_none pounds && Py.is_none shillings && Py.is_none pence
    then score - 0.3 else score in
  Ok (clamp_unit score).

Definition model_confs (row : LedgerRow) : list pyfloat :=
  [ model_conf_description row; model_conf_transaction_type row;
    model_conf_pounds row; model_conf_shillings row;
    model_conf_pence row; model_conf_pence_fraction row ].

(** [sum(xs)] starts from 0 and adds from the left. *)
Definition py_sum (xs : list pyfloat) : pyfloat :=
  fold_left Float.add xs (Finite 0).

(** The closing clamp of [compute_row_confidence]: neither test holds of
    NaN. *)
Definition clamp_float (x : pyfloat) : pyfloat :=
  if Float.ltb x (Finite 0) then Finite 0
  else if Float.ltb (Finite 1) x then Finite 1
  else x.

Definition compute_row_confidence
    (row : LedgerRow) (rule_weight : pyfloat) (typical_max_pounds : option Z)
  : result pyfloat :=
  rule_conf ← compute_rule_based_confidence row typical_max_pounds;
  let confs := model_confs row in
  model_conf_avg ←
    (if (0 <? List.length confs)%nat
     then Float.div (py_sum confs)
                    (Float.of_Z (Z.of_nat (List.length confs)))
     else Ok (Finite 0));
  let rw := Py.max (Finite 0) (Py.min (Finite 1) rule_weight) in
  let combined :=
    Float.add (Float.mul rw (Finite rule_conf))
              (Float.mul (Float.sub (Finite 1) rw) model_conf_avg) in
  Ok (clamp_float combined).

(** ** The outside world *)

(** What a call to a generative service comes to, as [json.loads] of its
    content sees it. [LlmFailed] stands for any exception raised before the
    content is at hand (environment, prompt template, client, network). *)
Inductive llm_reply : Type :=
| LlmFailed
| LlmNoContent
| LlmMalformed
| LlmJson (data : json).

Inductive ocr_reply : Type :=
| OcrFailed
| OcrNoContent
| OcrContent (text : string).

(** What the call log records: an entry into [classify_page_with_llm],
    [extract_page_with_llm] or [ocr_page_with_gpt], and a write of a cache
    file. *)
Inductive event : Type :=
| ClassifyCall (doc : string) (page : Z)
| ExtractCall (doc : string) (page : Z)
| OcrCall (image_path : string)
| CacheWrite (doc : string) (page : Z).

(** The collaborators, each a transition of the external state [S]. *)
Record Services (S : Type) : Type := {
  classifier : string -> Z -> string -> S -> llm_reply * S;
  extractor : PageMetadata -> string -> S -> llm_reply * S;
  transcriber : string -> S -> ocr_reply * S;
  renderer : string -> S -> result (list (Z * string)) * S;
}.
Arguments classifier {S} _ _ _ _ _.
Arguments extractor {S} _ _ _ _.
Arguments transcriber {S} _ _ _.
Arguments renderer {S} _ _ _.

(** [cache] holds the characters of the transcription files, keyed by
    document and page;
    [log] records the calls made, oldest first. *)
Record World (S : Type) : Type := {
  outside : S;
  cache : gmap (string * Z) string;
  log : list event;
}.
Arguments outside {S} _.
Arguments cache {S} _.
Arguments log {S} _.

Definition M (S A : Type) : Type := World S -> result A * World S.

#[global] Instance M_ret {S} : MRet (M S) := fun A a w => (Ok a, w).
#[global] Instance M_bind {S} : MBind (M S) := fun A B f m w =>
  match m w with
  | (Ok a, w') => f a w'
  | (Raise e, w') => (Raise e, w')
  end.

Definition lift {S A} (r : result A) : M S A := fun w => (r, w).

(** [try: body except Exception as e: handler] *)
Definition try_except {S A} (body : M S A) (handler : exn -> M S A) : M S A :=
  fun w =>
    match body w with
    | (Ok a, w') => (Ok a, w')
    | (Raise e, w') => handler e w'
    end.

Definition record {S} (e : event) : M S unit := fun w =>
  (Ok tt, {| outside := outside w; cache := cache w; log := log w ++ [e] |}).

Definition call {S A} (step : S -> A * S) : M S A := fun w =>
  let (a, s) := step (outside w) in
  (Ok a, {| outside := s; cache := cache w; log := log w |}).

(** The cache file of a page: [os.path.exists] and [f.read()] of the file
    opened in text mode, and [f.write(text)], which on a POSIX system stores
    the characters of [text] as they are. *)
Definition cache_read {S} (doc : string) (page : Z) : M S (option string) :=
  fun w => (Ok (Text.universal_newlines <$> cache w !! (doc, page)), w).

Definition cache_write {S} (doc : string) (page : Z) (text : string)
  : M S unit := fun w =>
  (Ok tt, {| outside := outside w;
             cache := <[(doc, page) := text]> (cache w);
             log := log w ++ [CacheWrite doc page] |}).

(** ** Dicts keyed by page id, in insertion order *)

Module Dict.

Definition keys {V : Type} (d : list (Z * V)) : list Z := map fst d.

(** [d[k]] *)
Fixpoint getitem {V : Type} (d : list (Z * V)) (k : Z) : result V :=
  match d with
  | [] => Raise KeyError
  | (k', v) :: rest => if (k' =? k)%Z then Ok v else getitem rest k
  end.

(** [d[k] = v] *)
Fixpoint setitem {V : Type} (d : list (Z * V)) (k : Z) (v : V)
  : list (Z * V) :=
  match d with
  | [] => [(k, v)]
  | (k', v') :: rest =>
      if (k' =? k)%Z then (k, v) :: rest else (k', v') :: setitem rest k v
  end.

(** [sorted(d.keys())] *)
Definition sorted_keys {V : Type} (d : list (Z * V)) : list Z :=
  merge_sort Z.le (keys d).

Definition key_le {V : Type} (a b : Z * V) : Prop := (fst a <= fst b)%Z.

#[global] Instance key_le_dec {V : Type} (a b : Z * V)
  : Decision (key_le a b) := Z_le_dec (fst a) (fst b).

(** [sorted(d.items())]: the keys of a dict differ, so the order of the
    pairs is the order of their keys. *)
Definition sorted_items {V : Type} (d : list (Z * V)) : list (Z * V) :=
  merge_sort key_le d.

End Dict.

Section Pipeline.

Context {S : Type} (svc : Services S) (B : Builtins).

(** *** The built-ins [str], [int] and [float] on decoded values *)

Definition py_str (v : json) : string :=
  match v with
  | JStr s => s
  | JNull => "None"
  | JBool b => if b then "True" else "False"
  | JInt z => pretty z
  | _ => repr_of B v
  end.

Definition py_int (v : json) : result Z :=
  match v with
  | JInt z => Ok z
  | JBool b => Ok (if b then 1 else 0)%Z
  | JFloat x => Float.to_int x
  | JStr s => int_of_text B s
  | _ => Raise TypeError
  end.

Definition py_float (v : json) : result pyfloat :=
  match v with
  | JFloat x => Ok x
  | JInt z => Float.of_int z
  | JBool b => Ok (Finite (if b then 1 else 0))
  | JStr s => float_of_text B s
  | _ => Raise TypeError
  end.

(** [content = response.choices[0].message.content], checked against
    [None], then [json.loads(content)]. *)
Definition loads (reply : llm_reply) : result json :=
  match reply with
  | LlmFailed => Raise ServiceError
  | LlmNoContent => Raise RuntimeError
  | LlmMalformed => Raise JSONDecodeError
  | LlmJson data => Ok data
  end.

(** *** classifier.py *)

(** [classify_page_with_llm] from [data = json.loads(content)] on. *)
Definition parse_page_meta (doc_id : string) (page_id : Z) (data : json)
  : result PageMetadata :=
  data ← Py.as_dict data;
  let page_type_raw := Py.get data "page_type" (JStr "Unknown") in
  let page_type :=
    if negb (Py.in_strings page_type_raw PageType) then "Unknown"
    else Py.str_value page_type_raw in
  let overview := Py.get data "financial_structure_overview" (JStr "") in
  let doc := py_str (Py.get data "doc_id" (JStr doc_id)) in
  page ← py_int (Py.get data "page_id" (JInt page_id));
  Ok {| meta_doc_id := doc;
        meta_page_id := page;
        page_type := page_type;
        financial_structure_overview := py_str overview |}.

Definition classify_page_with_llm
    (doc_id : string) (page_id : Z) (page_text : string)
  : M S PageMetadata :=
  _ ← record (ClassifyCall doc_id page_id);
  reply ← call (classifier svc doc_id page_id page_text);
  lift (data ← loads reply; parse_page_meta doc_id page_id data).

(** The [except] branch of [classify_page]. *)
Definition classify_fallback
    (doc_id : string) (page_id : Z) (page_text : string) : PageMetadata :=
  let normalized_text := Text.lower page_text in
  if Text.contains "total" normalized_text
     || Text.contains "balance" normalized_text
  then {| meta_doc_id := doc_id;
          meta_page_id := page_id;
          page_type := "Full_Balance_Sheet";
          financial_structure_overview :=
            "Fallback: classified as balance/summary page based on presence "
            ++ "of 'total' or 'balance'." |}
  else {| meta_doc_id := doc_id;
          meta_page_id := page_id;
          page_type := "Sectional_List";
          financial_structure_overview :=
            "Fallback: classified as list page using simple keyword heuristic."
       |}.

Definition classify_page
    (doc_id : string) (page_id : Z) (page_text : string)
  : M S PageMetadata :=
  try_except
    (classify_page_with_llm doc_id page_id page_text)
    (fun _ => mret (classify_fallback doc_id page_id page_text)).

(** *** extractor.py *)

(** The body of the loop over [enumerate(rows_data)]. *)
Definition parse_row (page_meta : PageMetadata) (i : Z) (r : json)
  : result LedgerRow :=
  r ← Py.as_dict r;
  let doc := py_str (Py.get r "doc_id" (JStr (meta_doc_id page_meta))) in
  page ← py_int (Py.get r "page_id" (JInt (meta_page_id page_meta)));
  row ← py_int (Py.get r "row_id" (JInt i));
  let described := Py.get r "description" (JStr "") in
  let description :=
    py_str (if Py.truthy described then described else JStr "") in
  let tx_raw := Py.get r "transaction_type" (JStr "Unknown") in
  let tx_type :=
    if Py.in_strings tx_raw TransactionType then Py.str_value tx_raw
    else "Unknown" in
  let pounds := Py.get r "pounds" JNull in
  let shillings := Py.get r "shillings" JNull in
  let pence := Py.get r "pence" JNull in
  let pence_fraction := Py.get r "pence_fraction" JNull in
  mc_desc ← py_float (Py.get r "model_conf_description" (JFloat (Finite 0)));
  mc_tx ← py_float (Py.get r "model_conf_transaction_type" (JFloat (Finite 0)));
  mc_pounds ← py_float (Py.get r "model_conf_pounds" (JFloat (Finite 0)));
  mc_shillings ← py_float (Py.get r "model_conf_shillings" (JFloat (Finite 0)));
  mc_pence ← py_float (Py.get r "model_conf_pence" (JFloat (Finite 0)));
  mc_pf ← py_float (Py.get r "model_conf_pence_fraction" (JFloat (Finite 0)));
  Ok {| doc_id := doc;
        page_id := page;
        row_id := row;
        description := description;
        transaction_type := tx_type;
        pounds := pounds;
        shillings := shillings;
        pence := pence;
        pence_fraction := pence_fraction;
        model_conf_description := mc_desc;
        model_conf_transaction_type := mc_tx;
        model_conf_pounds := mc_pounds;
        model_conf_shillings := mc_shillings;
        model_conf_pence := mc_pence;
        model_conf_pence_fraction := mc_pf;
        rule_based_confidence := 0;
        row_confidence := Finite 0 |}.

(** [extract_page_with_llm] from [data = json.loads(content)] on. *)
Definition parse_rows (page_meta : PageMetadata) (data : json)
  : result (list LedgerRow) :=
  data ← Py.as_dict data;
  rows_data ← Py.iter (Py.get data "rows" (JList []));
  result_map (fun ir => parse_row page_meta (fst ir) (snd ir))
             (Py.enumerate rows_data).

Definition extract_page_with_llm
    (page_meta : PageMetadata) (page_text : string) : M S (list LedgerRow) :=
  _ ← record (ExtractCall (meta_doc_id page_meta) (meta_page_id page_meta));
  reply ← call (extractor svc page_meta page_text);
  lift (data ← loads reply; parse_rows page_meta data).

(** The row the [except] branch of [extract_page] builds. *)
Definition dummy_row (page_meta : PageMetadata) : LedgerRow :=
  let base_description :=
    if String.eqb (page_type page_meta) "Full_Balance_Sheet"
    then "Dummy balance entry inferred from summary-like page text."
    else "Dummy individual transaction inferred from list-like page text." in
  {| doc_id := meta_doc_id page_meta;
     page_id := meta_page_id page_meta;
     row_id := 0;
     description := base_description;
     transaction_type := "Unknown";
     pounds := JNull;
     shillings := JNull;
     pence := JNull;
     pence_fraction := JNull;
     model_conf_description := Finite 0.3;
     model_conf_transaction_type := Finite 0.2;
     model_conf_pounds := Finite 0;
     model_conf_shillings := Finite 0;
     model_conf_pence := Finite 0;
     model_conf_pence_fraction := Finite 0;
     rule_based_confidence := 0;
     row_confidence := Finite 0 |}.

(** [row["rule_based_confidence"] = rb; row["row_confidence"] = combined] *)
Definition set_confidences (row : LedgerRow) (rb : Q) (combined : pyfloat)
  : LedgerRow :=
  {| doc_id := doc_id row;
     page_id := page_id row;
     row_id := row_id row;
     description := description row;
     transaction_type := transaction_type row;
     pounds := pounds row;
     shillings := shillings row;
     pence := pence row;
     pence_fraction := pence_fraction row;
     model_conf_description := model_conf_description row;
     model_conf_transaction_type := model_conf_transaction_type row;
     model_conf_pounds := model_conf_pounds row;
     model_conf_shillings := model_conf_shillings row;
     model_conf_pence := model_conf_pence row;
     model_conf_pence_fraction := model_conf_pence_fraction row;
     rule_based_confidence := rb;
     row_confidence := combined |}.

(** The body of the closing loop of [extract_page]. *)
Definition apply_confidences (row : LedgerRow) : result LedgerRow :=
  rb ← compute_rule_based_confidence row None;
  combined ← compute_row_confidence row (Finite 0.4) None;
  Ok (set_confidences row rb combined).

Definition extract_page (page_meta : PageMetadata) (page_text : string)
  : M S (list LedgerRow) :=
  rows ← try_except
    (extract_page_with_llm page_meta page_text)
    (fun _ => mret [dummy_row page_meta]);
  lift (result_map apply_confidences rows).

(** *** pipeline.py *)

Definition process_single_page
    (doc_id : string) (page_id : Z) (page_text : string)
  : M S (PageMetadata * list LedgerRow) :=
  page_meta ← classify_page doc_id page_id page_text;
  rows ← extract_page page_meta page_text;
  mret (page_meta, rows).

(** The loop of [process_document] over the sorted page ids, with the two
    lists it appends to. *)
Fixpoint process_pages
    (doc_id : string) (pages : list (Z * string)) (ids : list Z)
    (all_page_meta : list PageMetadata) (all_rows : list LedgerRow)
  : M S (list PageMetadata * list LedgerRow) :=
  match ids with
  | [] => mret (all_page_meta, all_rows)
  | page_id :: rest =>
      page_text ← lift (Dict.getitem pages page_id);
      processed ← process_single_page doc_id page_id page_text;
      process_pages doc_id pages rest
        (all_page_meta ++ [fst processed]) (all_rows ++ snd processed)
  end.

Definition process_document (doc_id : string) (pages : list (Z * string))
  : M S (list PageMetadata * list LedgerRow) :=
  process_pages doc_id pages (Dict.sorted_keys pages) [] [].

(** The pages of [items] processed one after the other, as listed, with
    their metadata and rows concatenated in that order. *)
Fixpoint pages_in_turn (doc_id : string) (items : list (Z * string))
  : M S (list PageMetadata * list LedgerRow) :=
  match items with
  | [] => mret ([], [])
  | (page_id, page_text) :: rest =>
      first ← process_single_page doc_id page_id page_text;
      others ← pages_in_turn doc_id rest;
      mret (fst first :: fst others, (snd first ++ snd others)%list)
  end.

(** *** ocr.py and batch.py *)

Definition ocr_page_with_gpt (image_path : string) : M S string :=
  _ ← record (OcrCall image_path);
  reply ← call (transcriber svc image_path);
  match reply with
  | OcrFailed => lift (Raise ServiceError)
  | OcrNoContent => lift (Raise RuntimeError)
  | OcrContent content => mret (Text.strip content)
  end.

Definition export_pdf_pages_as_images (doc_id : string)
  : M S (list (Z * string)) :=
  images ← call (renderer svc doc_id); lift images.

(** The body of the loop of [ocr_pdf_to_pages_cached]. *)
Definition cached_page_text (doc_id : string) (page_id : Z)
    (image_path : string) : M S string :=
  cached ← cache_read doc_id page_id;
  match cached with
  | Some text => mret text
  | None =>
      page_text ← ocr_page_with_gpt image_path;
      _ ← cache_write doc_id page_id page_text;
      mret page_text
  end.

Fixpoint ocr_pages (doc_id : string) (items : list (Z * string))
    (pages_text : list (Z * string)) : M S (list (Z * string)) :=
  match items with
  | [] => mret pages_text
  | (page_id, image_path) :: rest =>
      text ← cached_page_text doc_id page_id image_path;
      ocr_pages doc_id rest (Dict.setitem pages_text page_id text)
  end.

Definition ocr_pdf_to_pages_cached (doc_id : string)
  : M S (list (Z * string)) :=
  page_images ← export_pdf_pages_as_images doc_id;
  ocr_pages doc_id (Dict.sorted_items page_images) [].

End Pipeline.

(** ** Test doubles *)

(** Services that give the same replies at every call. *)
Definition fixed_services (classified extracted : llm_reply)
    (transcribed : ocr_reply) (rendered : result (list (Z * string)))
  : Services unit :=
  {| classifier := fun _ _ _ s => (classified, s);
     extractor := fun _ _ s => (extracted, s);
     transcriber := fun _ s => (transcribed, s);
     renderer := fun _ s => (rendered, s) |}.

(** Every service call fails. *)
Definition offline : Services unit :=
  fixed_services LlmFailed LlmFailed OcrFailed (Raise FileNotFoundError).

(** Text conversions for replies that hold no numeral text: [int] and
    [float] of text raise, and nothing is rendered. *)
Definition no_numeral_text : Builtins :=
  {| repr_of := fun _ => "";
     int_of_text := fun _ => Raise ValueError;
     float_of_text := fun _ => Raise ValueError |}.

Definition fresh_world : World unit :=
  {| outside := tt; cache := ∅; log := [] |}.

(** ** The rule table and the other notions the properties are stated with *)

Definition penalty (applies : bool) (amount : Q) : Q :=
  if applies then amount else 0.

(** A monetary field that holds a number outside [[lo, hi]]. *)
Definition out_of_range (lo hi : Z) (v : json) : bool :=
  match Py.number v with
  | Ok x => negb (Float.leb (Float.of_Z lo) x && Float.leb x (Float.of_Z hi))
  | Raise _ => false
  end.

(** A monetary field that holds a number above [bound]. *)
Definition exceeds (v : json) (bound : Z) : bool :=
  match Py.number v with
  | Ok x => Float.ltb (Float.of_Z bound) x
  | Raise _ => false
  end.

Definition description_penalty (text : string) : Q :=
  if (String.length text =? 0)%nat then 0.4
  else if (String.length text <? 3)%nat then 0.2
  else 0.

Definition other_penalties (row : LedgerRow) (typical_max_pounds : option Z)
  : Q :=
  penalty (out_of_range 0 19 (shillings row)) 0.2
  + penalty (out_of_range 0 11 (pence row)) 0.2
  + penalty (match typical_max_pounds with
             | Some typical => exceeds (pounds row) (typical * 3)
             | None => false
             end) 0.2
  + penalty (negb (Text.one_of (transaction_type row) TransactionType)) 0.3
  + penalty (Py.is_none (pounds row) && Py.is_none (shillings row)
             && Py.is_none (pence row)) 0.3.

(** The rule table read with [text] as the description: 1.0 less every
    penalty that applies, clamped at the end. *)
Definition rule_score_of (text : string) (row : LedgerRow)
    (typical_max_pounds : option Z) : Q :=
  clamp_unit (1 - description_penalty text
                - other_penalties row typical_max_pounds).

(** A monetary field as the schema types it or as a number of another kind:
    absent, or something an [int] compares with. *)
Definition number_or_none (v : json) : bool :=
  match v with
  | JNull | JBool _ | JInt _ | JFloat _ => true
  | _ => false
  end.

(** The monetary fields the rule checks compare are numbers or absent. *)
Definition comparable_money (row : LedgerRow) (typical_max_pounds : option Z)
  : bool :=
  number_or_none (shillings row) && number_or_none (pence row)
  && match typical_max_pounds with
     | Some _ => number_or_none (pounds row)
     | None => true
     end.

(** Two floats of the same value: finite values are compared as
    rationals. *)
Definition same (x y : pyfloat) : Prop :=
  match x, y with
  | Finite a, Finite b => a == b
  | PInf, PInf | NInf, NInf | NaN, NaN => True
  | _, _ => False
  end.


(** A finite float of magnitude at most [2^1020]: six of them add up
    without overflow, in whatever way the partial sums are rounded. *)
Definition bound : Q := inject_Z (2 ^ 1020).

Definition ordinary (x : pyfloat) : Prop :=
  match x with Finite q => - bound <= q <= bound | _ => False end.

(** Clamping to the unit interval, in the claims' words: a number below 0
    becomes 0, a number above 1 becomes 1. *)
Definition clamp01 (x : pyfloat) : pyfloat :=
  match x with
  | Finite q => Finite (clamp_unit q)
  | PInf => Finite 1
  | NInf => Finite 0
  | NaN => NaN
  end.

(** [rw * rule + (1 - rw) * mean] *)
Definition blend (rw rule mean : pyfloat) : pyfloat :=
  Float.add (Float.mul rw rule) (Float.mul (Float.sub (Finite 1) rw) mean).

(** The arithmetic mean of the six model-reported confidences, in float
    arithmetic. *)
Definition float_mean (row : LedgerRow) : pyfloat :=
  Float.quotient (py_sum (model_confs row)) (Finite 6).

(** The number a finite float stands for. *)
Definition value (x : pyfloat) : Q :=
  match x with Finite q => q | _ => 0 end.

Definition is_finite (x : pyfloat) : Prop :=
  match x with Finite _ => True | _ => False end.

(** The unweighted mean of the six model-reported confidences, for a row
    whose confidences are finite. *)
Definition model_mean (row : LedgerRow) : Q :=
  (value (model_conf_description row)
   + value (model_conf_transaction_type row)
   + value (model_conf_pounds row) + value (model_conf_shillings row)
   + value (model_conf_pence row) + value (model_conf_pence_fraction row))
  / 6.

Definition in_unit (x : Q) : Prop := 0 <= x <= 1.

(** A float that is a number of the unit interval. *)
Definition unit_float (x : pyfloat) : Prop :=
  match x with Finite q => in_unit q | _ => False end.

(** The schema's range of the model-reported confidences. *)
Definition model_confs_in_unit (row : LedgerRow) : Prop :=
  Forall unit_float (model_confs row).

Definition with_description (row : LedgerRow) (text : string) : LedgerRow :=
  {| doc_id := doc_id row;
     page_id := page_id row;
     row_id := row_id row;
     description := text;
     transaction_type := transaction_type row;
     pounds := pounds row;
     shillings := shillings row;
     pence := pence row;
     pence_fraction := pence_fraction row;
     model_conf_description := model_conf_description row;
     model_conf_transaction_type := model_conf_transaction_type row;
     model_conf_pounds := model_conf_pounds row;
     model_conf_shillings := model_conf_shillings row;
     model_conf_pence := model_conf_pence row;
     model_conf_pence_fraction := model_conf_pence_fraction row;
     rule_based_confidence := rule_based_confidence row;
     row_confidence := row_confidence row |}.

(** A row of the schema with the given description, transaction type and
    money, its confidences at zero. *)
Definition plain_row (text tx : string) (l s d : json) : LedgerRow :=
  {| doc_id := "1704";
     page_id := 1;
     row_id := 0;
     description := text;
     transaction_type := tx;
     pounds := l;
     shillings := s;
     pence := d;
     pence_fraction := JNull;
     model_conf_description := Finite 0;
     model_conf_transaction_type := Finite 0;
     model_conf_pounds := Finite 0;
     model_conf_shillings := Finite 0;
     model_conf_pence := Finite 0;
     model_conf_pence_fraction := Finite 0;
     rule_based_confidence := 0;
     row_confidence := Finite 0 |}.

(** Page ids of the classification calls of a log, oldest first. *)
Definition classified_pages (l : list event) : list Z :=
  omap (fun e => match e with ClassifyCall _ page => Some page | _ => None end)
       l.

(** Image paths of the transcription calls of a log, oldest first. *)
Definition ocr_calls (l : list event) : list string :=
  omap (fun e => match e with OcrCall path => Some path | _ => None end) l.

(** What the validation of an enumerated field makes of a decoded value. *)
Definition normalized (v : json) (options : list string) : string :=
  if Py.in_strings v options then Py.str_value v else "Unknown".

(** A float that is zero or above, the positive infinity included. *)
Definition not_negative (x : pyfloat) : Prop :=
  Float.leb (Finite 0) x = true.

(** A float that is a positive number of the unit interval. *)
Definition positive_unit_float (x : pyfloat) : Prop :=
  match x with Finite q => 0 < q <= 1 | _ => False end.

(** A row as [extract_page] hands it out: both final confidences are the
    scorer's values for that row; the rule score is a positive number of
    the unit interval; the row confidence is a number of the unit interval
    when the six model confidences are finite, and a positive one when
    none of the six is negative or NaN. *)
Definition finalized (r : LedgerRow) : Prop :=
  compute_rule_based_confidence r None = Ok (rule_based_confidence r)
  /\ compute_row_confidence r (Finite 0.4) None = Ok (row_confidence r)
  /\ in_unit (rule_based_confidence r)
  /\ 0 < rule_based_confidence r
  /\ (Forall is_finite (model_confs r) -> unit_float (row_confidence r))
  /\ (Forall not_negative (model_confs r) ->
      positive_unit_float (row_confidence r)).

(** The text with each character replaced by its lower-case one. *)
Definition lower_cased (text : string) : string :=
  string_of_list_ascii (map Text.lower_char (list_ascii_of_string text)).

(** [word] stands somewhere in [text]. *)
Definition occurs (word text : string) : Prop :=
  exists before after, text = before ++ word ++ after.

(** A page whose lower-cased text holds one of the two keywords of the
    fallback classification. *)
Definition keyword_page (text : string) : Prop :=
  occurs "total" (lower_cased text) \/ occurs "balance" (lower_cased text).

(** A reply that is no decoded content. *)
Definition no_content (reply : llm_reply) : bool :=
  match reply with LlmJson _ => false | _ => true end.

(** The coercions of a row that can raise all return. *)
Definition row_coercible (B : Builtins) (meta : PageMetadata) (i : Z)
    (fields : list (string * json)) : Prop :=
  (exists z, py_int B (Py.get fields "page_id" (JInt (meta_page_id meta)))
             = Ok z)
  /\ (exists z, py_int B (Py.get fields "row_id" (JInt i)) = Ok z)
  /\ Forall (fun key => exists q,
                 py_float B (Py.get fields key (JFloat (Finite 0))) = Ok q)
            [ "model_conf_description"; "model_conf_transaction_type";
              "model_conf_pounds"; "model_conf_shillings";
              "model_conf_pence"; "model_conf_pence_fraction" ].

(** The tests of [Qle_bool] and [Qeq_bool] among the hypotheses, as
    propositions. *)
Ltac qbool :=
  repeat match goal with
         | H : Qle_bool _ _ = true |- _ => apply Qle_bool_iff in H
         | H : Qle_bool ?a ?b = false |- _ =>
             assert (b < a)
               by (apply Qnot_le_lt; intros HH; apply Qle_bool_iff in HH;
                   congruence);
             clear H
         | H : Qeq_bool _ _ = true |- _ => apply Qeq_bool_iff in H
         | H : Qeq_bool _ _ = false |- _ => apply Qeq_bool_neq in H
         end.

(** Case analysis on the tests of [Qle_bool] and [Qeq_bool] of the goal. *)
Ltac qcases :=
  repeat match goal with
         | |- context [Qle_bool ?a ?b] =>
             let E := fresh "E" in destruct (Qle_bool a b) eqn:E
         | |- context [Qeq_bool ?a ?b] =>
             let E := fresh "E" in destruct (Qeq_bool a b) eqn:E
         end;
  qbool.

(** Inversion of a bind in [result] that returned. *)
Ltac bind_ok H :=
  match type of H with
  | mbind _ ?m = Ok _ =>
      let E := fresh "E" in
      destruct m eqn:E; cbn [mbind result_bind] in H; [| discriminate H]
  end.

(** A string without its first character. *)
Definition tail (s : string) : string :=
  match s with EmptyString => EmptyString | String _ rest => rest end.

(** A row in order but for the blanks around its one-letter description. *)
Definition padded_row : LedgerRow :=
  plain_row " a " "Credit" (JInt 1) (JInt 2) (JInt 3).

(** A row whose description is two blanks. *)
Definition blank_row : LedgerRow :=
  plain_row "  " "Credit" (JInt 1) (JInt 2) (JInt 3).

Definition empty_row : LedgerRow :=
  plain_row "" "Unknown" JNull JNull JNull.

(** The text a cached transcription returns for a page: the entry the
    cache held before the run, as reading in text mode gives it, or else
    the entry the cache holds after the run. *)
Definition page_text (doc : string) (before after : gmap (string * Z) string)
    (page : Z) : string :=
  match before !! (doc, page) with
  | Some stored => Text.universal_newlines stored
  | None => default "" (after !! (doc, page))
  end.





(** A row with model confidences within the unit interval. *)
Definition confident_row : LedgerRow :=
  {| doc_id := "1704";
     page_id := 1;
     row_id := 0;
     description := "Rent of the glebe";
     transaction_type := "Credit";
     pounds := JInt 12;
     shillings := JInt 25;
     pence := JInt 6;
     pence_fraction := JNull;
     model_conf_description := Finite 0.9;
     model_conf_transaction_type := Finite 0.8;
     model_conf_pounds := Finite 0.7;
     model_conf_shillings := Finite 0.6;
     model_conf_pence := Finite 0.5;
     model_conf_pence_fraction := Finite 0.1;
     rule_based_confidence := 0;
     row_confidence := Finite 0 |}.

(** The row with all six model confidences set to [c]. *)
Definition with_confidence (row : LedgerRow) (c : pyfloat) : LedgerRow :=
  {| doc_id := doc_id row;
     page_id := page_id row;
     row_id := row_id row;
     description := description row;
     transaction_type := transaction_type row;
     pounds := pounds row;
     shillings := shillings row;
     pence := pence row;
     pence_fraction := pence_fraction row;
     model_conf_description := c;
     model_conf_transaction_type := c;
     model_conf_pounds := c;
     model_conf_shillings := c;
     model_conf_pence := c;
     model_conf_pence_fraction := c;
     rule_based_confidence := rule_based_confidence row;
     row_confidence := row_confidence row |}.

(** A row whose model confidences are all 0.75. *)
Definition steady_row : LedgerRow :=
  with_confidence confident_row (Finite 0.75).


(** The metadata the fallback gives page 1 of document 1704 on empty text. *)
Definition list_page : PageMetadata := classify_fallback "1704" 1 "".

(** A document of two scanned pages, rendered in no particular order, whose
    transcription always succeeds. *)
Definition two_scans : Services unit :=
  fixed_services LlmFailed LlmFailed (OcrContent " Rent   2 10 0 ")
                 (Ok [(2%Z, "page_2.png"); (1%Z, "page_1.png")]).

(** An extraction service that finds no row on the page. *)
Definition no_rows : Services unit :=
  fixed_services LlmFailed (LlmJson (JDict [("rows", JList [])])) OcrFailed
                 (Raise FileNotFoundError).

(** A classification service that answers with a page type outside the
    schema. *)
Definition odd_page_type : Services unit :=
  fixed_services
    (LlmJson (JDict [("page_type", JStr "Invoice");
                     ("financial_structure_overview", JStr "One column.")]))
    LlmFailed OcrFailed (Raise FileNotFoundError).

(** The world the first cached transcription of the two scans leaves. *)
Definition after_first_run : World unit :=
  snd (ocr_pdf_to_pages_cached two_scans "1704" fresh_world).

(** An extraction service whose only row gives its shillings as text. *)
Definition text_shillings : Services unit :=
  fixed_services LlmFailed
    (LlmJson (JDict [("rows", JList [JDict [("shillings", JStr "5")]])]))
    OcrFailed (Raise FileNotFoundError).

(** An extraction service that finds one row, in order, and reports the
    confidence [c] for each of its six fields. *)
Definition one_row (c : json) : Services unit :=
  fixed_services LlmFailed
    (LlmJson
       (JDict
          [("rows",
            JList
              [JDict [("description", JStr "Rent of the glebe");
                      ("transaction_type", JStr "Credit");
                      ("pounds", JInt 12);
                      ("shillings", JInt 6);
                      ("pence", JInt 8);
                      ("model_conf_description", c);
                      ("model_conf_transaction_type", c);
                      ("model_conf_pounds", c);
                      ("model_conf_shillings", c);
                      ("model_conf_pence", c);
                      ("model_conf_pence_fraction", c)]])]))
    OcrFailed (Raise FileNotFoundError).




(** ** ocr.py: the loop without a cache *)

Section Transcription.

Context {S : Type} (svc : Services S).

(** The loop of [ocr_pdf_to_pages] over the sorted items. *)
Fixpoint ocr_pages_plain (items : list (Z * string))
    (pages_text : list (Z * string)) : M S (list (Z * string)) :=
  match items with
  | [] => mret pages_text
  | (page_id, image_path) :: rest =>
      page_text ← ocr_page_with_gpt svc image_path;
      ocr_pages_plain rest (Dict.setitem pages_text page_id page_text)
  end.

Definition ocr_pdf_to_pages (doc_id : string) : M S (list (Z * string)) :=
  page_images ← export_pdf_pages_as_images svc doc_id;
  ocr_pages_plain (Dict.sorted_items page_images) [].

End Transcription.

(** The items of [items] whose page has no cache entry, in their order. *)
Definition uncached (doc : string) (files : gmap (string * Z) string)
    (items : list (Z * string)) : list (Z * string) :=
  List.filter
    (fun item => negb (bool_decide (is_Some (files !! (doc, fst item)))))
    items.

(** A row with the description, transaction type, shillings and pence of
    [confident_row]; its identifiers, pounds, pence fraction, final
    confidences and two of its model confidences are other ones. *)
Definition other_ledger_row : LedgerRow :=
  {| doc_id := "1712";
     page_id := 7;
     row_id := 3;
     description := "Rent of the glebe";
     transaction_type := "Credit";
     pounds := JInt 9000;
     shillings := JInt 25;
     pence := JInt 6;
     pence_fraction := JStr "half";
     model_conf_description := Finite 1;
     model_conf_transaction_type := Finite 1;
     model_conf_pounds := Finite 0.7;
     model_conf_shillings := Finite 0.6;
     model_conf_pence := Finite 0.5;
     model_conf_pence_fraction := Finite 0.1;
     rule_based_confidence := 0.5;
     row_confidence := Finite 0.5 |}.

(** A reply of two rows: the first gives nothing, the second its pounds as
    text and its own row id. *)
Definition two_row_reply : list (string * json) :=
  [("rows", JList [JDict [];
                   JDict [("row_id", JInt 40); ("pounds", JStr "xij")]])].

(** ** [os.path] on a POSIX system *)

Module Path.

(** [s.endswith("/")] *)
Fixpoint ends_with_sep (s : string) : bool :=
  match s with
  | EmptyString => false
  | String c rest =>
      match rest with
      | EmptyString => Ascii.eqb c "/"
      | String _ _ => ends_with_sep rest
      end
  end.

(** One round of the loop of [os.path.join]: an absolute component starts
    the path anew, any other is appended behind one separator. *)
Definition join2 (path b : string) : string :=
  if String.prefix "/" b then b
  else if String.eqb path "" || ends_with_sep path then path ++ b
  else path ++ "/" ++ b.

(** [os.path.join(a, *p)] *)
Definition join (a : string) (p : list string) : string :=
  fold_left join2 p a.

(** [(p[:i], p[i:])] for [i = p.rfind(c)], when [c] occurs in [p]. *)
Fixpoint rsplit (c : ascii) (p : string) : option (string * string) :=
  match p with
  | EmptyString => None
  | String a rest =>
      match rsplit c rest with
      | Some (before, from) => Some (String a before, from)
      | None => if Ascii.eqb a c then Some (EmptyString, p) else None
      end
  end.

(** [os.path.basename(p)], that is [p[p.rfind("/") + 1:]] *)
Definition basename (p : string) : string :=
  match rsplit "/" p with
  | Some (_, from) => tail from
  | None => p
  end.

Fixpoint all_dots (s : string) : bool :=
  match s with
  | EmptyString => true
  | String c rest => Ascii.eqb c "." && all_dots rest
  end.

(** [os.path.splitext(p)]: the extension starts at the last dot, if that
    dot comes after the last separator and some character of the file name
    before it is no dot. *)
Definition splitext (p : string) : string * string :=
  match rsplit "." p with
  | Some (before, ext) =>
      if Text.contains "/" ext then (p, EmptyString)
      else if all_dots (basename before) then (p, EmptyString)
      else (before, ext)
  | None => (p, EmptyString)
  end.

End Path.

(** ** loader.py

    The project root, [os.path.abspath] of the parent of the source
    directory, is the parameter [root]. The PDF files are a map from paths
    to documents, a document being the list of what [extract_text] gives for
    each of its pages. *)

Module Loader.

Definition get_pdf_path (root doc_id : string) : string :=
  Path.join root ["data"; "raw"; doc_id ++ ".pdf"].

(** The loop of [load_pdf_as_pages] over [enumerate(pdf.pages, start=1)]. *)
Fixpoint load_pages (numbered : list (Z * option string))
    (pages : list (Z * string)) : list (Z * string) :=
  match numbered with
  | [] => pages
  | (i, extracted) :: rest =>
      let text :=
        match extracted with
        | Some t => if String.eqb t "" then "" else t
        | None => ""
        end in
      load_pages rest (Dict.setitem pages i text)
  end.

Definition load_pdf_as_pages (root : string)
    (files : gmap string (list (option string))) (doc_id : string)
  : result (list (Z * string)) :=
  let pdf_path := get_pdf_path root doc_id in
  match files !! pdf_path with
  | None => Raise FileNotFoundError
  | Some pdf_pages => Ok (load_pages (Py.enumerate_from 1 pdf_pages) [])
  end.

(** The loop of [export_pdf_pages_as_images]. *)
Fixpoint export_pages (out_dir : string)
    (numbered : list (Z * option string)) (page_images : list (Z * string))
  : list (Z * string) :=
  match numbered with
  | [] => page_images
  | (i, _) :: rest =>
      let out_path := Path.join out_dir ["page_" ++ pretty i ++ ".png"] in
      export_pages out_dir rest (Dict.setitem page_images i out_path)
  end.

Definition export_pdf_pages_as_images (root : string)
    (files : gmap string (list (option string))) (doc_id : string)
  : result (list (Z * string)) :=
  let pdf_path := get_pdf_path root doc_id in
  match files !! pdf_path with
  | None => Raise FileNotFoundError
  | Some pdf_pages =>
      let out_dir := Path.join root ["data"; "interim"; doc_id] in
      Ok (export_pages out_dir (Py.enumerate_from 1 pdf_pages) [])
  end.

End Loader.

(** ** batch.py: the paths *)

(** A file name that the [*] of [glob.glob] does not match: one that starts
    with a dot. *)
Definition hidden (name : string) : bool := String.prefix "." name.

(** [list_doc_ids_from_raw], from what [glob.glob] found. *)
Definition list_doc_ids_from_raw (globbed : list string) : list string :=
  let pdfs := merge_sort String.le globbed in
  map (fun p => fst (Path.splitext (Path.basename p))) pdfs.

(** [_ocr_cache_dir] *)
Definition ocr_cache_dir (root doc_id : string) : string :=
  Path.join root ["data"; "interim"; doc_id; "ocr_text"].

(** The cache file of a page in [ocr_pdf_to_pages_cached]. *)
Definition cache_path (root doc_id : string) (page_id : Z) : string :=
  Path.join (ocr_cache_dir root doc_id) ["page_" ++ pretty page_id ++ ".txt"].

(** The [n] page ids from [i] on, and the page ids [1, ..., n]. *)
Fixpoint page_numbers_from (i : Z) (n : nat) : list Z :=
  match n with
  | O => []
  | S n' => i :: page_numbers_from (i + 1) n'
  end.

Definition page_numbers (n : nat) : list Z := page_numbers_from 1 n.

(** [text or ""] for what [extract_text] gave. *)
Definition text_or_empty (extracted : option string) : string :=
  match extracted with Some t => t | None => "" end.

(** [s] holds no [c]. *)
Fixpoint lacks (c : ascii) (s : string) : bool :=
  match s with
  | EmptyString => true
  | String a rest => negb (Ascii.eqb a c) && lacks c rest
  end.

(** A name that holds no separator. *)
Definition no_sep (s : string) : bool := lacks "/" s.

(** [path] with a separator behind it, unless it is empty or has one. *)
Definition with_sep (path : string) : string :=
  if String.eqb path "" || Path.ends_with_sep path then path
  else path ++ "/".

(** The image file of page [i] under [out_dir]. *)
Definition image_path (out_dir : string) (i : Z) : string :=
  Path.join out_dir ["page_" ++ pretty i ++ ".png"].

(** ** The prompts of classifier.py and extractor.py

    The text of a prompt file, what [load_classifier_prompt_template] and
    [load_extraction_prompt_template] read, is the parameter [template]. *)

Module Str.

(** [s.replace(old, new)] for a non-empty [old], with [skip] characters of
    an occurrence still to pass over: the occurrences are taken from the
    left and do not overlap. *)
Fixpoint replace_from (skip : nat) (old new s : string) : string :=
  match s with
  | EmptyString => EmptyString
  | String c rest =>
      match skip with
      | S k => replace_from k old new rest
      | O =>
          if String.prefix old s
          then new ++ replace_from (String.length old - 1) old new rest
          else String c (replace_from 0 old new rest)
      end
  end.

(** [s.replace("", new)]: [new] before every character and at the end. *)
Fixpoint interleave (new s : string) : string :=
  match s with
  | EmptyString => new
  | String c rest => new ++ String c (interleave new rest)
  end.

(** [s.replace(old, new)] *)
Definition replace (old new s : string) : string :=
  match old with
  | EmptyString => interleave new s
  | String _ _ => replace_from 0 old new s
  end.

End Str.

Definition build_classifier_prompt (template doc_id : string) (page_id : Z)
    (page_text : string) : string :=
  Str.replace "{{PAGE_TEXT}}" page_text
    (Str.replace "{{PAGE_ID}}" (pretty page_id)
       (Str.replace "{{DOC_ID}}" doc_id template)).

Definition build_extraction_prompt (template : string)
    (page_meta : PageMetadata) (page_text : string) : string :=
  Str.replace "{{PAGE_TEXT}}" page_text
    (Str.replace "{{FINANCIAL_STRUCTURE_OVERVIEW}}"
       (financial_structure_overview page_meta)
       (Str.replace "{{PAGE_TYPE}}" (page_type page_meta)
          (Str.replace "{{PAGE_ID}}" (pretty (meta_page_id page_meta))
             (Str.replace "{{DOC_ID}}" (meta_doc_id page_meta) template)))).

(** A template cut into pieces: text between the placeholders, and the
    placeholders. *)
Inductive piece : Type :=
| Plain (text : string)
| DocId
| PageId
| PageKind
| Overview
| PageText.

(** A piece as the template file spells it. *)
Definition token (p : piece) : string :=
  match p with
  | Plain text => text
  | DocId => "{{DOC_ID}}"
  | PageId => "{{PAGE_ID}}"
  | PageKind => "{{PAGE_TYPE}}"
  | Overview => "{{FINANCIAL_STRUCTURE_OVERVIEW}}"
  | PageText => "{{PAGE_TEXT}}"
  end.

(** The pieces one after the other, each written out by [f]. *)
Fixpoint render (f : piece -> string) (pieces : list piece) : string :=
  match pieces with
  | [] => EmptyString
  | p :: rest => f p ++ render f rest
  end.

(** A text without an opening brace. *)
Definition brace_free (s : string) : bool := lacks "{" s.

Definition plain_brace_free (p : piece) : bool :=
  match p with Plain text => brace_free text | _ => true end.

(** The values the classifier prompt puts for the placeholders; the two it
    does not know stay as they are spelt. *)
Definition classifier_values (doc_id : string) (page_id : Z)
    (page_text : string) (p : piece) : string :=
  match p with
  | DocId => doc_id
  | PageId => pretty page_id
  | PageText => page_text
  | _ => token p
  end.

Definition extraction_values (page_meta : PageMetadata) (page_text : string)
    (p : piece) : string :=
  match p with
  | Plain text => text
  | DocId => meta_doc_id page_meta
  | PageId => pretty (meta_page_id page_meta)
  | PageKind => page_type page_meta
  | Overview => financial_structure_overview page_meta
  | PageText => page_text
  end.

(** [old] and [s] differ at a position both have. *)
Fixpoint clash (old s : string) : bool :=
  match old, s with
  | String a old', String b s' => negb (Ascii.eqb a b) || clash old' s'
  | _, _ => false
  end.

(** No occurrence of [old] can start within [s], whatever follows [s]. *)
Fixpoint passes (old s : string) : bool :=
  match s with
  | EmptyString => true
  | String _ rest => clash old s && passes old rest
  end.

(** A template of the extraction prompt, and metadata to fill it with. *)
Definition extraction_pieces : list piece :=
  [PageKind; Plain " "; PageId; Plain " of "; DocId; Plain ". "; Overview;
   Plain " "; PageText].

Definition columns_page : PageMetadata :=
  {| meta_doc_id := "1704";
     meta_page_id := 12;
     page_type := "Full_Balance_Sheet";
     financial_structure_overview := "Two columns." |}.

(** Metadata whose overview spells the placeholder of the page text. *)
Definition leaking_page : PageMetadata :=
  {| meta_doc_id := "1704";
     meta_page_id := 1;
     page_type := "Sectional_List";
     financial_structure_overview := "{{PAGE_TEXT}}" |}.

(** One piece under one substitution: it is the placeholder that is
    replaced, or it is passed over, as a placeholder of another name, or by
    [passes_lemma] as text without an opening brace. *)
Ltac piece_step Hplain passes_lemma :=
  apply Forall_forall; intros p Hp;
  pose proof (proj1 (Forall_forall _ _) Hplain p Hp) as Hfree;
  destruct p; cbn [plain_brace_free] in Hfree;
  first [ left; split; reflexivity
        | right; split; [| reflexivity];
          first [ reflexivity | now apply passes_lemma ] ].

(** ** batch.py: the batch *)

(** The two collaborators of the batch besides the services: [finder] is
    [glob.glob] on [data/raw/*.pdf], and [writer] builds the two data frames
    and writes the workbook at the given path. *)
Record Desk (S : Type) : Type := {
  finder : S -> list string * S;
  writer : string -> list LedgerRow -> list PageMetadata -> S
           -> result unit * S;
}.
Arguments finder {S} _ _.
Arguments writer {S} _ _ _ _ _.

Section Batch.

Context {S : Type} (svc : Services S) (B : Builtins) (desk : Desk S)
        (root : string).

(** The loop of [process_all_pdfs_to_excel] over the document ids, with the
    two lists it extends. *)
Fixpoint process_docs (doc_ids : list string)
    (all_pages_meta : list PageMetadata) (all_rows : list LedgerRow)
  : M S (list PageMetadata * list LedgerRow) :=
  match doc_ids with
  | [] => mret (all_pages_meta, all_rows)
  | doc_id :: rest =>
      pages ← ocr_pdf_to_pages_cached svc doc_id;
      processed ← process_document svc B doc_id pages;
      process_docs rest (all_pages_meta ++ fst processed)%list
                   (all_rows ++ snd processed)%list
  end.

Definition process_all_pdfs_to_excel (output_excel_name : string)
  : M S string :=
  globbed ← call (finder desk);
  let doc_ids := list_doc_ids_from_raw globbed in
  match doc_ids with
  | [] => lift (Raise FileNotFoundError)
  | _ :: _ =>
      tables ← process_docs doc_ids [] [];
      let out_dir := Path.join root ["data"; "processed"] in
      let out_path := Path.join out_dir [output_excel_name] in
      written ← call (writer desk out_path (snd tables) (fst tables));
      _ ← lift written;
      mret out_path
  end.

End Batch.

(** Document ids of the classification calls of a log, oldest first. *)
Definition classified_docs (l : list event) : list string :=
  omap (fun e => match e with ClassifyCall doc _ => Some doc | _ => None end)
       l.

(** [doc] once for each of its [n] pages, document after document. *)
Fixpoint by_document (docs : list string) (counts : list nat) : list string :=
  match docs, counts with
  | doc :: docs', n :: counts' =>
      (replicate n doc ++ by_document docs' counts')%list
  | _, _ => []
  end.

(** A desk that finds the given files and whose writer never fails. *)
Definition fixed_desk (globbed : list string) : Desk unit :=
  {| finder := fun s => (globbed, s);
     writer := fun _ _ _ s => (Ok tt, s) |}.

(** The PDFs of the example: document 1704, of two pages without text. *)
Definition ledger_files : gmap string (list (option string)) :=
  {[ "/srv/ledger/data/raw/1704.pdf" := [None; None] ]}.

(** Services that render with [loader.py] from [ledger_files], transcribe
    every page to the same line and reach no other service. *)
Definition scanning : Services unit :=
  {| classifier := fun _ _ _ s => (LlmFailed, s);
     extractor := fun _ _ s => (LlmFailed, s);
     transcriber := fun _ s => (OcrContent " Rent   2 10 0 ", s);
     renderer := fun doc s =>
       (Loader.export_pdf_pages_as_images "/srv/ledger" ledger_files doc, s)
  |}.

(** A world in which page 1 of document 1704 is cached and page 2 is not. *)
Definition half_cached : World unit :=
  {| outside := tt;
     cache := {[ ("1704", 1%Z) := "Tithes 0 5 0" ]};
     log := [] |}.

(** * Properties *)

(** ** The model at a few inputs *)

Example strip_inner_blanks_kept :
  Text.strip (String "009" " Rent  of farm ") = "Rent  of farm".
Proof. reflexivity. Qed.

Example lower_then_contains :
  Text.contains "total" (Text.lower "Sub TOTAL 12 4 0") = true
  /\ Text.contains "balance" (Text.lower "Sub TOTAL 12 4 0") = false.
Proof. split; reflexivity. Qed.

Example int_of_float_truncates B :
  py_int B (JFloat (Finite (-2.7))) = Ok (-2)%Z
  /\ py_int B (JFloat (Finite 2.7)) = Ok 2%Z
  /\ py_int B (JFloat NaN) = Raise ValueError
  /\ py_int B (JFloat PInf) = Raise OverflowError.
Proof. repeat split. Qed.

Example float_of_decoded_values B :
  py_float B (JInt 3) = Ok (Finite 3)
  /\ py_float B (JInt (10 ^ 400)) = Raise OverflowError
  /\ py_float B (JFloat NaN) = Ok NaN
  /\ py_float B (JBool true) = Ok (Finite 1)
  /\ py_float B JNull = Raise TypeError.
Proof. repeat split. Qed.

Example arithmetic_beyond_the_numbers :
  Float.add PInf NInf = NaN
  /\ Float.mul (Finite 0) PInf = NaN
  /\ Float.mul (Finite (-2)) PInf = NInf
  /\ Float.add (Finite 1) NaN = NaN
  /\ Float.ltb NaN (Finite 0) = false
  /\ Float.ltb (Finite 1) NaN = false
  /\ Float.leb (Finite 0) NaN = false
  /\ clamp_float NaN = NaN
  /\ clamp_float PInf = Finite 1
  /\ clamp_float NInf = Finite 0
  /\ Py.min (Finite 1) NaN = Finite 1
  /\ Py.max (Finite 0) PInf = PInf.
Proof. repeat split. Qed.

Example overflow_to_infinity :
  Float.add (Finite (inject_Z (2 ^ 1023))) (Finite (inject_Z (2 ^ 1023)))
  = PInf
  /\ Float.mul (Finite (inject_Z (2 ^ 1023))) (Finite (-2)) = NInf.
Proof. split; vm_compute; reflexivity. Qed.

Example arithmetic_of_numbers :
  same (Float.add (Finite 0.25) (Finite 0.5)) (Finite 0.75)
  /\ same (Float.sub (Finite 1) (Finite 0.4)) (Finite 0.6)
  /\ same (Float.mul (Finite 0.4) (Finite 0.5)) (Finite 0.2)
  /\ (exists x, Float.div (Finite 4.5) (Finite 6) = Ok x
                /\ same x (Finite 0.75))
  /\ Float.div (Finite 1) (Finite 0) = Raise ZeroDivisionError
  /\ same (py_sum [Finite 0.5; Finite 0.25; Finite 0.25]) (Finite 1)
  /\ Float.ltb (Finite 0.3) (Finite 0.4) = true
  /\ Float.leb (Finite 0.4) (Finite 0.4) = true.
Proof.
  do 3 (split; [vm_compute; reflexivity |]).
  split; [eexists; split; vm_compute; reflexivity |].
  repeat split; vm_compute; reflexivity.
Qed.

Example blend_at_a_row :
  compute_rule_based_confidence steady_row None = Ok 0.8
  /\ same (float_mean steady_row) (Finite 0.75)
  /\ (exists c,
         compute_row_confidence steady_row (Finite 0.5) None
         = Ok (Finite c)
         /\ c == 0.775)
  /\ compute_row_confidence (with_confidence confident_row PInf)
                            (Finite 0.4) None = Ok (Finite 1)
  /\ compute_row_confidence (with_confidence confident_row PInf)
                            (Finite 1) None = Ok NaN
  /\ compute_row_confidence (with_confidence confident_row NaN)
                            (Finite 0.4) None = Ok NaN.
Proof.
  split; [reflexivity |]. split; [vm_compute; reflexivity |].
  split; [eexists; split; vm_compute; reflexivity |].
  repeat split; vm_compute; reflexivity.
Qed.

Example names_glob_leaves_out :
  hidden ".pdf" = true /\ hidden ".a.pdf" = true /\ hidden "1704.pdf" = false.
Proof. repeat split. Qed.

Example reading_in_text_mode :
  Text.universal_newlines
    (String "a" (String "013" (String "010" (String "b" (String "013" "c")))))
  = String "a" (String "010" (String "b" (String "010" "c")))
  /\ Text.universal_newlines "Rent 2 10 0" = "Rent 2 10 0".
Proof. split; reflexivity. Qed.

Example str_of_scalars B :
  py_str B JNull = "None" /\ py_str B (JBool true) = "True"
  /\ py_str B (JInt (-12)) = "-12" /\ py_str B (JStr "1704") = "1704".
Proof. repeat split. Qed.

Example falsy_description_is_empty B :
  exists row,
    parse_row B list_page 0 (JDict [("description", JNull)]) = Ok row
    /\ description row = "".
Proof. eexists. split; reflexivity. Qed.

Example sorted_items_by_key :
  Dict.sorted_items [(3%Z, "c"); (1%Z, "a"); (2%Z, "b")]
  = [(1%Z, "a"); (2%Z, "b"); (3%Z, "c")].
Proof. reflexivity. Qed.

Example setitem_replaces_or_appends :
  Dict.setitem [(1%Z, "a"); (2%Z, "b")] 2 "B" = [(1%Z, "a"); (2%Z, "B")]
  /\ Dict.setitem [(1%Z, "a")] 2 "b" = [(1%Z, "a"); (2%Z, "b")].
Proof. split; reflexivity. Qed.

Example iterating_text_gives_characters :
  Py.iter (JStr "ab") = Ok [JStr "a"; JStr "b"]
  /\ Py.iter (JInt 3) = Raise TypeError.
Proof. split; reflexivity. Qed.

(** ** The scorer *)

Lemma clamp_unit_bounds x : in_unit (clamp_unit x).
Proof.
  unfold in_unit, clamp_unit.
  destruct (Qlt_le_dec x 0); [lra |].
  destruct (Qlt_le_dec 1 x); lra.
Qed.


#[global] Instance clamp_unit_proper : Proper (Qeq ==> Qeq) clamp_unit.
Proof.
  intros x y E. unfold clamp_unit.
  destruct (Qlt_le_dec x 0), (Qlt_le_dec y 0); try lra;
    destruct (Qlt_le_dec 1 x), (Qlt_le_dec 1 y); lra.
Qed.

(** One range check of the scorer takes its penalty off the running score. *)
Lemma range_step lo hi v (score : Q) :
  number_or_none v = true ->
  exists s,
    (if Py.is_none v then Ok score
     else inside ← Py.between lo hi v;
          Ok (if negb inside then score - 0.2 else score)) = Ok s
    /\ s == score - penalty (out_of_range lo hi v) 0.2.
Proof.
  intros Hv. unfold out_of_range, Py.between, penalty.
  destruct v; try discriminate Hv;
    cbn [Py.is_none Py.number mbind result_bind];
    (eexists; split; [reflexivity |]);
    try match goal with |- context [negb ?b] => destruct b end;
    cbn [negb]; lra.
Qed.

Lemma pounds_step typical v (score : Q) :
  match typical with Some _ => number_or_none v | None => true end = true ->
  exists s,
    match typical with
    | Some t =>
        if Py.is_none v then Ok score
        else large ← Py.greater v (t * 3);
             Ok (if (large : bool) then score - 0.2 else score)
    | None => Ok score
    end = Ok s
    /\ s == score - penalty (match typical with
                             | Some t => exceeds v (t * 3)
                             | None => false
                             end) 0.2.
Proof.
  intros Hv. unfold exceeds, Py.greater, penalty.
  destruct typical as [t |]; [| eexists; split; [reflexivity | lra]].
  destruct v; try discriminate Hv;
    cbn [Py.is_none Py.number mbind result_bind];
    (eexists; split; [reflexivity |]);
    try match goal with |- context [if ?b then _ else _] => destruct b end;
    lra.
Qed.

(** The scorer follows the rule table on the stripped description. *)
Lemma rule_based_ok row tmp :
  comparable_money row tmp = true ->
  exists s, compute_rule_based_confidence row tmp = Ok s
            /\ s == rule_score_of (Text.strip (description row)) row tmp.
Proof.
  unfold comparable_money. intros H.
  apply andb_prop in H as [H Hl]. apply andb_prop in H as [Hs Hd].
  unfold compute_rule_based_confidence. cbv zeta.
  match goal with
  | |- context [mbind _ (if Py.is_none (shillings row) then Ok ?sc else _)] =>
      destruct (range_step 0 19 (shillings row) sc Hs) as (s1 & E1 & Q1)
  end.
  rewrite E1. cbn [mbind result_bind].
  destruct (range_step 0 11 (pence row) s1 Hd) as (s2 & E2 & Q2).
  rewrite E2. cbn [mbind result_bind].
  destruct (pounds_step tmp (pounds row) s2 Hl) as (s3 & E3 & Q3).
  rewrite E3. cbn [mbind result_bind].
  eexists. split; [reflexivity |].
  unfold rule_score_of. apply clamp_unit_proper.
  unfold other_penalties, description_penalty.
  destruct (String.length (Text.strip (description row)) =? 0)%nat;
    [| destruct (String.length (Text.strip (description row)) <? 3)%nat];
    destruct (out_of_range 0 19 (shillings row)),
             (out_of_range 0 11 (pence row)),
             (match tmp with
              | Some t => exceeds (pounds row) (t * 3)
              | None => false
              end),
             (Text.one_of (transaction_type row) TransactionType),
             (Py.is_none (pounds row) && Py.is_none (shillings row)
              && Py.is_none (pence row));
    unfold penalty in *; cbn [negb]; lra.
Qed.

(** A monetary field that is no number makes the comparison raise. *)
Lemma rule_based_raises row tmp :
  comparable_money row tmp = false ->
  compute_rule_based_confidence row tmp = Raise TypeError.
Proof.
  unfold comparable_money, compute_rule_based_confidence. cbv zeta.
  intros H.
  destruct (shillings row) eqn:Es; cbn in H |- *; try reflexivity;
    destruct (pence row) eqn:Ed; cbn in H |- *; try reflexivity;
    destruct tmp as [t |]; try discriminate H;
    destruct (pounds row) eqn:El; cbn in H |- *;
    try reflexivity; discriminate H.
Qed.

Lemma rule_based_comparable row tmp s :
  compute_rule_based_confidence row tmp = Ok s ->
  comparable_money row tmp = true.
Proof.
  intros E. destruct (comparable_money row tmp) eqn:H; [reflexivity |].
  rewrite (rule_based_raises row tmp H) in E. discriminate E.
Qed.

Lemma rule_based_in_unit row tmp s :
  compute_rule_based_confidence row tmp = Ok s -> in_unit s.
Proof.
  intros E. pose proof (rule_based_comparable _ _ _ E) as H.
  destruct (rule_based_ok row tmp H) as (s' & E' & Hs).
  rewrite E in E'. injection E' as <-.
  unfold in_unit. rewrite Hs. apply clamp_unit_bounds.
Qed.

Lemma lstrip_all_space s : Text.all_space s = true -> Text.lstrip s = "".
Proof.
  induction s as [| c s IH]; cbn; [reflexivity |].
  intros H. apply andb_prop in H as [Hc Hs]. rewrite Hc. auto.
Qed.

Lemma strip_all_space s : Text.all_space s = true -> Text.strip s = "".
Proof. intros H. unfold Text.strip. now rewrite lstrip_all_space. Qed.

(** [Text.contains] is the substring test. *)
Lemma prefix_iff needle hay :
  String.prefix needle hay = true <-> exists rest, hay = needle ++ rest.
Proof.
  revert hay. induction needle as [| c needle IH]; intros [| c' hay]; cbn.
  - split; [intros _; now exists "" | reflexivity].
  - split; [intros _; now exists (String c' hay) | reflexivity].
  - split; [discriminate | intros [rest H]; discriminate H].
  - destruct (Ascii.ascii_dec c c') as [<- | Hne].
    + rewrite IH. split; intros [rest H]; exists rest.
      * rewrite H. reflexivity.
      * exact (f_equal tail H).
    + split; [discriminate | intros [rest H]].
      change (String c' hay = String c (needle ++ rest)) in H. congruence.
Qed.

Lemma contains_iff needle hay :
  Text.contains needle hay = true
  <-> exists before after, hay = before ++ needle ++ after.
Proof.
  induction hay as [| c hay IH]; cbn [Text.contains];
    rewrite orb_true_iff, prefix_iff.
  - split.
    + intros [[rest H] | H]; [| discriminate]. now exists "", rest.
    + intros (before & after & H). left.
      destruct before; [now exists after | discriminate H].
  - rewrite IH. split.
    + intros [[rest H] | (before & after & H)].
      * now exists "", rest.
      * exists (String c before), after. rewrite H. reflexivity.
    + intros (before & after & H). destruct before as [| c' before].
      * left. now exists after.
      * right. exists before, after. exact (f_equal tail H).
Qed.

(** C2 (amended). On a row whose compared monetary fields are numbers or
    absent, [compute_rule_based_confidence] returns 1.0 less the penalties of
    the rule table, clamped once at the end, where the two description rules
    read the description with its surrounding whitespace stripped. A row
    with empty description, no monetary field and type Unknown scores 0.3; a
    row with shillings 25 and everything else in order scores 0.8. *)
Theorem rule_based_confidence_table row tmp :
  comparable_money row tmp = true ->
  (exists s, compute_rule_based_confidence row tmp = Ok s
             /\ s == rule_score_of (Text.strip (description row)) row tmp)
  /\ (description row = "" -> pounds row = JNull -> shillings row = JNull ->
      pence row = JNull -> transaction_type row = "Unknown" ->
      exists s, compute_rule_based_confidence row tmp = Ok s /\ s == 0.3)
  /\ (shillings row = JInt 25 ->
      (3 <= String.length (Text.strip (description row)))%nat ->
      out_of_range 0 11 (pence row) = false ->
      match tmp with
      | Some typical => exceeds (pounds row) (typical * 3)
      | None => false
      end = false ->
      Text.one_of (transaction_type row) TransactionType = true ->
      exists s, compute_rule_based_confidence row tmp = Ok s /\ s == 0.8).
Proof.
  intros H. destruct (rule_based_ok row tmp H) as (s & E & Hs).
  split; [exists s; auto |].
  split.
  - intros Hd Hl Hsh Hp Ht. exists s. split; [exact E |].
    rewrite Hs. unfold rule_score_of, other_penalties, description_penalty.
    rewrite Hd, Hl, Hsh, Hp, Ht.
    destruct tmp; reflexivity.
  - intros Hsh Hlen Hp Hl Ht. exists s. split; [exact E |].
    rewrite Hs. unfold rule_score_of, other_penalties, description_penalty.
    rewrite Hsh, Hp, Hl, Ht.
    destruct (String.length (Text.strip (description row))) as [| [| [| n]]];
      [lia | lia | lia |].
    cbn [Nat.eqb Nat.ltb Nat.leb].
    rewrite andb_false_r. reflexivity.
Qed.

Lemma rule_based_confidence_table_witness :
  comparable_money empty_row None = true
  /\ exists s,
      compute_rule_based_confidence empty_row None = Ok s /\ s == 0.3.
Proof.
  split; [reflexivity |].
  exact (proj1 (proj2 (rule_based_confidence_table empty_row None eq_refl))
               eq_refl eq_refl eq_refl eq_refl eq_refl).
Defined.

(** C2 as stated fails on the description " a ": read on the description
    as given, which has three characters, the table takes nothing off and
    yields 1.0; the code strips it to one character, takes off 0.2 and
    returns 0.8. *)
Lemma padded_description_counterexample :
  exists s,
    compute_rule_based_confidence padded_row None = Ok s
    /\ s == 0.8
    /\ rule_score_of (description padded_row) padded_row None == 1.
Proof. eexists. split; [reflexivity |]. split; reflexivity. Qed.

(** C9. A description made of whitespace only is stripped to the empty
    string, so the row scores as the same row with an empty description:
    the penalty is 0.4, not 0.2. *)
Theorem whitespace_description_scores_as_empty row tmp :
  Text.all_space (description row) = true ->
  Text.strip (description row) = ""
  /\ compute_rule_based_confidence row tmp
     = compute_rule_based_confidence (with_description row "") tmp
  /\ (comparable_money row tmp = true ->
      exists s, compute_rule_based_confidence row tmp = Ok s
                /\ s == clamp_unit (1 - 0.4 - other_penalties row tmp)).
Proof.
  intros Hsp. pose proof (strip_all_space _ Hsp) as Hstrip.
  split; [exact Hstrip |]. split.
  - unfold compute_rule_based_confidence.
    cbn [description pounds shillings pence transaction_type with_description].
    rewrite Hstrip. reflexivity.
  - intros H. destruct (rule_based_ok row tmp H) as (s & E & Hs).
    exists s. split; [exact E |]. rewrite Hs, Hstrip. reflexivity.
Qed.

Lemma whitespace_description_witness :
  Text.all_space (description blank_row) = true
  /\ compute_rule_based_confidence blank_row None
     = compute_rule_based_confidence (with_description blank_row "") None.
Proof.
  split; [reflexivity |].
  exact (proj1 (proj2 (whitespace_description_scores_as_empty
                         blank_row None eq_refl))).
Defined.

(** *** Float arithmetic *)

Lemma overflow_large : 8 * bound < Float.overflow.
Proof. vm_compute. reflexivity. Qed.

Lemma bound_large : 1 <= bound.
Proof. vm_compute. discriminate. Qed.

Lemma rounded_finite q :
  - Float.overflow < q < Float.overflow -> Float.rounded q = Finite q.
Proof.
  intros [Hl Hu]. unfold Float.rounded. qcases; try lra. reflexivity.
Qed.


Lemma rounded_not_nan q : Float.rounded q <> NaN.
Proof. unfold Float.rounded. qcases; discriminate. Qed.

(** A result that is not negative does not round to the negative
    infinity. *)
Lemma rounded_not_negative q :
  0 <= q -> not_negative (Float.rounded q).
Proof.
  pose proof overflow_large. pose proof bound_large.
  intros Hq. unfold Float.rounded, not_negative.
  qcases; try reflexivity; try lra.
  cbn [Float.leb]. apply Qle_bool_iff. exact Hq.
Qed.


Lemma clamp_float_clamp01 x : clamp_float x = clamp01 x.
Proof.
  destruct x as [q | | |]; try reflexivity.
  unfold clamp_float, clamp01, clamp_unit. cbn [Float.ltb].
  destruct (Qlt_le_dec q 0), (Qlt_le_dec 1 q); qcases; cbn [negb];
    try reflexivity; lra.
Qed.


Lemma clamp01_unit x : x <> NaN -> unit_float (clamp01 x).
Proof.
  destruct x; cbn; intros H; try congruence;
    try apply clamp_unit_bounds; unfold in_unit; lra.
Qed.



Lemma weight_in_unit w :
  exists q, Py.max (Finite 0) (Py.min (Finite 1) w) = Finite q
            /\ 0 <= q <= 1.
Proof.
  destruct w as [q | | |];
    try (eexists; split; [reflexivity | lra]).
  unfold Py.max, Py.min. cbn [Float.ltb].
  qcases; cbn [negb Float.ltb]; qcases; cbn [negb];
    eexists; (split; [reflexivity | lra]).
Qed.


(** The sum of finite floats is no NaN: once a partial sum is an infinity
    it stays that infinity. *)
Lemma fold_add_not_nan xs acc :
  Forall is_finite xs -> acc <> NaN -> fold_left Float.add xs acc <> NaN.
Proof.
  revert acc. induction xs as [| x xs IH]; intros acc Hxs Hacc;
    [exact Hacc |].
  apply Forall_cons_1 in Hxs as [Hx Hxs]. cbn [fold_left].
  apply IH; [exact Hxs |].
  destruct x; try contradiction.
  destruct acc; cbn [Float.add]; try congruence. apply rounded_not_nan.
Qed.

Lemma py_sum_not_nan xs : Forall is_finite xs -> py_sum xs <> NaN.
Proof. intros H. apply fold_add_not_nan; [exact H | discriminate]. Qed.

(** The sum of floats that are not negative is not negative. *)
Lemma fold_add_not_negative xs acc :
  Forall not_negative xs -> not_negative acc ->
  not_negative (fold_left Float.add xs acc).
Proof.
  revert acc. induction xs as [| x xs IH]; intros acc Hxs Hacc;
    [exact Hacc |].
  apply Forall_cons_1 in Hxs as [Hx Hxs]. cbn [fold_left].
  apply IH; [exact Hxs |].
  unfold not_negative in *.
  destruct x, acc; cbn [Float.add Float.leb] in *; try congruence.
  apply rounded_not_negative. qbool. lra.
Qed.

Lemma py_sum_not_negative xs :
  Forall not_negative xs -> not_negative (py_sum xs).
Proof.
  intros H. apply fold_add_not_negative; [exact H | reflexivity].
Qed.

Lemma sixth_not_nan x : x <> NaN -> Float.quotient x (Finite 6) <> NaN.
Proof.
  destruct x; intros H; try congruence;
    [apply rounded_not_nan | discriminate | discriminate].
Qed.

Lemma sixth_not_negative x :
  not_negative x -> not_negative (Float.quotient x (Finite 6)).
Proof.
  unfold not_negative.
  destruct x; cbn [Float.quotient Float.leb]; try congruence.
  - intros H. apply rounded_not_negative. qbool.
    apply Qle_shift_div_l; lra.
  - intros _. reflexivity.
Qed.



(** *** The blended score *)

Lemma ordinary_inv x :
  ordinary x -> exists q, x = Finite q /\ - bound <= q <= bound.
Proof. destruct x; cbn; try tauto. eauto. Qed.

Lemma unit_float_ordinary x : unit_float x -> ordinary x.
Proof.
  pose proof bound_large.
  destruct x; cbn; unfold in_unit; try tauto. lra.
Qed.

Lemma in_unit_ordinary row :
  model_confs_in_unit row -> Forall ordinary (model_confs row).
Proof.
  intros H. eapply Forall_impl; [exact H | exact unit_float_ordinary].
Qed.

(** Six ordinary confidences add up to six times their mean. *)
Lemma py_sum_ordinary row :
  Forall ordinary (model_confs row) ->
  exists s, py_sum (model_confs row) = Finite s
            /\ s == 6 * model_mean row
            /\ - (6 * bound) <= s <= 6 * bound.
Proof.
  pose proof overflow_large as Hbig. pose proof bound_large as Hb.
  unfold model_confs, model_mean, py_sum. intros H.
  repeat match goal with
         | H : Forall _ (_ :: _) |- _ => apply Forall_cons_1 in H as [? H]
         end.
  repeat match goal with
         | H : ordinary _ |- _ => apply ordinary_inv in H as (? & -> & ?)
         end.
  cbn [fold_left value].
  repeat (cbn [Float.add]; rewrite rounded_finite by lra).
  eexists. split; [reflexivity |]. split; [field | lra].
Qed.

Lemma float_mean_ordinary row :
  Forall ordinary (model_confs row) ->
  exists m, float_mean row = Finite m
            /\ m == model_mean row
            /\ - bound <= m <= bound.
Proof.
  pose proof overflow_large as Hbig. pose proof bound_large as Hb.
  intros H. destruct (py_sum_ordinary row H) as (s & Es & Hs & Hsb).
  unfold float_mean. rewrite Es. cbn [Float.quotient].
  assert (- bound <= s / 6 <= bound) as Hm
    by (split; [apply Qle_shift_div_l | apply Qle_shift_div_r]; lra).
  rewrite rounded_finite by lra.
  eexists. split; [reflexivity |]. split; [| exact Hm].
  rewrite Hs. field.
Qed.


(** The blend of finite values is the blend of the rationals. *)
Lemma blend_finite rw rule m :
  0 <= rw <= 1 -> 0 <= rule <= 1 -> - bound <= m <= bound ->
  exists c, blend (Finite rw) (Finite rule) (Finite m) = Finite c
            /\ c == rw * rule + (1 - rw) * m.
Proof.
  pose proof overflow_large as Hbig. pose proof bound_large as Hb.
  intros Hw Hr Hm. unfold blend, Float.sub.
  cbn [Float.neg Float.add Float.mul].
  rewrite (rounded_finite (1 + - rw)) by lra.
  cbn [Float.mul].
  rewrite (rounded_finite (rw * rule)) by nra.
  rewrite (rounded_finite ((1 + - rw) * m)) by nra.
  cbn [Float.add]. rewrite rounded_finite by nra.
  eexists. split; [reflexivity | ring].
Qed.


(** Below weight 1.0 the blend is NaN only when the mean is. *)
Lemma blend_not_nan rw rule avg :
  0 <= rw < 1 -> 0 <= rule <= 1 -> avg <> NaN ->
  blend (Finite rw) (Finite rule) avg <> NaN.
Proof.
  pose proof overflow_large as Hbig. pose proof bound_large as Hb.
  intros Hw Hr Ha. unfold blend, Float.sub.
  cbn [Float.neg Float.add Float.mul].
  rewrite (rounded_finite (1 + - rw)) by lra.
  rewrite (rounded_finite (rw * rule)) by nra.
  destruct avg as [m | | |]; try congruence; cbn [Float.mul].
  - pose proof (rounded_not_nan ((1 + - rw) * m)) as Hn.
    destruct (Float.rounded ((1 + - rw) * m)); cbn [Float.add];
      try congruence. apply rounded_not_nan.
  - unfold Float.infinity_times. qcases; try lra; discriminate.
  - unfold Float.infinity_times. qcases; try lra; discriminate.
Qed.

Lemma clamp_unit_positive x : 0 < x -> 0 < clamp_unit x <= 1.
Proof.
  intros H. unfold clamp_unit.
  destruct (Qlt_le_dec x 0); [lra |]. destruct (Qlt_le_dec 1 x); lra.
Qed.

(** A positive share of a positive rule score keeps the blend above zero
    when the mean is not negative. *)
Lemma blend_positive rw rule avg :
  0 < rw < 1 -> 0 < rule <= 1 -> not_negative avg ->
  positive_unit_float (clamp01 (blend (Finite rw) (Finite rule) avg)).
Proof.
  pose proof overflow_large as Hbig. pose proof bound_large as Hb.
  intros Hw Hr Ha. unfold blend, Float.sub.
  cbn [Float.neg Float.add Float.mul].
  rewrite (rounded_finite (1 + - rw)) by lra.
  rewrite (rounded_finite (rw * rule)) by nra.
  assert (0 < rw * rule) as Hpos by nra.
  unfold not_negative in Ha.
  destruct avg as [m | | |]; cbn [Float.leb] in Ha; try discriminate Ha;
    cbn [Float.mul].
  - qbool. assert (0 <= (1 + - rw) * m) as Hm by nra.
    unfold Float.rounded at 1. qcases; try lra.
    + cbn. lra.
    + cbn [Float.add]. unfold Float.rounded. qcases; try lra.
      * cbn. lra.
      * cbn [clamp01 positive_unit_float].
        apply clamp_unit_positive. lra.
  - unfold Float.infinity_times. qcases; try lra. cbn. lra.
Qed.

(** The blended score, once the rule score is at hand. *)
Lemma row_confidence_unfold row w tmp rule :
  compute_rule_based_confidence row tmp = Ok rule ->
  compute_row_confidence row w tmp
  = Ok (clamp01 (blend (Py.max (Finite 0) (Py.min (Finite 1) w))
                       (Finite rule) (float_mean row))).
Proof.
  intros E. unfold compute_row_confidence. rewrite E.
  cbn [mbind result_bind]. cbv zeta.
  change (0 <? List.length (model_confs row))%nat with true. cbv iota.
  unfold Float.div.
  change (Float.is_zero
            (Float.of_Z (Z.of_nat (List.length (model_confs row)))))
    with false.
  cbv iota. cbn [mbind result_bind].
  rewrite clamp_float_clamp01. reflexivity.
Qed.

(** On ordinary confidences the blended score is the clamped blend of the
    rationals, under the weight the code arrives at. *)
Lemma row_confidence_ordinary row w tmp rule :
  compute_rule_based_confidence row tmp = Ok rule ->
  Forall ordinary (model_confs row) ->
  exists q c,
    Py.max (Finite 0) (Py.min (Finite 1) w) = Finite q
    /\ 0 <= q <= 1
    /\ compute_row_confidence row w tmp = Ok (Finite c)
    /\ c == clamp_unit (q * rule + (1 - q) * model_mean row).
Proof.
  intros E H. rewrite (row_confidence_unfold _ _ _ _ E).
  destruct (float_mean_ordinary row H) as (m & Em & Hm & Hb). rewrite Em.
  destruct (weight_in_unit w) as (q & Eq & Hq). rewrite Eq.
  destruct (blend_finite q rule m Hq (rule_based_in_unit _ _ _ E) Hb)
    as (c & Ec & Hc').
  rewrite Ec. cbn [clamp01]. exists q. eexists.
  do 2 (split; [first [reflexivity | assumption] |]).
  split; [reflexivity |].
  apply clamp_unit_proper. rewrite Hc', Hm. reflexivity.
Qed.




(** ** Decoding a reply *)

Lemma result_map_Forall2 {A B} (f : A -> result B) xs ys :
  result_map f xs = Ok ys -> Forall2 (fun x y => f x = Ok y) xs ys.
Proof.
  revert ys. induction xs as [| x xs IH]; intros ys H; cbn in H.
  - injection H as <-. constructor.
  - bind_ok H. bind_ok H. injection H as <-. constructor; auto.
Qed.

Lemma result_map_total {A B} (f : A -> result B) xs :
  Forall (fun x => exists y, f x = Ok y) xs ->
  exists ys, result_map f xs = Ok ys.
Proof.
  induction 1 as [| x xs [y Hy] _ [ys Hys]]; cbn.
  - eexists; reflexivity.
  - rewrite Hy. cbn [mbind result_bind]. rewrite Hys. eexists; reflexivity.
Qed.

Lemma enumerate_from_length {A} i (xs : list A) :
  List.length (Py.enumerate_from i xs) = List.length xs.
Proof. revert i. induction xs; intros i; cbn; auto. Qed.

Lemma one_of_In s options : Text.one_of s options = true -> In s options.
Proof.
  unfold Text.one_of. rewrite existsb_exists. intros (x & Hx & E).
  apply String.eqb_eq in E. now subst.
Qed.

Lemma normalized_valid v options :
  Text.one_of "Unknown" options = true ->
  Text.one_of (normalized v options) options = true.
Proof.
  intros Hu. unfold normalized, Py.in_strings, Py.str_value.
  destruct v; try exact Hu.
  destruct (Text.one_of s options) eqn:E; [exact E | exact Hu].
Qed.

Lemma normalized_unknown v options :
  Py.in_strings v options = false -> normalized v options = "Unknown".
Proof. unfold normalized. now intros ->. Qed.

Lemma normalized_kept s options :
  Text.one_of s options = true -> normalized (JStr s) options = s.
Proof. unfold normalized. cbn. now intros ->. Qed.

Lemma get_found fields key default v :
  Py.find fields key = Some v -> Py.get fields key default = v.
Proof. unfold Py.get. now intros ->. Qed.

Lemma get_missing fields key default :
  Py.find fields key = None -> Py.get fields key default = default.
Proof. unfold Py.get. now intros ->. Qed.

Section Decoding.

Context (B : Builtins).

Lemma parse_page_meta_inv doc page data meta :
  parse_page_meta B doc page data = Ok meta ->
  exists fields,
    data = JDict fields
    /\ meta_doc_id meta = py_str B (Py.get fields "doc_id" (JStr doc))
    /\ py_int B (Py.get fields "page_id" (JInt page)) = Ok (meta_page_id meta)
    /\ page_type meta
       = normalized (Py.get fields "page_type" (JStr "Unknown")) PageType
    /\ financial_structure_overview meta
       = py_str B (Py.get fields "financial_structure_overview" (JStr "")).
Proof.
  unfold parse_page_meta. intros H.
  destruct data; try discriminate H. cbn [Py.as_dict mbind result_bind] in H.
  bind_ok H. injection H as <-. cbn.
  exists fields. repeat split; try assumption.
  unfold normalized. now destruct (Py.in_strings _ _).
Qed.

Lemma parse_page_meta_total doc page fields z :
  py_int B (Py.get fields "page_id" (JInt page)) = Ok z ->
  exists meta, parse_page_meta B doc page (JDict fields) = Ok meta.
Proof.
  intros H. unfold parse_page_meta. cbn [Py.as_dict mbind result_bind].
  rewrite H. cbn [mbind result_bind]. eauto.
Qed.

Lemma parse_row_inv meta i r row :
  parse_row B meta i r = Ok row ->
  exists fields,
    r = JDict fields
    /\ doc_id row
       = py_str B (Py.get fields "doc_id" (JStr (meta_doc_id meta)))
    /\ py_int B (Py.get fields "page_id" (JInt (meta_page_id meta)))
       = Ok (page_id row)
    /\ py_int B (Py.get fields "row_id" (JInt i)) = Ok (row_id row)
    /\ transaction_type row
       = normalized (Py.get fields "transaction_type" (JStr "Unknown"))
                    TransactionType
    /\ pounds row = Py.get fields "pounds" JNull
    /\ shillings row = Py.get fields "shillings" JNull
    /\ pence row = Py.get fields "pence" JNull.
Proof.
  unfold parse_row. intros H.
  destruct r; try discriminate H. cbn [Py.as_dict mbind result_bind] in H.
  do 8 bind_ok H. injection H as <-. cbn.
  exists fields. repeat split; first [assumption | reflexivity].
Qed.

Lemma parse_row_total meta i fields :
  row_coercible B meta i fields ->
  exists row, parse_row B meta i (JDict fields) = Ok row.
Proof.
  intros ([p Hp] & [r Hr] & Hconfs).
  repeat match goal with
         | H : Forall _ (_ :: _) |- _ =>
             apply Forall_cons_1 in H as [[? ?] H]
         end.
  unfold parse_row. cbn [Py.as_dict mbind result_bind].
  repeat match goal with
         | H : _ = Ok _ |- _ => rewrite H; clear H; cbn [mbind result_bind]
         end.
  eauto.
Qed.

Lemma parse_row_tx meta i r row :
  parse_row B meta i r = Ok row ->
  Text.one_of (transaction_type row) TransactionType = true.
Proof.
  intros H. apply parse_row_inv in H as (fields & _ & _ & _ & _ & -> & _).
  now apply normalized_valid.
Qed.

Lemma parse_rows_inv meta data rows :
  parse_rows B meta data = Ok rows ->
  exists fields items,
    data = JDict fields
    /\ Py.iter (Py.get fields "rows" (JList [])) = Ok items
    /\ Forall2 (fun ir row => parse_row B meta (fst ir) (snd ir) = Ok row)
               (Py.enumerate items) rows.
Proof.
  unfold parse_rows. intros H.
  destruct data; try discriminate H. cbn [Py.as_dict mbind result_bind] in H.
  bind_ok H. exists fields, a. repeat split; [assumption |].
  now apply result_map_Forall2.
Qed.

End Decoding.

(** ** The classifier and the extractor *)

Section Stages.

Context {S : Type} (svc : Services S) (B : Builtins).

Lemma classify_page_unfold doc page text w :
  classify_page svc B doc page text w
  = let (r, w1) := classify_page_with_llm svc B doc page text w in
    (Ok (match r with
         | Ok meta => meta
         | Raise _ => classify_fallback doc page text
         end), w1).
Proof.
  unfold classify_page, try_except, mret, M_ret.
  now destruct (classify_page_with_llm svc B doc page text w)
    as [[meta | e] w1].
Qed.

Lemma with_llm_meta_unfold doc page text w :
  classify_page_with_llm svc B doc page text w
  = let (reply, s1) := classifier svc doc page text (outside w) in
    (data ← loads reply; parse_page_meta B doc page data,
     {| outside := s1; cache := cache w;
        log := log w ++ [ClassifyCall doc page] |}).
Proof.
  unfold classify_page_with_llm, record, call, lift, mbind at 1 2, M_bind.
  cbn [outside cache log].
  now destruct (classifier svc doc page text (outside w)) as [reply s1].
Qed.

Lemma with_llm_meta doc page text w meta w1 :
  classify_page_with_llm svc B doc page text w = (Ok meta, w1) ->
  exists data s1,
    classifier svc doc page text (outside w) = (LlmJson data, s1)
    /\ parse_page_meta B doc page data = Ok meta.
Proof.
  rewrite with_llm_meta_unfold.
  destruct (classifier svc doc page text (outside w)) as [reply s1].
  intros H. injection H as H _.
  destruct reply; try discriminate H. cbn -[parse_page_meta] in H. eauto.
Qed.

Lemma lower_lower_cased text : Text.lower text = lower_cased text.
Proof.
  unfold lower_cased. induction text as [| c text IH]; [reflexivity |].
  cbn. now rewrite IH.
Qed.

Lemma keyword_page_iff text :
  keyword_page text
  <-> Text.contains "total" (Text.lower text)
      || Text.contains "balance" (Text.lower text) = true.
Proof.
  unfold keyword_page, occurs.
  now rewrite orb_true_iff, !contains_iff, lower_lower_cased.
Qed.

Lemma classify_fallback_spec doc page text :
  let meta := classify_fallback doc page text in
  meta_doc_id meta = doc
  /\ meta_page_id meta = page
  /\ (keyword_page text -> page_type meta = "Full_Balance_Sheet")
  /\ (~ keyword_page text -> page_type meta = "Sectional_List")
  /\ String.prefix "Fallback" (financial_structure_overview meta) = true.
Proof.
  cbv zeta. rewrite keyword_page_iff. unfold classify_fallback.
  destruct (Text.contains "total" (Text.lower text)
            || Text.contains "balance" (Text.lower text));
    repeat split; congruence.
Qed.

(** C5. [classify_page] returns for every input and every behaviour of the
    service, with a page type of the schema; the service path fails on a
    service error, on missing content and on malformed content, and whenever
    it fails the result has the caller's identifiers, the page type
    Full_Balance_Sheet when "total" or "balance" stands somewhere in the
    lower-cased text and Sectional_List when neither does, and an overview
    that starts with the word Fallback. *)
Theorem classify_page_total doc page text w :
  exists meta w',
    classify_page svc B doc page text w = (Ok meta, w')
    /\ In (page_type meta) PageType
    /\ (forall reply s1,
           classifier svc doc page text (outside w) = (reply, s1) ->
           no_content reply = true ->
           exists e, classify_page_with_llm svc B doc page text w
                     = (Raise e, w'))
    /\ (forall e w1,
           classify_page_with_llm svc B doc page text w = (Raise e, w1) ->
           w' = w1
           /\ meta_doc_id meta = doc
           /\ meta_page_id meta = page
           /\ (keyword_page text -> page_type meta = "Full_Balance_Sheet")
           /\ (~ keyword_page text -> page_type meta = "Sectional_List")
           /\ String.prefix "Fallback" (financial_structure_overview meta)
              = true).
Proof.
  rewrite classify_page_unfold.
  destruct (classify_page_with_llm svc B doc page text w) as [[meta | e] w1]
    eqn:E.
  - exists meta, w1. split; [reflexivity |]. split; [| split].
    + apply with_llm_meta in E as (data & s1 & _ & Hparse).
      apply parse_page_meta_inv in Hparse as (fields & _ & _ & _ & -> & _).
      apply one_of_In. now apply normalized_valid.
    + intros reply s1 Hreply Hno. rewrite with_llm_meta_unfold, Hreply in E.
      destruct reply; discriminate.
    + discriminate.
  - exists (classify_fallback doc page text), w1.
    pose proof (classify_fallback_spec doc page text) as Hspec.
    cbv zeta in Hspec. destruct Hspec as (Hd & Hp & Hk & Hn & Ho).
    split; [reflexivity |]. split; [| split].
    + unfold classify_fallback. destruct (_ || _); cbn; auto.
    + intros _ _ _ _. now exists e.
    + intros e' w1' H. injection H as _ <-. auto 6.
Qed.

Lemma extract_page_unfold meta text w :
  extract_page svc B meta text w
  = let (r, w1) := extract_page_with_llm svc B meta text w in
    (result_map apply_confidences
       (match r with Ok rows => rows | Raise _ => [dummy_row meta] end), w1).
Proof.
  unfold extract_page, try_except, lift, mbind, M_bind, mret, M_ret.
  destruct (extract_page_with_llm svc B meta text w) as [[rows | e] w1];
    destruct (result_map apply_confidences _); reflexivity.
Qed.

Lemma with_llm_rows_unfold meta text w :
  extract_page_with_llm svc B meta text w
  = let (reply, s1) := extractor svc meta text (outside w) in
    (data ← loads reply; parse_rows B meta data,
     {| outside := s1; cache := cache w;
        log := log w
               ++ [ExtractCall (meta_doc_id meta) (meta_page_id meta)] |}).
Proof.
  unfold extract_page_with_llm, record, call, lift, mbind at 1 2, M_bind.
  cbn [outside cache log].
  now destruct (extractor svc meta text (outside w)) as [reply s1].
Qed.

Lemma with_llm_rows meta text w rows w1 :
  extract_page_with_llm svc B meta text w = (Ok rows, w1) ->
  exists data s1,
    extractor svc meta text (outside w) = (LlmJson data, s1)
    /\ parse_rows B meta data = Ok rows.
Proof.
  rewrite with_llm_rows_unfold.
  destruct (extractor svc meta text (outside w)) as [reply s1].
  intros H. injection H as H _.
  destruct reply; try discriminate H. cbn -[parse_rows] in H. eauto.
Qed.

End Stages.

Section Validation.

Context {S : Type} (svc : Services S) (B : Builtins).

(** C8. A decoded classification reply whose page type is not one of the
    three values (or is missing) is answered with page type Unknown, from
    the reply and not from the fallback; a decoded extraction reply yields
    one row per element with the transaction type kept when it is one of
    the three values and Unknown otherwise. Neither value can make the
    decoding fail. *)
Theorem unrecognized_values_normalized doc page text meta w :
  (forall v options,
      (Py.in_strings v options = false -> normalized v options = "Unknown")
      /\ (forall s, v = JStr s -> Text.one_of s options = true ->
                    normalized v options = s))
  /\ (forall fields key,
         Py.find fields key = None ->
         normalized (Py.get fields key (JStr "Unknown")) PageType = "Unknown"
         /\ normalized (Py.get fields key (JStr "Unknown")) TransactionType
            = "Unknown")
  /\ (forall fields s1 z,
         classifier svc doc page text (outside w)
         = (LlmJson (JDict fields), s1) ->
         py_int B (Py.get fields "page_id" (JInt page)) = Ok z ->
         exists m w',
           classify_page svc B doc page text w = (Ok m, w')
           /\ page_type m
              = normalized (Py.get fields "page_type" (JStr "Unknown"))
                           PageType
           /\ In (page_type m) PageType
           /\ financial_structure_overview m
              = py_str B (Py.get fields "financial_structure_overview"
                                 (JStr "")))
  /\ (forall fields items s1,
         extractor svc meta text (outside w)
         = (LlmJson (JDict fields), s1) ->
         Py.iter (Py.get fields "rows" (JList [])) = Ok items ->
         Forall (fun ir => exists f, snd ir = JDict f
                                     /\ row_coercible B meta (fst ir) f)
                (Py.enumerate items) ->
         exists rows w1,
           extract_page_with_llm svc B meta text w = (Ok rows, w1)
           /\ Forall2
                (fun ir row =>
                   exists f,
                     snd ir = JDict f
                     /\ transaction_type row
                        = normalized
                            (Py.get f "transaction_type" (JStr "Unknown"))
                            TransactionType
                     /\ In (transaction_type row) TransactionType)
                (Py.enumerate items) rows).
Proof.
  split.
  { intros v options. split; [apply normalized_unknown |].
    intros s -> Hs. now apply normalized_kept. }
  split.
  { intros fields key Hkey. rewrite (get_missing _ _ _ Hkey).
    split; reflexivity. }
  split.
  - intros fields s1 z Hreply Hint.
    destruct (parse_page_meta_total B doc page fields z Hint) as [m Hm].
    exists m. eexists. rewrite classify_page_unfold, with_llm_meta_unfold.
    rewrite Hreply. cbn [loads mbind result_bind]. rewrite Hm.
    split; [reflexivity |].
    apply parse_page_meta_inv in Hm as (f & Hf & _ & _ & Ht & Ho).
    injection Hf as <-. split; [exact Ht |]. split; [| exact Ho].
    rewrite Ht. apply one_of_In. now apply normalized_valid.
  - intros fields items s1 Hreply Hiter Hall.
    destruct (result_map_total
                (fun ir => parse_row B meta (fst ir) (snd ir))
                (Py.enumerate items)) as [rows Hrows].
    { eapply Forall_impl; [exact Hall |].
      intros [i r] (f & Hr & Hco). cbn [fst snd] in Hr, Hco |- *. subst r.
      now apply parse_row_total. }
    exists rows. eexists. rewrite with_llm_rows_unfold, Hreply.
    cbn [loads mbind result_bind]. unfold parse_rows.
    cbn [Py.as_dict mbind result_bind]. rewrite Hiter.
    cbn [mbind result_bind]. rewrite Hrows. split; [reflexivity |].
    apply result_map_Forall2 in Hrows.
    eapply Forall2_impl; [exact Hrows |].
    intros [i r] row Hrow. cbn [fst snd] in Hrow |- *.
    apply parse_row_inv in Hrow as (f & -> & _ & _ & _ & Ht & _).
    exists f. split; [reflexivity |]. split; [exact Ht |].
    rewrite Ht. apply one_of_In. now apply normalized_valid.
Qed.

(** C10. On the success paths the identifiers of the result are those of
    the reply when the reply holds them, coerced by [str] and [int], and the
    caller's only when the reply leaves them out; there are replies for which
    the metadata and the rows carry identifiers other than the caller's. *)
Theorem identifiers_taken_from_reply doc page meta i fields :
  (forall m,
      parse_page_meta B doc page (JDict fields) = Ok m ->
      (forall v, Py.find fields "doc_id" = Some v ->
                 meta_doc_id m = py_str B v)
      /\ (Py.find fields "doc_id" = None -> meta_doc_id m = doc)
      /\ (forall v, Py.find fields "page_id" = Some v ->
                    py_int B v = Ok (meta_page_id m))
      /\ (Py.find fields "page_id" = None -> meta_page_id m = page))
  /\ (forall row,
         parse_row B meta i (JDict fields) = Ok row ->
         (forall v, Py.find fields "doc_id" = Some v ->
                    doc_id row = py_str B v)
         /\ (Py.find fields "doc_id" = None ->
             doc_id row = meta_doc_id meta)
         /\ (forall v, Py.find fields "page_id" = Some v ->
                       py_int B v = Ok (page_id row))
         /\ (Py.find fields "page_id" = None ->
             page_id row = meta_page_id meta))
  /\ (exists reply m w',
         classify_page (fixed_services reply LlmFailed OcrFailed
                                       (Raise FileNotFoundError))
                       B "1704" 1 "" fresh_world = (Ok m, w')
         /\ meta_doc_id m <> "1704" /\ meta_page_id m <> 1%Z)
  /\ (exists reply row w',
         extract_page (fixed_services LlmFailed reply OcrFailed
                                      (Raise FileNotFoundError))
                      B (classify_fallback "1704" 1 "") "" fresh_world
         = (Ok [row], w')
         /\ doc_id row <> "1704" /\ page_id row <> 1%Z).
Proof.
  split; [| split; [| split]].
  - intros m Hm.
    apply parse_page_meta_inv in Hm as (f & Hf & Hd & Hp & _).
    injection Hf as <-. repeat split.
    + intros v Hv. now rewrite (get_found _ _ _ _ Hv) in Hd.
    + intros Hv. now rewrite (get_missing _ _ _ Hv) in Hd.
    + intros v Hv. now rewrite (get_found _ _ _ _ Hv) in Hp.
    + intros Hv. rewrite (get_missing _ _ _ Hv) in Hp. cbn in Hp. congruence.
  - intros row Hrow.
    apply parse_row_inv in Hrow as (f & Hf & Hd & Hp & _).
    injection Hf as <-. repeat split.
    + intros v Hv. now rewrite (get_found _ _ _ _ Hv) in Hd.
    + intros Hv. now rewrite (get_missing _ _ _ Hv) in Hd.
    + intros v Hv. now rewrite (get_found _ _ _ _ Hv) in Hp.
    + intros Hv. rewrite (get_missing _ _ _ Hv) in Hp. cbn in Hp. congruence.
  - exists (LlmJson (JDict [("doc_id", JStr "1705"); ("page_id", JInt 2)])).
    do 2 eexists. split; [reflexivity |]. cbn. split; [discriminate | lia].
  - exists (LlmJson (JDict [("rows", JList [JDict [("doc_id", JStr "1705");
                                                  ("page_id", JInt 2)]])])).
    do 2 eexists. split; [reflexivity |]. cbn. split; [discriminate | lia].
Qed.

End Validation.

Section Extraction.

Context {S : Type} (svc : Services S) (B : Builtins).

Lemma rule_based_set_confidences row rb c tmp :
  compute_rule_based_confidence (set_confidences row rb c) tmp
  = compute_rule_based_confidence row tmp.
Proof. reflexivity. Qed.

Lemma row_confidence_set_confidences row rb c rw tmp :
  compute_row_confidence (set_confidences row rb c) rw tmp
  = compute_row_confidence row rw tmp.
Proof. reflexivity. Qed.

Lemma out_of_range_none lo hi v :
  Py.is_none v = true -> out_of_range lo hi v = false.
Proof. destruct v; cbn; congruence. Qed.

(** With a valid transaction type and no bound on the pounds, the penalties
    do not use up the score. *)
Lemma rule_based_positive row s :
  Text.one_of (transaction_type row) TransactionType = true ->
  compute_rule_based_confidence row None = Ok s -> 0 < s.
Proof.
  intros Ht E. pose proof (rule_based_comparable _ _ _ E) as H.
  destruct (rule_based_ok row None H) as (s' & E' & Hs).
  rewrite E in E'. injection E' as <-. rewrite Hs. clear E Hs.
  unfold rule_score_of, other_penalties, description_penalty. rewrite Ht.
  pose proof (out_of_range_none 0 19 (shillings row)) as Hsh.
  pose proof (out_of_range_none 0 11 (pence row)) as Hd.
  destruct (Py.is_none (shillings row)), (Py.is_none (pence row)),
           (Py.is_none (pounds row));
    try rewrite (Hsh eq_refl); try rewrite (Hd eq_refl);
    cbn [andb negb penalty];
    destruct (String.length (Text.strip (description row)) =? 0)%nat;
    try destruct (String.length (Text.strip (description row)) <? 3)%nat;
    try destruct (out_of_range 0 19 (shillings row));
    try destruct (out_of_range 0 11 (pence row));
    cbn [penalty]; unfold clamp_unit;
    repeat match goal with
           | |- context [Qlt_le_dec ?a ?b] => destruct (Qlt_le_dec a b)
           end; lra.
Qed.

Lemma apply_confidences_inv row row' :
  apply_confidences row = Ok row' ->
  exists rb c,
    row' = set_confidences row rb c
    /\ compute_rule_based_confidence row None = Ok rb
    /\ compute_row_confidence row (Finite 0.4) None = Ok c.
Proof.
  unfold apply_confidences. intros H. bind_ok H. bind_ok H.
  injection H as <-. eauto.
Qed.

Lemma apply_confidences_total row :
  comparable_money row None = true ->
  exists row', apply_confidences row = Ok row'.
Proof.
  intros H. destruct (rule_based_ok row None H) as (rule & E1 & _).
  unfold apply_confidences. rewrite E1. cbn [mbind result_bind].
  rewrite (row_confidence_unfold row (Finite 0.4) None rule E1).
  cbn [mbind result_bind]. eauto.
Qed.

Lemma apply_confidences_finalized row row' :
  Text.one_of (transaction_type row) TransactionType = true ->
  apply_confidences row = Ok row' -> finalized row'.
Proof.
  intros Ht H. apply apply_confidences_inv in H as (rb & c & -> & Hrb & Hc).
  pose proof (rule_based_in_unit _ _ _ Hrb) as Hin.
  pose proof (rule_based_positive _ _ Ht Hrb) as Hpos.
  pose proof (row_confidence_unfold row (Finite 0.4) None rb Hrb) as E2.
  rewrite Hc in E2. injection E2 as ->.
  change (Py.max (Finite 0) (Py.min (Finite 1) (Finite 0.4)))
    with (Finite 0.4).
  unfold finalized.
  rewrite rule_based_set_confidences, row_confidence_set_confidences.
  change (model_confs (set_confidences row rb _)) with (model_confs row).
  cbn [rule_based_confidence row_confidence set_confidences].
  do 4 (split; [first [reflexivity | assumption] |]).
  unfold in_unit in Hin. split; intros Hconfs.
  - apply clamp01_unit, blend_not_nan; [lra | lra |].
    now apply sixth_not_nan, py_sum_not_nan.
  - apply blend_positive; [lra | lra |].
    now apply sixth_not_negative, py_sum_not_negative.
Qed.

Lemma dummy_row_scores meta :
  exists rb c,
    apply_confidences (dummy_row meta)
    = Ok (set_confidences (dummy_row meta) rb (Finite c))
    /\ rb == 0.7 /\ c == 0.33.
Proof.
  unfold apply_confidences, dummy_row.
  destruct (String.eqb (page_type meta) "Full_Balance_Sheet");
    vm_compute; (do 2 eexists); (repeat split); reflexivity.
Qed.

(** C1 (amended). Whenever the service path of [extract_page] raises, the
    result is one row, the fallback row with rule score 0.7 and row
    confidence 0.33. When the reply decodes into rows whose shillings and
    pence are numbers or absent, the result has one scored row per decoded
    row, as many as the reply's row array holds, which may be none. In both
    cases [extract_page] returns. *)
Theorem extract_page_outcome meta text w :
  (forall e w1,
      extract_page_with_llm svc B meta text w = (Raise e, w1) ->
      exists rb c,
        extract_page svc B meta text w
        = (Ok [set_confidences (dummy_row meta) rb (Finite c)], w1)
        /\ rb == 0.7 /\ c == 0.33)
  /\ (forall rows w1,
         extract_page_with_llm svc B meta text w = (Ok rows, w1) ->
         Forall (fun r => comparable_money r None = true) rows ->
         exists scored,
           extract_page svc B meta text w = (Ok scored, w1)
           /\ List.length scored = List.length rows)
  /\ (forall rows w1 fields items s1,
         extract_page_with_llm svc B meta text w = (Ok rows, w1) ->
         extractor svc meta text (outside w)
         = (LlmJson (JDict fields), s1) ->
         Py.get fields "rows" (JList []) = JList items ->
         List.length rows = List.length items).
Proof.
  split; [| split].
  - intros e w1 E. rewrite extract_page_unfold, E.
    destruct (dummy_row_scores meta) as (rb & c & Hrow & Hrb & Hc).
    exists rb, c. cbn [result_map mbind result_bind]. rewrite Hrow.
    cbn [mbind result_bind]. auto.
  - intros rows w1 E Hrows. rewrite extract_page_unfold, E.
    destruct (result_map_total apply_confidences rows) as [scored Hs].
    { eapply Forall_impl; [exact Hrows |]. intros r Hr.
      now apply apply_confidences_total. }
    exists scored. rewrite Hs. split; [reflexivity |].
    apply result_map_Forall2 in Hs. symmetry. eapply Forall2_length, Hs.
  - intros rows w1 fields items s1 E Hreply Hitems.
    apply with_llm_rows in E as (data & s1' & Hreply' & Hparse).
    rewrite Hreply in Hreply'. injection Hreply' as <- <-.
    apply parse_rows_inv in Hparse as (fields' & items' & Hf & Hit & Hall).
    injection Hf as <-. rewrite Hitems in Hit. cbn in Hit.
    injection Hit as <-. apply Forall2_length in Hall.
    rewrite <- Hall. apply enumerate_from_length.
Qed.

(** C4 (amended). Every row [extract_page] returns, from the reply or
    from the fallback, holds the scorer's values of that very row in its two
    final confidences: [rule_based_confidence] is
    [compute_rule_based_confidence] of the row and [row_confidence] is
    [compute_row_confidence] of the row at rule weight 0.4. The rule score
    lies in [[0, 1]] and is not zero. The row confidence lies in [[0, 1]]
    when the six model confidences of the row are finite, and is not zero
    when none of them is negative or NaN. *)
Theorem extract_page_rows_finalized meta text w rows w' :
  extract_page svc B meta text w = (Ok rows, w') ->
  Forall finalized rows.
Proof.
  rewrite extract_page_unfold.
  destruct (extract_page_with_llm svc B meta text w) as [r w1] eqn:E.
  intros H. injection H as H _.
  apply result_map_Forall2 in H.
  assert (Htx : Forall (fun row =>
            Text.one_of (transaction_type row) TransactionType = true)
            (match r with
             | Ok rows0 => rows0
             | Raise _ => [dummy_row meta]
             end)).
  { destruct r as [rows0 | e].
    - apply with_llm_rows in E as (data & s1 & _ & Hparse).
      apply parse_rows_inv in Hparse as (fields & items & _ & _ & Hall).
      clear -Hall. induction Hall; constructor; eauto using parse_row_tx.
    - constructor; [reflexivity | constructor]. }
  clear E. induction H as [| row row' rest rest' Hrow _ IH];
    [constructor |].
  apply Forall_cons_1 in Htx as [Ht Htx].
  constructor; [eapply apply_confidences_finalized; eauto | auto].
Qed.

Lemma result_map_raises {A C} (f : A -> result C) xs :
  Exists (fun x => exists e, f x = Raise e) xs ->
  exists e, result_map f xs = Raise e.
Proof.
  induction 1 as [x xs [e He] | x xs _ [e IH]]; cbn.
  - rewrite He. now exists e.
  - destruct (f x) as [y | e']; cbn [mbind result_bind].
    + rewrite IH. now exists e.
    + now exists e'.
Qed.

(** The scorer returns exactly on the rows whose compared monetary fields
    are numbers or absent; on the others the comparison raises. *)
Theorem rule_based_confidence_defined row tmp :
  (exists s, compute_rule_based_confidence row tmp = Ok s)
  <-> comparable_money row tmp = true.
Proof.
  split.
  - intros [s E]. now apply rule_based_comparable in E.
  - intros H. destruct (rule_based_ok row tmp H) as (s & E & _). eauto.
Qed.

(** The scoring loop of [extract_page] stands after the [try] block: when a
    decoded row holds shillings or pence that are no numbers, the exception
    of the scorer leaves [extract_page]. *)
Theorem extract_page_raises meta text w rows w1 :
  extract_page_with_llm svc B meta text w = (Ok rows, w1) ->
  Exists (fun r => comparable_money r None = false) rows ->
  exists e, extract_page svc B meta text w = (Raise e, w1).
Proof.
  intros E Hbad. rewrite extract_page_unfold, E.
  destruct (result_map_raises apply_confidences rows) as [e He].
  { eapply Exists_impl; [exact Hbad |]. intros r Hr.
    exists TypeError. unfold apply_confidences.
    now rewrite (rule_based_raises r None Hr). }
  exists e. now rewrite He.
Qed.

End Extraction.

(** ** The document pipeline *)

Lemma getitem_elem {V} (d : list (Z * V)) k v :
  NoDup (Dict.keys d) -> (k, v) ∈ d -> Dict.getitem d k = Ok v.
Proof.
  unfold Dict.keys. induction d as [| [k' v'] d IH]; cbn.
  - intros _ H. inversion H.
  - intros Hnd Hin. apply NoDup_cons in Hnd as [Hk Hnd].
    apply elem_of_cons in Hin as [Heq | Hin].
    + injection Heq as <- <-. now rewrite Z.eqb_refl.
    + destruct (Z.eqb_spec k' k) as [-> | _]; [| auto].
      exfalso. apply Hk. apply (list_elem_of_fmap_2 fst _ (k, v)), Hin.
Qed.

#[local] Instance key_le_trans {V} : Transitive (@Dict.key_le V).
Proof. intros a b c. unfold Dict.key_le. lia. Qed.

#[local] Instance key_le_total {V} : Total (@Dict.key_le V).
Proof. intros a b. unfold Dict.key_le. lia. Qed.

Lemma sorted_items_perm {V} (d : list (Z * V)) : Dict.sorted_items d ≡ₚ d.
Proof. apply merge_sort_Permutation. Qed.

Lemma sorted_items_sorted {V} (d : list (Z * V)) :
  StronglySorted Dict.key_le (Dict.sorted_items d).
Proof. apply StronglySorted_merge_sort; apply _. Qed.

Lemma keys_perm {V} (d d' : list (Z * V)) :
  d ≡ₚ d' -> Dict.keys d ≡ₚ Dict.keys d'.
Proof. intros H. unfold Dict.keys. now rewrite H. Qed.

(** A list sorted by [<=] without repeated elements is sorted by [<]. *)
Lemma sorted_le_lt (l : list Z) :
  NoDup l -> StronglySorted Z.le l -> StronglySorted Z.lt l.
Proof.
  induction 2 as [| a l Hs IH Hall]; [constructor |].
  apply NoDup_cons in H as [Ha Hnd]. constructor; [auto |].
  apply Forall_forall. intros x Hx.
  rewrite Forall_forall in Hall. specialize (Hall x Hx).
  assert (a <> x) by (intros ->; contradiction).
  lia.
Qed.

Lemma keys_sorted {V} (l : list (Z * V)) :
  StronglySorted Dict.key_le l -> StronglySorted Z.le (Dict.keys l).
Proof.
  induction 1 as [| a l Hs IH Hall]; cbn; constructor; [exact IH |].
  apply Forall_fmap. eapply Forall_impl; [exact Hall |].
  intros x Hx. exact Hx.
Qed.

Lemma sorted_items_keys {V} (d : list (Z * V)) :
  NoDup (Dict.keys d) ->
  Dict.keys (Dict.sorted_items d) = Dict.sorted_keys d.
Proof.
  intros Hnd. apply (StronglySorted_unique Z.le).
  - apply keys_sorted, sorted_items_sorted.
  - apply StronglySorted_merge_sort; apply _.
  - unfold Dict.sorted_keys. rewrite merge_sort_Permutation.
    apply keys_perm, sorted_items_perm.
Qed.

Lemma sorted_keys_ascending {V} (d : list (Z * V)) :
  NoDup (Dict.keys d) -> StronglySorted Z.lt (Dict.sorted_keys d).
Proof.
  intros Hnd. apply sorted_le_lt.
  - unfold Dict.sorted_keys. now rewrite merge_sort_Permutation.
  - apply StronglySorted_merge_sort; apply _.
Qed.

(** Two listings of one dict sort to the same list of items. *)
Lemma sorted_items_unique {V} (d d' : list (Z * V)) :
  NoDup (Dict.keys d) -> d' ≡ₚ d ->
  Dict.sorted_items d' = Dict.sorted_items d.
Proof.
  intros Hnd Hp. apply (StronglySorted_unique_strong Dict.key_le).
  - intros [k1 v1] [k2 v2] H1 H2 Hle Hge. unfold Dict.key_le in Hle, Hge.
    cbn in Hle, Hge. assert (k1 = k2) as -> by lia. f_equal.
    rewrite sorted_items_perm in H1, H2. rewrite Hp in H1.
    pose proof (getitem_elem d k2 v1 Hnd H1) as E1.
    pose proof (getitem_elem d k2 v2 Hnd H2) as E2. congruence.
  - apply sorted_items_sorted.
  - apply sorted_items_sorted.
  - now rewrite !sorted_items_perm.
Qed.

Section Document.

Context {S : Type} (svc : Services S) (B : Builtins).

Lemma M_bind_run {A C} (m : M S A) (f : A -> M S C) w :
  (m ≫= f) w
  = match m w with
    | (Ok a, w') => f a w'
    | (Raise e, w') => (Raise e, w')
    end.
Proof. reflexivity. Qed.

Lemma classify_page_log doc page text w r w' :
  classify_page svc B doc page text w = (r, w') ->
  log w' = (log w ++ [ClassifyCall doc page])%list.
Proof.
  rewrite classify_page_unfold, with_llm_meta_unfold.
  destruct (classifier svc doc page text (outside w)) as [reply s1].
  intros H. injection H as _ <-. reflexivity.
Qed.

Lemma extract_page_log meta text w r w' :
  extract_page svc B meta text w = (r, w') ->
  log w'
  = (log w ++ [ExtractCall (meta_doc_id meta) (meta_page_id meta)])%list.
Proof.
  rewrite extract_page_unfold, with_llm_rows_unfold.
  destruct (extractor svc meta text (outside w)) as [reply s1].
  intros H. injection H as _ <-. reflexivity.
Qed.

Lemma process_single_page_log doc page text w r w' :
  process_single_page svc B doc page text w = (r, w') ->
  classified_pages (log w') = (classified_pages (log w) ++ [page])%list.
Proof.
  unfold process_single_page. rewrite M_bind_run.
  destruct (classify_page svc B doc page text w) as [[meta | e] w1] eqn:Ec.
  - apply classify_page_log in Ec. rewrite M_bind_run.
    destruct (extract_page svc B meta text w1) as [[rows | e] w2] eqn:Ee;
      apply extract_page_log in Ee; intros H; injection H as _ <-;
      rewrite Ee, Ec; unfold classified_pages; rewrite !omap_app;
      cbn; now rewrite app_nil_r.
  - apply classify_page_log in Ec. intros H. injection H as _ <-.
    rewrite Ec. unfold classified_pages. now rewrite omap_app.
Qed.

Lemma pages_in_turn_log doc items w res w' :
  pages_in_turn svc B doc items w = (Ok res, w') ->
  classified_pages (log w')
  = (classified_pages (log w) ++ Dict.keys items)%list.
Proof.
  revert w res w'.
  induction items as [| [k v] items IH]; intros w res w'; cbn.
  - intros H. injection H as _ <-. now rewrite app_nil_r.
  - rewrite M_bind_run.
    destruct (process_single_page svc B doc k v w) as [[first | e] w1] eqn:E1;
      [| discriminate].
    apply process_single_page_log in E1. rewrite M_bind_run.
    destruct (pages_in_turn svc B doc items w1) as [[others | e] w2] eqn:E2;
      [| discriminate].
    apply IH in E2. intros H. injection H as _ <-.
    rewrite E2, E1, <- app_assoc. reflexivity.
Qed.

(** The loop with its two accumulators is the in-turn processing of the
    listed pages, appended to what was accumulated. *)
Lemma process_pages_in_turn doc pages items ms rs w :
  (forall k v, (k, v) ∈ items -> Dict.getitem pages k = Ok v) ->
  process_pages svc B doc pages (Dict.keys items) ms rs w
  = (others ← pages_in_turn svc B doc items;
     mret ((ms ++ fst others)%list, (rs ++ snd others)%list)) w.
Proof.
  revert ms rs w. induction items as [| [k v] items IH]; intros ms rs w Hget.
  - cbn. rewrite M_bind_run. cbn. now rewrite !app_nil_r.
  - cbn [Dict.keys map fst process_pages pages_in_turn].
    rewrite (M_bind_run (lift _)). unfold lift.
    rewrite (Hget k v) by constructor. cbv beta iota.
    rewrite !M_bind_run.
    destruct (process_single_page svc B doc k v w) as [[first | e] w1];
      [| reflexivity].
    rewrite IH by (intros k' v' H; apply Hget; now constructor).
    rewrite !M_bind_run.
    destruct (pages_in_turn svc B doc items w1) as [[others | e] w2];
      [| reflexivity].
    cbn. now rewrite <- !app_assoc.
Qed.

Lemma process_document_in_turn doc pages w :
  NoDup (Dict.keys pages) ->
  process_document svc B doc pages w
  = pages_in_turn svc B doc (Dict.sorted_items pages) w.
Proof.
  intros Hnd. unfold process_document.
  rewrite <- (sorted_items_keys pages Hnd), process_pages_in_turn.
  - rewrite M_bind_run.
    destruct (pages_in_turn svc B doc (Dict.sorted_items pages) w)
      as [[[ms rs] | e] w1]; reflexivity.
  - intros k v H. apply getitem_elem; [exact Hnd |].
    now rewrite sorted_items_perm in H.
Qed.

(** The map of the specification's example, whatever the services do. *)
Lemma process_document_two_pages doc w :
  process_document svc B doc [(2%Z, "B"); (1%Z, "A")] w
  = (first ← process_single_page svc B doc 1 "A";
     second ← process_single_page svc B doc 2 "B";
     mret ([fst first; fst second], (snd first ++ snd second)%list)) w.
Proof.
  rewrite process_document_in_turn
    by (refine (bool_decide_unpack _ _); vm_compute; exact I).
  change (Dict.sorted_items [(2%Z, "B"); (1%Z, "A")])
    with [(1%Z, "A"); (2%Z, "B")].
  cbn [pages_in_turn]. rewrite !M_bind_run.
  destruct (process_single_page svc B doc 1 "A" w) as [[first | e] w1];
    [| reflexivity].
  rewrite !M_bind_run.
  destruct (process_single_page svc B doc 2 "B" w1) as [[second | e] w2];
    [| reflexivity].
  rewrite M_bind_run. unfold mret, M_ret. cbn [fst snd].
  now rewrite app_nil_r.
Qed.

(** C6. For a dict of pages (its keys differ), [process_document] goes
    through the page ids in strictly ascending order: its result is that of
    processing the items sorted by page id one after the other, metadata and
    rows concatenated in that order; the classification calls it logs are
    those of the sorted ids; and another listing of the same dict gives the
    same result. *)
Theorem process_document_ascending doc pages :
  NoDup (Dict.keys pages) ->
  StronglySorted Z.lt (Dict.sorted_keys pages)
  /\ Dict.sorted_keys pages ≡ₚ Dict.keys pages
  /\ Dict.keys (Dict.sorted_items pages) = Dict.sorted_keys pages
  /\ (forall w,
         process_document svc B doc pages w
         = pages_in_turn svc B doc (Dict.sorted_items pages) w)
  /\ (forall pages' w,
         pages' ≡ₚ pages ->
         process_document svc B doc pages' w
         = process_document svc B doc pages w)
  /\ (forall w res w',
         process_document svc B doc pages w = (Ok res, w') ->
         classified_pages (log w')
         = (classified_pages (log w) ++ Dict.sorted_keys pages)%list).
Proof.
  intros Hnd.
  split; [now apply sorted_keys_ascending |].
  split; [apply merge_sort_Permutation |].
  split; [now apply sorted_items_keys |].
  split; [intros w; now apply process_document_in_turn |].
  split.
  - intros pages' w Hp.
    assert (Hnd' : NoDup (Dict.keys pages'))
      by now rewrite (keys_perm _ _ Hp).
    rewrite !process_document_in_turn by assumption.
    now rewrite (sorted_items_unique pages pages' Hnd Hp).
  - intros w res w' H. rewrite process_document_in_turn in H by assumption.
    apply pages_in_turn_log in H. now rewrite sorted_items_keys in H.
Qed.

End Document.

(** ** The transcription cache *)

Lemma setitem_fresh {V} (d : list (Z * V)) k v :
  k ∉ Dict.keys d -> Dict.setitem d k v = (d ++ [(k, v)])%list.
Proof.
  unfold Dict.keys. induction d as [| [k' v'] d IH]; cbn; [reflexivity |].
  intros Hk. apply not_elem_of_cons in Hk as [Hne Hk].
  destruct (Z.eqb_spec k' k) as [-> | _]; [contradiction |].
  now rewrite IH.
Qed.

Lemma uncached_agree doc files files' items :
  (forall k, k ∈ Dict.keys items -> files' !! (doc, k) = files !! (doc, k)) ->
  uncached doc files' items = uncached doc files items.
Proof.
  unfold uncached, Dict.keys.
  induction items as [| [p path] items IH]; cbn [List.filter map fst];
    [reflexivity |].
  intros H. rewrite (H p) by now left.
  rewrite IH by (intros k Hk; apply H; now right). reflexivity.
Qed.

Lemma uncached_insert doc files page text items :
  page ∉ Dict.keys items ->
  uncached doc (<[(doc, page) := text]> files) items = uncached doc files items.
Proof.
  intros Hk. apply uncached_agree. intros k Hin.
  apply lookup_insert_ne. intros E. injection E as ->. contradiction.
Qed.





Section Cache.

Context {S : Type} (svc : Services S).

Lemma cached_page_text_hit doc page path text w :
  cache w !! (doc, page) = Some text ->
  cached_page_text svc doc page path w
  = (Ok (Text.universal_newlines text), w).
Proof.
  intros H. unfold cached_page_text. rewrite M_bind_run.
  unfold cache_read. now rewrite H.
Qed.

Lemma ocr_page_unfold path w :
  ocr_page_with_gpt svc path w
  = let (reply, s1) := transcriber svc path (outside w) in
    (match reply with
     | OcrFailed => Raise ServiceError
     | OcrNoContent => Raise RuntimeError
     | OcrContent content => Ok (Text.strip content)
     end,
     {| outside := s1; cache := cache w;
        log := (log w ++ [OcrCall path])%list |}).
Proof.
  unfold ocr_page_with_gpt.
  repeat first
    [ rewrite M_bind_run
    | progress unfold record, call
    | progress cbv beta iota
    | progress cbn [outside cache log] ].
  destruct (transcriber svc path (outside w)) as [[| | content] s1];
    reflexivity.
Qed.

(** A page without a cache entry: one call, and on success the text is
    written at once. *)
Lemma cached_page_text_miss doc page path w :
  cache w !! (doc, page) = None ->
  cached_page_text svc doc page path w
  = let (reply, s1) := transcriber svc path (outside w) in
    match reply with
    | OcrContent content =>
        (Ok (Text.strip content),
         {| outside := s1;
            cache := <[(doc, page) := Text.strip content]> (cache w);
            log := (log w ++ [OcrCall path; CacheWrite doc page])%list |})
    | OcrFailed =>
        (Raise ServiceError,
         {| outside := s1; cache := cache w;
            log := (log w ++ [OcrCall path])%list |})
    | OcrNoContent =>
        (Raise RuntimeError,
         {| outside := s1; cache := cache w;
            log := (log w ++ [OcrCall path])%list |})
    end.
Proof.
  intros H. unfold cached_page_text. rewrite M_bind_run.
  unfold cache_read. rewrite H. cbn [fmap option_fmap option_map].
  rewrite M_bind_run, ocr_page_unfold.
  destruct (transcriber svc path (outside w)) as [[| | content] s1];
    try reflexivity.
  rewrite M_bind_run. unfold cache_write. cbn [outside cache log].
  now rewrite <- app_assoc.
Qed.








Lemma ocr_unfold doc w :
  ocr_pdf_to_pages_cached svc doc w
  = let (images, s1) := renderer svc doc (outside w) in
    match images with
    | Ok page_images =>
        ocr_pages svc doc (Dict.sorted_items page_images) []
          {| outside := s1; cache := cache w; log := log w |}
    | Raise e =>
        (Raise e, {| outside := s1; cache := cache w; log := log w |})
    end.
Proof.
  unfold ocr_pdf_to_pages_cached, export_pdf_pages_as_images.
  rewrite !M_bind_run. unfold call, lift.
  destruct (renderer svc doc (outside w)) as [[images | e] s1]; reflexivity.
Qed.



End Cache.

(** ** The properties at concrete inputs *)


(** C1 as stated fails when the service finds no row: the reply decodes,
    nothing raises, and [extract_page] returns the empty list. *)
Lemma empty_rows_counterexample :
  extract_page no_rows no_numeral_text list_page "" fresh_world
  = (Ok [], {| outside := tt; cache := ∅;
               log := [ExtractCall "1704" 1] |}).
Proof. vm_compute. reflexivity. Qed.

Lemma extract_page_outcome_witness :
  (exists rb c,
      extract_page offline no_numeral_text list_page "" fresh_world
      = (Ok [set_confidences (dummy_row list_page) rb (Finite c)],
         {| outside := tt; cache := ∅; log := [ExtractCall "1704" 1] |})
      /\ rb == 0.7 /\ c == 0.33)
  /\ (exists scored,
         extract_page no_rows no_numeral_text list_page "" fresh_world
         = (Ok scored,
            {| outside := tt; cache := ∅; log := [ExtractCall "1704" 1] |})
         /\ List.length scored = 0%nat).
Proof.
  split.
  - exact (proj1 (extract_page_outcome offline no_numeral_text list_page ""
                    fresh_world)
                 ServiceError _ eq_refl).
  - exact (proj1 (proj2 (extract_page_outcome no_rows no_numeral_text
                           list_page "" fresh_world))
                 [] _ eq_refl (Forall_nil_2 _)).
Defined.

Lemma extract_page_rows_finalized_witness :
  (exists rows w',
      extract_page offline no_numeral_text list_page "" fresh_world
      = (Ok rows, w')
      /\ List.length rows = 1%nat
      /\ Forall finalized rows)
  /\ (exists row w',
         extract_page (one_row (JFloat (Finite 0.5))) no_numeral_text
                      list_page "" fresh_world
         = (Ok [row], w')
         /\ description row = "Rent of the glebe"
         /\ rule_based_confidence row == 1
         /\ same (row_confidence row) (Finite 0.7)
         /\ Forall finalized [row]).
Proof.
  split.
  - do 2 eexists. split; [vm_compute; reflexivity |].
    split; [reflexivity |].
    apply (extract_page_rows_finalized offline no_numeral_text list_page ""
             fresh_world _
             {| outside := tt; cache := ∅; log := [ExtractCall "1704" 1] |}).
    vm_compute. reflexivity.
  - do 2 eexists. split; [vm_compute; reflexivity |].
    split; [reflexivity |]. split; [reflexivity |].
    split; [vm_compute; reflexivity |].
    apply (extract_page_rows_finalized
             (one_row (JFloat (Finite 0.5))) no_numeral_text list_page ""
             fresh_world _
             {| outside := tt; cache := ∅; log := [ExtractCall "1704" 1] |}).
    vm_compute. reflexivity.
Defined.

(** C4 as stated fails on a reply whose row reports the confidence -1.0
    for each of its fields: the blend is negative and the closing clamp
    leaves the row confidence at 0.0, the value of the placeholder. *)
Lemma negative_confidences_counterexample :
  exists row w',
    extract_page (one_row (JFloat (Finite (-1)))) no_numeral_text
                 list_page "" fresh_world
    = (Ok [row], w')
    /\ row_confidence row = Finite 0.
Proof. do 2 eexists. split; vm_compute; reflexivity. Qed.

Lemma classify_page_total_witness :
  (exists meta w',
      classify_page offline no_numeral_text "1704" 1 "Sub TOTAL 12 4 0"
                    fresh_world
      = (Ok meta, w')
      /\ lower_cased "Sub TOTAL 12 4 0" = "sub " ++ "total" ++ " 12 4 0"
      /\ page_type meta = "Full_Balance_Sheet")
  /\ (exists meta w',
         classify_page offline no_numeral_text "1704" 1
                       "To BALANCE brought over" fresh_world
         = (Ok meta, w')
         /\ page_type meta = "Full_Balance_Sheet")
  /\ (exists meta w',
         classify_page offline no_numeral_text "1704" 1
                       "Rent of the glebe 2 10 0" fresh_world
         = (Ok meta, w')
         /\ page_type meta = "Sectional_List")
  /\ (exists meta w',
         classify_page offline no_numeral_text "1704" 1 "" fresh_world
         = (Ok meta, w')
         /\ page_type meta = "Sectional_List").
Proof.
  assert (Hno : forall text,
             Text.contains "total" (Text.lower text)
             || Text.contains "balance" (Text.lower text) = false ->
             ~ keyword_page text).
  { intros text H Hk. apply keyword_page_iff in Hk. congruence. }
  split; [| split; [| split]].
  - destruct (classify_page_total offline no_numeral_text "1704" 1
                "Sub TOTAL 12 4 0" fresh_world)
      as (meta & w' & E & _ & _ & Hfallback).
    exists meta, w'. split; [exact E |]. split; [reflexivity |].
    destruct (Hfallback ServiceError
                {| outside := tt; cache := ∅;
                   log := [ClassifyCall "1704" 1] |}
                eq_refl) as (_ & _ & _ & Ht & _).
    apply Ht. left. now exists "sub ", " 12 4 0".
  - destruct (classify_page_total offline no_numeral_text "1704" 1
                "To BALANCE brought over" fresh_world)
      as (meta & w' & E & _ & _ & Hfallback).
    exists meta, w'. split; [exact E |].
    destruct (Hfallback ServiceError
                {| outside := tt; cache := ∅;
                   log := [ClassifyCall "1704" 1] |}
                eq_refl) as (_ & _ & _ & Ht & _).
    apply Ht. right. now exists "to ", " brought over".
  - destruct (classify_page_total offline no_numeral_text "1704" 1
                "Rent of the glebe 2 10 0" fresh_world)
      as (meta & w' & E & _ & _ & Hfallback).
    exists meta, w'. split; [exact E |].
    destruct (Hfallback ServiceError
                {| outside := tt; cache := ∅;
                   log := [ClassifyCall "1704" 1] |}
                eq_refl) as (_ & _ & _ & _ & Hf & _).
    apply Hf, Hno. reflexivity.
  - destruct (classify_page_total offline no_numeral_text "1704" 1 ""
                fresh_world) as (meta & w' & E & _ & _ & Hfallback).
    exists meta, w'. split; [exact E |].
    destruct (Hfallback ServiceError
                {| outside := tt; cache := ∅;
                   log := [ClassifyCall "1704" 1] |}
                eq_refl) as (_ & _ & _ & _ & Hf & _).
    apply Hf, Hno. reflexivity.
Defined.

Lemma process_document_ascending_witness :
  NoDup (Dict.keys [(2%Z, "B"); (1%Z, "A")])
  /\ process_document offline no_numeral_text "1704"
       [(2%Z, "B"); (1%Z, "A")] fresh_world
     = pages_in_turn offline no_numeral_text "1704"
         [(1%Z, "A"); (2%Z, "B")] fresh_world.
Proof.
  assert (Hnd : NoDup (Dict.keys [(2%Z, "B"); (1%Z, "A")])).
  { refine (bool_decide_unpack _ _). vm_compute. exact I. }
  split; [exact Hnd |].
  exact (proj1 (proj2 (proj2 (proj2
           (process_document_ascending offline no_numeral_text "1704"
              [(2%Z, "B"); (1%Z, "A")] Hnd)))) fresh_world).
Defined.



Lemma unrecognized_values_normalized_witness :
  exists m w',
    classify_page odd_page_type no_numeral_text "1704" 1 "" fresh_world
    = (Ok m, w')
    /\ page_type m = "Unknown"
    /\ financial_structure_overview m = "One column.".
Proof.
  destruct (proj1 (proj2 (proj2 (unrecognized_values_normalized
                                   odd_page_type no_numeral_text "1704" 1 ""
                                   list_page fresh_world)))
                  [("page_type", JStr "Invoice");
                   ("financial_structure_overview", JStr "One column.")]
                  tt 1%Z eq_refl eq_refl)
    as (m & w' & E & Ht & _ & Ho).
  exists m, w'. split; [exact E |]. split; [exact Ht | exact Ho].
Defined.

Lemma identifiers_taken_from_reply_witness :
  exists m,
    parse_page_meta no_numeral_text "1704" 1
      (JDict [("doc_id", JStr "1705"); ("page_id", JInt 2)]) = Ok m
    /\ meta_doc_id m = "1705"
    /\ Ok 2%Z = Ok (meta_page_id m).
Proof.
  eexists. split; [reflexivity |].
  destruct (proj1 (identifiers_taken_from_reply no_numeral_text "1704" 1
                     list_page 0
                     [("doc_id", JStr "1705"); ("page_id", JInt 2)])
                  _ eq_refl) as (Hd & _ & Hp & _).
  split; [exact (Hd _ eq_refl) | exact (Hp _ eq_refl)].
Defined.

Lemma extract_page_raises_witness :
  extract_page text_shillings no_numeral_text list_page "" fresh_world
  = (Raise TypeError,
     {| outside := tt; cache := ∅; log := [ExtractCall "1704" 1] |})
  /\ exists e,
      extract_page text_shillings no_numeral_text list_page "" fresh_world
      = (Raise e,
         {| outside := tt; cache := ∅; log := [ExtractCall "1704" 1] |}).
Proof.
  split; [vm_compute; reflexivity |].
  eapply (extract_page_raises text_shillings no_numeral_text list_page ""
            fresh_world).
  - vm_compute. reflexivity.
  - constructor. reflexivity.
Defined.

(** * Further properties *)

(** ** The path and text operations at a few inputs *)

Example join_components :
  Path.join "/srv/ledger" ["data"; "raw"; "1704.pdf"]
  = "/srv/ledger/data/raw/1704.pdf"
  /\ Path.join "/srv/" ["data"] = "/srv/data"
  /\ Path.join "" ["data"] = "data"
  /\ Path.join "/srv" ["/etc"; "hosts"] = "/etc/hosts".
Proof. repeat split. Qed.

Example basename_after_last_separator :
  Path.basename "/srv/ledger/data/raw/1704.pdf" = "1704.pdf"
  /\ Path.basename "1704.pdf" = "1704.pdf"
  /\ Path.basename "data/raw/" = "".
Proof. repeat split. Qed.

Example splitext_last_dot_of_the_name :
  Path.splitext "1704.pdf" = ("1704", ".pdf")
  /\ Path.splitext "ledger.1704.pdf" = ("ledger.1704", ".pdf")
  /\ Path.splitext ".pdf" = (".pdf", "")
  /\ Path.splitext "..pdf" = ("..pdf", "")
  /\ Path.splitext "raw.d/1704" = ("raw.d/1704", "").
Proof. repeat split. Qed.

Example replace_from_the_left :
  Str.replace "aa" "b" "aaa" = "ba"
  /\ Str.replace "" "-" "abc" = "-a-b-c-"
  /\ Str.replace "{{DOC_ID}}" "1704" "{{DOC_ID}}, {{DOC_ID}}." = "1704, 1704.".
Proof. repeat split. Qed.

Example doc_ids_in_the_order_of_the_paths :
  list_doc_ids_from_raw ["raw/b.pdf"; "raw/a.pdf"; "raw/a-b.pdf"]
  = ["a-b"; "a"; "b"].
Proof. vm_compute. reflexivity. Qed.

(** ** More on the scorer *)

Lemma clamp_unit_mono x y : x <= y -> clamp_unit x <= clamp_unit y.
Proof.
  unfold clamp_unit. intros H.
  destruct (Qlt_le_dec x 0), (Qlt_le_dec y 0), (Qlt_le_dec 1 x),
           (Qlt_le_dec 1 y); lra.
Qed.

(** The rule score reads the description, the transaction type and the
    three monetary fields, and nothing else of the row: not the identifiers,
    not the pence fraction, not a confidence. Without a typical maximum it
    reads of the pounds only whether they are there. *)
Theorem rule_score_reads_five_fields r1 r2 tmp :
  description r1 = description r2 ->
  transaction_type r1 = transaction_type r2 ->
  shillings r1 = shillings r2 ->
  pence r1 = pence r2 ->
  (pounds r1 = pounds r2 ->
   compute_rule_based_confidence r1 tmp
   = compute_rule_based_confidence r2 tmp)
  /\ (Py.is_none (pounds r1) = Py.is_none (pounds r2) ->
      compute_rule_based_confidence r1 None
      = compute_rule_based_confidence r2 None).
Proof.
  intros Hd Ht Hs Hp. unfold compute_rule_based_confidence. cbv zeta.
  rewrite Hd, Ht, Hs, Hp. split; intros Hl; now rewrite Hl.
Qed.

Lemma rule_score_reads_five_fields_witness :
  compute_rule_based_confidence confident_row None
  = compute_rule_based_confidence other_ledger_row None.
Proof.
  exact (proj2 (rule_score_reads_five_fields confident_row other_ledger_row
                  None eq_refl eq_refl eq_refl eq_refl) eq_refl).
Defined.

Lemma model_mean_mono r1 r2 :
  Forall2 (fun x y => value x <= value y) (model_confs r1) (model_confs r2) ->
  model_mean r1 <= model_mean r2.
Proof.
  unfold model_confs, model_mean. intros H.
  repeat match goal with
         | H : Forall2 _ (_ :: _) (_ :: _) |- _ =>
             apply Forall2_cons_1 in H as [? H]
         end.
  apply Qle_shift_div_l; [lra |].
  unfold Qdiv.
  rewrite <- Qmult_assoc, (Qmult_comm (/ 6)), Qmult_inv_r, Qmult_1_r
    by discriminate.
  lra.
Qed.

Lemma leb_value x y :
  ordinary x -> ordinary y -> Float.leb x y = true -> value x <= value y.
Proof.
  destruct x, y; cbn; try tauto. intros _ _ H. now apply Qle_bool_iff.
Qed.

(** The row confidence never falls when a model confidence rises: of two
    rows with the same rule score whose model confidences are finite
    numbers of ordinary magnitude, the one whose six confidences are at
    least those of the other has at least its row confidence, whatever the
    weight. *)
Theorem row_confidence_monotone r1 r2 w tmp c1 c2 :
  compute_rule_based_confidence r1 tmp
  = compute_rule_based_confidence r2 tmp ->
  Forall ordinary (model_confs r1) ->
  Forall ordinary (model_confs r2) ->
  Forall2 (fun x y => Float.leb x y = true)
          (model_confs r1) (model_confs r2) ->
  compute_row_confidence r1 w tmp = Ok c1 ->
  compute_row_confidence r2 w tmp = Ok c2 ->
  Float.leb c1 c2 = true.
Proof.
  intros Hrule Ho1 Ho2 Hconfs E1 E2.
  destruct (compute_rule_based_confidence r1 tmp) as [rule | e] eqn:R1.
  2:{ unfold compute_row_confidence in E1. rewrite R1 in E1. discriminate. }
  symmetry in Hrule.
  destruct (row_confidence_ordinary r1 w tmp rule R1 Ho1)
    as (q & c & Eq & Hq & Ec & Hc).
  destruct (row_confidence_ordinary r2 w tmp rule Hrule Ho2)
    as (q' & c' & Eq' & _ & Ec' & Hc').
  rewrite Eq in Eq'. injection Eq' as <-.
  rewrite E1 in Ec. rewrite E2 in Ec'.
  injection Ec as ->. injection Ec' as ->.
  cbn [Float.leb]. apply Qle_bool_iff.
  rewrite Hc, Hc'. apply clamp_unit_mono.
  assert (Hm : model_mean r1 <= model_mean r2).
  { apply model_mean_mono.
    unfold model_confs in *.
    repeat match goal with
           | H : Forall _ (_ :: _) |- _ => apply Forall_cons_1 in H as [? H]
           | H : Forall2 _ (_ :: _) (_ :: _) |- _ =>
               apply Forall2_cons_1 in H as [? H]
           end.
    repeat constructor; now apply leb_value. }
  nra.
Qed.

Lemma row_confidence_monotone_witness :
  exists c1 c2,
    compute_row_confidence confident_row (Finite 0.4) None = Ok c1
    /\ compute_row_confidence other_ledger_row (Finite 0.4) None = Ok c2
    /\ Float.leb c1 c2 = true.
Proof.
  assert (Hu : forall row,
             Forall unit_float (model_confs row) ->
             Forall ordinary (model_confs row))
    by exact in_unit_ordinary.
  do 2 eexists. split; [reflexivity |]. split; [reflexivity |].
  apply (row_confidence_monotone confident_row other_ledger_row
           (Finite 0.4) None).
  - reflexivity.
  - apply Hu. repeat constructor; cbn; unfold in_unit; lra.
  - apply Hu. repeat constructor; cbn; unfold in_unit; lra.
  - repeat constructor.
  - reflexivity.
  - reflexivity.
Defined.

(** A model confidence that is NaN makes the row confidence NaN, whatever
    the weight and the rule score: the mean is NaN, so is the blend, and
    neither comparison of the closing clamp holds of NaN. The result is
    then no number of [[0, 1]]. *)
Theorem nan_confidence_gives_nan row w tmp rule :
  compute_rule_based_confidence row tmp = Ok rule ->
  Exists (fun x => x = NaN) (model_confs row) ->
  compute_row_confidence row w tmp = Ok NaN
  /\ ~ unit_float NaN.
Proof.
  intros E Hnan. split; [| exact (fun H => H)].
  rewrite (row_confidence_unfold _ _ _ _ E).
  destruct (weight_in_unit w) as (q & -> & _).
  assert (Hsum : py_sum (model_confs row) = NaN).
  { unfold py_sum. generalize (Finite 0).
    induction Hnan as [x xs -> | x xs _ IH]; intros acc; cbn [fold_left].
    - replace (Float.add acc NaN) with NaN by now destruct acc.
      clear. induction xs as [| y ys IH]; [reflexivity | exact IH].
    - apply IH. }
  unfold float_mean. rewrite Hsum. unfold blend. cbn [Float.quotient].
  replace (Float.mul (Float.sub (Finite 1) (Finite q)) NaN) with NaN
    by now destruct (Float.sub (Finite 1) (Finite q)).
  now destruct (Float.mul (Finite q) (Finite rule)).
Qed.

Lemma nan_confidence_gives_nan_witness :
  exists row w',
    extract_page (one_row (JFloat NaN)) no_numeral_text list_page ""
                 fresh_world
    = (Ok [row], w')
    /\ compute_row_confidence row (Finite 0.4) None = Ok NaN
    /\ row_confidence row = NaN.
Proof.
  do 2 eexists. split; [vm_compute; reflexivity |].
  split; [| vm_compute; reflexivity].
  refine (proj1 (nan_confidence_gives_nan _ (Finite 0.4) None 1 _ _)).
  - vm_compute. reflexivity.
  - constructor. reflexivity.
Defined.

(** The check of the pounds against a typical maximum can only lower the
    rule score, by 0.2 at most, and leaves it as it is when the pounds are
    absent or within three times the maximum. *)
Theorem typical_maximum_only_lowers row typical s0 s1 :
  compute_rule_based_confidence row None = Ok s0 ->
  compute_rule_based_confidence row (Some typical) = Ok s1 ->
  s1 <= s0
  /\ s0 - 0.2 <= s1
  /\ (exceeds (pounds row) (typical * 3) = false -> s1 == s0).
Proof.
  intros E0 E1.
  destruct (rule_based_ok row None (rule_based_comparable _ _ _ E0))
    as (s & E & H0). rewrite E0 in E. injection E as <-.
  destruct (rule_based_ok row (Some typical) (rule_based_comparable _ _ _ E1))
    as (s & E & H1). rewrite E1 in E. injection E as <-.
  rewrite H0, H1. unfold rule_score_of, other_penalties.
  destruct (exceeds (pounds row) (typical * 3)); cbn [penalty].
  - split; [| split; [| discriminate]]; unfold clamp_unit;
      repeat match goal with
             | |- context [Qlt_le_dec ?a ?b] => destruct (Qlt_le_dec a b)
             end; lra.
  - split; [| split; [| reflexivity]]; unfold clamp_unit;
      repeat match goal with
             | |- context [Qlt_le_dec ?a ?b] => destruct (Qlt_le_dec a b)
             end; lra.
Qed.

Lemma typical_maximum_only_lowers_witness :
  exists s0 s1,
    compute_rule_based_confidence other_ledger_row None = Ok s0
    /\ compute_rule_based_confidence other_ledger_row (Some 100%Z) = Ok s1
    /\ s1 <= s0 /\ s0 - 0.2 <= s1.
Proof.
  do 2 eexists. split; [reflexivity |]. split; [reflexivity |].
  destruct (typical_maximum_only_lowers other_ledger_row 100 _ _
              eq_refl eq_refl) as (H1 & H2 & _).
  split; [exact H1 | exact H2].
Defined.

(** ** More on decoding *)

Lemma enumerate_from_lookup {A} i (xs : list A) k x :
  xs !! k = Some x ->
  Py.enumerate_from i xs !! k = Some ((i + Z.of_nat k)%Z, x).
Proof.
  revert i k. induction xs as [| y xs IH]; intros i [| k]; cbn;
    try discriminate.
  - intros H. injection H as ->. now rewrite Z.add_0_r.
  - intros H. rewrite (IH _ _ H). do 2 f_equal. lia.
Qed.

Section Positions.

Context (B : Builtins).

Lemma parse_row_fraction meta i fields row :
  parse_row B meta i (JDict fields) = Ok row ->
  pence_fraction row = Py.get fields "pence_fraction" JNull.
Proof.
  unfold parse_row. cbn [Py.as_dict mbind result_bind]. intros H.
  do 8 bind_ok H. now injection H as <-.
Qed.

(** The decoded rows come in the order of the reply's array. A row that
    gives no row id gets its position in the array, counted from 0. A
    monetary field the row leaves out is absent in the result, not zero, and
    one it gives is handed on as it is, whatever its type. *)
Theorem decoded_rows_keep_position meta fields items rows :
  parse_rows B meta (JDict fields) = Ok rows ->
  Py.get fields "rows" (JList []) = JList items ->
  List.length rows = List.length items
  /\ forall k row,
      rows !! k = Some row ->
      exists f,
        items !! k = Some (JDict f)
        /\ (Py.find f "row_id" = None -> row_id row = Z.of_nat k)
        /\ pounds row = Py.get f "pounds" JNull
        /\ shillings row = Py.get f "shillings" JNull
        /\ pence row = Py.get f "pence" JNull
        /\ pence_fraction row = Py.get f "pence_fraction" JNull.
Proof.
  intros H Hitems.
  apply parse_rows_inv in H as (fields' & items' & Hf & Hit & Hall).
  injection Hf as <-. rewrite Hitems in Hit. cbn in Hit. injection Hit as <-.
  pose proof (Forall2_length _ _ _ Hall) as Hlen.
  unfold Py.enumerate in Hlen. rewrite enumerate_from_length in Hlen.
  change (@base.length) with (@List.length) in Hlen.
  split; [now symmetry |].
  intros k row Hk.
  destruct (items !! k) as [r |] eqn:Hr.
  2:{ apply lookup_ge_None in Hr. apply lookup_lt_Some in Hk.
      change (@base.length) with (@List.length) in Hr, Hk. lia. }
  pose proof (enumerate_from_lookup 0 items k r Hr) as He.
  pose proof (Forall2_lookup_lr _ _ _ _ _ _ Hall He Hk) as Hrow.
  cbn [fst snd] in Hrow.
  pose proof Hrow as Hinv.
  apply parse_row_inv in Hinv as (f & -> & _ & _ & Hid & _ & Hl & Hs & Hd).
  exists f. split; [reflexivity |]. split.
  - intros Hnone. rewrite (get_missing _ _ _ Hnone) in Hid. cbn in Hid.
    injection Hid as <-. lia.
  - repeat split; try assumption. eapply parse_row_fraction, Hrow.
Qed.

End Positions.

Lemma decoded_rows_keep_position_witness :
  exists first second,
    parse_rows no_numeral_text list_page (JDict two_row_reply)
    = Ok [first; second]
    /\ row_id first = 0%Z /\ pounds first = JNull
    /\ row_id second = 40%Z /\ pounds second = JStr "xij".
Proof.
  do 2 eexists. split; [reflexivity |].
  destruct (decoded_rows_keep_position no_numeral_text list_page two_row_reply
              _ _ eq_refl eq_refl) as [_ H].
  destruct (H 0%nat _ eq_refl) as (f0 & E0 & Hid0 & Hl0 & _).
  destruct (H 1%nat _ eq_refl) as (f1 & E1 & _ & Hl1 & _).
  injection E0 as <-. injection E1 as <-.
  split; [exact (Hid0 eq_refl) |]. split; [exact Hl0 |].
  split; [reflexivity | exact Hl1].
Defined.

(** ** More on the document pipeline *)

Section Calls.

Context {S : Type} (svc : Services S) (B : Builtins).

Lemma classify_page_cache doc page text w :
  cache (snd (classify_page svc B doc page text w)) = cache w.
Proof.
  rewrite classify_page_unfold, with_llm_meta_unfold.
  now destruct (classifier svc doc page text (outside w)) as [reply s1].
Qed.

Lemma extract_page_cache meta text w :
  cache (snd (extract_page svc B meta text w)) = cache w.
Proof.
  rewrite extract_page_unfold, with_llm_rows_unfold.
  now destruct (extractor svc meta text (outside w)) as [reply s1].
Qed.

Lemma classify_page_returns doc page text w :
  exists meta w1, classify_page svc B doc page text w = (Ok meta, w1).
Proof.
  rewrite classify_page_unfold.
  destruct (classify_page_with_llm svc B doc page text w) as [r w1]. eauto.
Qed.

(** What one page comes to, step by step. *)
Lemma process_single_page_run doc page text w :
  exists meta w1,
    classify_page svc B doc page text w = (Ok meta, w1)
    /\ process_single_page svc B doc page text w
       = (match fst (extract_page svc B meta text w1) with
          | Ok rows => Ok (meta, rows)
          | Raise e => Raise e
          end, snd (extract_page svc B meta text w1))
    /\ log (snd (process_single_page svc B doc page text w))
       = (log w ++ [ClassifyCall doc page;
                    ExtractCall (meta_doc_id meta) (meta_page_id meta)])%list
    /\ cache (snd (process_single_page svc B doc page text w)) = cache w.
Proof.
  destruct (classify_page_returns doc page text w) as (meta & w1 & Ec).
  exists meta, w1. split; [exact Ec |].
  assert (Hrun : process_single_page svc B doc page text w
                 = (match fst (extract_page svc B meta text w1) with
                    | Ok rows => Ok (meta, rows)
                    | Raise e => Raise e
                    end, snd (extract_page svc B meta text w1))).
  { unfold process_single_page. rewrite M_bind_run, Ec, M_bind_run.
    now destruct (extract_page svc B meta text w1) as [[rows | e] w2]. }
  split; [exact Hrun |]. rewrite Hrun. cbn [snd].
  pose proof (classify_page_log svc B doc page text w _ _ Ec) as Hl1.
  pose proof (classify_page_cache doc page text w) as Hc1.
  rewrite Ec in Hc1. cbn [snd] in Hc1.
  pose proof (extract_page_cache meta text w1) as Hc2.
  destruct (extract_page svc B meta text w1) as [r w2] eqn:Ee.
  apply extract_page_log in Ee. cbn [snd] in *.
  split; [| congruence].
  rewrite Ee, Hl1, <- app_assoc. reflexivity.
Qed.

(** One page costs one classification call and then one extraction call,
    never a second try of either, and the extraction is given the metadata
    the classification returned together with the same page text; no
    transcription is asked for and the cache is left alone. *)
Theorem process_single_page_two_calls doc page text w :
  exists meta w1,
    classify_page svc B doc page text w = (Ok meta, w1)
    /\ fst (process_single_page svc B doc page text w)
       = (rows ← fst (extract_page svc B meta text w1); Ok (meta, rows))
    /\ log (snd (process_single_page svc B doc page text w))
       = (log w ++ [ClassifyCall doc page;
                    ExtractCall (meta_doc_id meta) (meta_page_id meta)])%list
    /\ ocr_calls (log (snd (process_single_page svc B doc page text w)))
       = ocr_calls (log w)
    /\ cache (snd (process_single_page svc B doc page text w)) = cache w.
Proof.
  destruct (process_single_page_run doc page text w)
    as (meta & w1 & Ec & Hrun & Hlog & Hcache).
  exists meta, w1. split; [exact Ec |]. split.
  - rewrite Hrun. cbn [fst].
    now destruct (fst (extract_page svc B meta text w1)).
  - split; [exact Hlog |]. split; [| exact Hcache].
    rewrite Hlog. unfold ocr_calls. rewrite omap_app. cbn.
    now rewrite app_nil_r.
Qed.

Lemma process_single_page_frame doc page text w :
  cache (snd (process_single_page svc B doc page text w)) = cache w
  /\ ocr_calls (log (snd (process_single_page svc B doc page text w)))
     = ocr_calls (log w)
  /\ List.length (log (snd (process_single_page svc B doc page text w)))
     = (List.length (log w) + 2)%nat.
Proof.
  destruct (process_single_page_run doc page text w)
    as (meta & w1 & _ & _ & Hlog & Hcache).
  split; [exact Hcache |]. rewrite Hlog. split.
  - unfold ocr_calls. rewrite omap_app. cbn. now rewrite app_nil_r.
  - now rewrite length_app.
Qed.

(** What [pages_in_turn] leaves alone, whether it returns or raises. *)
Lemma pages_in_turn_frame doc items w :
  cache (snd (pages_in_turn svc B doc items w)) = cache w
  /\ ocr_calls (log (snd (pages_in_turn svc B doc items w)))
     = ocr_calls (log w).
Proof.
  revert w. induction items as [| [k v] items IH]; intros w; [now cbn |].
  cbn [pages_in_turn]. rewrite M_bind_run.
  destruct (process_single_page_frame doc k v w) as (Hc & Ho & _).
  destruct (process_single_page svc B doc k v w) as [[first | e] w1];
    cbn [snd] in Hc, Ho; [| now cbn].
  rewrite M_bind_run. destruct (IH w1) as [Hc' Ho'].
  destruct (pages_in_turn svc B doc items w1) as [[others | e] w2];
    unfold mret, M_ret; cbn [snd] in *; split; congruence.
Qed.

Lemma pages_in_turn_count doc items w metas rows w' :
  pages_in_turn svc B doc items w = (Ok (metas, rows), w') ->
  List.length metas = List.length items
  /\ List.length (log w')
     = (List.length (log w) + 2 * List.length items)%nat.
Proof.
  revert w metas rows w'.
  induction items as [| [k v] items IH]; intros w metas rows w'.
  - cbn. intros H. injection H as <- _ <-. split; [reflexivity | lia].
  - cbn [pages_in_turn]. rewrite M_bind_run.
    destruct (process_single_page_frame doc k v w) as (_ & _ & Hn).
    destruct (process_single_page svc B doc k v w) as [[first | e] w1];
      [| discriminate].
    cbn [snd] in Hn. rewrite M_bind_run.
    destruct (pages_in_turn svc B doc items w1) as [[[ms rs] | e] w2] eqn:E;
      [| discriminate].
    apply IH in E as [Hm Hl]. intros H. injection H as <- _ <-.
    cbn [fst List.length]. split; [now rewrite Hm | lia].
Qed.

(** A document of [n] pages that is processed to the end yields [n]
    metadata entries, one per page, at the price of [2 n] service calls; and
    whether [process_document] returns or raises, it asks for no
    transcription and leaves the cache as it found it. *)
Theorem process_document_one_entry_per_page doc pages w :
  NoDup (Dict.keys pages) ->
  cache (snd (process_document svc B doc pages w)) = cache w
  /\ ocr_calls (log (snd (process_document svc B doc pages w)))
     = ocr_calls (log w)
  /\ forall metas rows w',
      process_document svc B doc pages w = (Ok (metas, rows), w') ->
      List.length metas = List.length pages
      /\ List.length (log w')
         = (List.length (log w) + 2 * List.length pages)%nat.
Proof.
  intros Hnd. rewrite process_document_in_turn by exact Hnd.
  destruct (pages_in_turn_frame doc (Dict.sorted_items pages) w) as [Hc Ho].
  split; [exact Hc |]. split; [exact Ho |].
  intros metas rows w' H. apply pages_in_turn_count in H.
  assert (Hlen : List.length (Dict.sorted_items pages) = List.length pages).
  { apply Permutation_length, sorted_items_perm. }
  now rewrite Hlen in H.
Qed.

End Calls.

Lemma process_document_one_entry_per_page_witness :
  NoDup (Dict.keys [(2%Z, "B"); (1%Z, "A")])
  /\ exists metas rows w',
      process_document offline no_numeral_text "1704"
        [(2%Z, "B"); (1%Z, "A")] fresh_world = (Ok (metas, rows), w')
      /\ List.length metas = 2%nat
      /\ List.length (log w') = 4%nat.
Proof.
  assert (Hnd : NoDup (Dict.keys [(2%Z, "B"); (1%Z, "A")])).
  { refine (bool_decide_unpack _ _). vm_compute. exact I. }
  split; [exact Hnd |].
  do 3 eexists. split; [vm_compute; reflexivity |].
  eapply (proj2 (proj2 (process_document_one_entry_per_page offline
                         no_numeral_text "1704" [(2%Z, "B"); (1%Z, "A")]
                         fresh_world Hnd))).
  vm_compute. reflexivity.
Defined.

(** ** More on transcription *)

Lemma setitem_fresh_keys {V} (d : list (Z * V)) k v :
  k ∉ Dict.keys d ->
  Dict.keys (Dict.setitem d k v) = (Dict.keys d ++ [k])%list.
Proof.
  unfold Dict.keys. induction d as [| [k' v'] d IH]; cbn; [reflexivity |].
  intros Hk. apply not_elem_of_cons in Hk as [Hne Hk].
  destruct (Z.eqb_spec k' k) as [-> | _]; [contradiction |].
  cbn. now rewrite IH.
Qed.

Lemma ocr_calls_app l1 l2 :
  ocr_calls (l1 ++ l2)%list = (ocr_calls l1 ++ ocr_calls l2)%list.
Proof. apply omap_app. Qed.

Section Runs.

Context {S : Type} (svc : Services S).

Lemma cached_page_text_cache doc page path w :
  (forall k t,
      cache w !! k = Some t ->
      cache (snd (cached_page_text svc doc page path w)) !! k = Some t)
  /\ (forall k,
         k <> (doc, page) ->
         cache (snd (cached_page_text svc doc page path w)) !! k
         = cache w !! k).
Proof.
  destruct (cache w !! (doc, page)) as [t |] eqn:Hc.
  - rewrite (cached_page_text_hit _ _ _ _ _ _ Hc). auto.
  - rewrite (cached_page_text_miss _ _ _ _ _ Hc).
    destruct (transcriber svc path (outside w)) as [[| | content] s1];
      cbn [snd cache]; auto.
    split.
    + intros k t Hk. rewrite lookup_insert_ne; [exact Hk | congruence].
    + intros k Hk. now rewrite lookup_insert_ne.
Qed.

Lemma ocr_pages_cache doc items acc w :
  (forall k t,
      cache w !! k = Some t ->
      cache (snd (ocr_pages svc doc items acc w)) !! k = Some t)
  /\ (forall k,
         fst k <> doc ->
         cache (snd (ocr_pages svc doc items acc w)) !! k = cache w !! k).
Proof.
  revert acc w. induction items as [| [page path] items IH]; intros acc w;
    [now cbn |].
  cbn [ocr_pages]. rewrite M_bind_run.
  destruct (cached_page_text_cache doc page path w) as [Hkeep Hother].
  destruct (cached_page_text svc doc page path w) as [[text | e] w1];
    cbn [snd] in Hkeep, Hother.
  - destruct (IH (Dict.setitem acc page text) w1) as [Hkeep' Hother'].
    split.
    + intros k t Hk. auto.
    + intros k Hk. rewrite Hother' by exact Hk. apply Hother.
      intros ->. now apply Hk.
  - cbn [snd]. split; [exact Hkeep |].
    intros k Hk. apply Hother. intros ->. now apply Hk.
Qed.

Lemma ocr_run_cache doc w :
  (forall k t,
      cache w !! k = Some t ->
      cache (snd (ocr_pdf_to_pages_cached svc doc w)) !! k = Some t)
  /\ (forall k,
         fst k <> doc ->
         cache (snd (ocr_pdf_to_pages_cached svc doc w)) !! k = cache w !! k).
Proof.
  rewrite ocr_unfold.
  destruct (renderer svc doc (outside w)) as [[images | e] s1];
    [| now cbn].
  apply (ocr_pages_cache doc (Dict.sorted_items images) []
           {| outside := s1; cache := cache w; log := log w |}).
Qed.

(** The cache is written once per page: whether the cached transcription of
    a document returns or raises, an entry that was there is there
    unchanged, and no entry of another document is touched. *)
Theorem cache_entries_are_kept doc w k :
  (forall t,
      cache w !! k = Some t ->
      cache (snd (ocr_pdf_to_pages_cached svc doc w)) !! k = Some t)
  /\ (fst k <> doc ->
      cache (snd (ocr_pdf_to_pages_cached svc doc w)) !! k = cache w !! k).
Proof.
  destruct (ocr_run_cache doc w) as [Hkeep Hother].
  split; [intros t; apply Hkeep | apply Hother].
Qed.

Lemma ocr_pages_calls doc items acc w pages w' :
  NoDup (Dict.keys items) ->
  ocr_pages svc doc items acc w = (Ok pages, w') ->
  ocr_calls (log w')
  = (ocr_calls (log w) ++ map snd (uncached doc (cache w) items))%list.
Proof.
  revert acc w. induction items as [| [page path] items IH]; intros acc w Hnd.
  - cbn. intros H. injection H as _ <-. now rewrite app_nil_r.
  - apply NoDup_cons in Hnd as [Hpage Hnd].
    cbn [ocr_pages]. rewrite M_bind_run.
    unfold uncached. cbn [List.filter fst]. fold (uncached doc (cache w) items).
    destruct (cache w !! (doc, page)) as [t |] eqn:Hc.
    + rewrite (cached_page_text_hit _ _ _ _ _ _ Hc).
      rewrite bool_decide_eq_true_2 by eauto. cbn [negb].
      now apply IH.
    + rewrite (cached_page_text_miss _ _ _ _ _ Hc).
      rewrite bool_decide_eq_false_2 by (intros [? ?]; discriminate).
      cbn [negb map snd].
      destruct (transcriber svc path (outside w)) as [[| | content] s1];
        try discriminate.
      intros H. apply IH in H; [| exact Hnd]. rewrite H. cbn [log cache].
      rewrite uncached_insert by exact Hpage.
      rewrite ocr_calls_app. cbn. now rewrite <- app_assoc.
Qed.

Lemma ocr_pages_keys doc items acc w pages w' :
  NoDup (Dict.keys acc ++ Dict.keys items) ->
  ocr_pages svc doc items acc w = (Ok pages, w') ->
  Dict.keys pages = (Dict.keys acc ++ Dict.keys items)%list.
Proof.
  revert acc w. induction items as [| [page path] items IH]; intros acc w Hnd.
  - cbn. intros H. injection H as <- _. now rewrite app_nil_r.
  - cbn [ocr_pages]. rewrite M_bind_run.
    destruct (cached_page_text svc doc page path w) as [[text | e] w1];
      [| discriminate].
    assert (Hfresh : page ∉ Dict.keys acc).
    { apply NoDup_app in Hnd as (_ & Hdisj & _). intros Hin.
      apply (Hdisj _ Hin). now left. }
    intros H. apply IH in H.
    + rewrite H, setitem_fresh_keys by exact Hfresh.
      now rewrite <- app_assoc.
    + rewrite setitem_fresh_keys by exact Hfresh.
      now rewrite <- app_assoc.
Qed.

(** A cached transcription that returns has called the service for the
    pages that had no cache entry, in ascending order of the page ids, and
    for no other page; what it returns has one entry per rendered page, the
    page ids ascending. *)
Theorem transcription_calls_only_for_missing doc w images s1 pages w' :
  renderer svc doc (outside w) = (Ok images, s1) ->
  NoDup (Dict.keys images) ->
  ocr_pdf_to_pages_cached svc doc w = (Ok pages, w') ->
  ocr_calls (log w')
  = (ocr_calls (log w)
     ++ map snd (uncached doc (cache w) (Dict.sorted_items images)))%list
  /\ Dict.keys pages = Dict.sorted_keys images
  /\ StronglySorted Z.lt (Dict.keys pages).
Proof.
  intros Hr Hnd. rewrite ocr_unfold, Hr. intros H.
  assert (Hk : NoDup (Dict.keys (Dict.sorted_items images))).
  { now rewrite (keys_perm _ _ (sorted_items_perm images)). }
  split; [| split].
  - apply ocr_pages_calls in H; [exact H | exact Hk].
  - apply ocr_pages_keys in H; [| exact Hk].
    rewrite H. cbn. now apply sorted_items_keys.
  - apply ocr_pages_keys in H; [| exact Hk].
    rewrite H. cbn. rewrite sorted_items_keys by exact Hnd.
    now apply sorted_keys_ascending.
Qed.

(** *** The loop without a cache *)

Lemma ocr_pages_plain_cache items acc w :
  cache (snd (ocr_pages_plain svc items acc w)) = cache w.
Proof.
  revert acc w. induction items as [| [page path] items IH]; intros acc w;
    [reflexivity |].
  cbn [ocr_pages_plain]. rewrite M_bind_run, ocr_page_unfold.
  destruct (transcriber svc path (outside w)) as [[| | content] s1];
    try reflexivity.
  now rewrite IH.
Qed.

Lemma ocr_pages_plain_calls items acc w pages w' :
  NoDup (Dict.keys acc ++ Dict.keys items) ->
  ocr_pages_plain svc items acc w = (Ok pages, w') ->
  log w' = (log w ++ map (fun item => OcrCall (snd item)) items)%list
  /\ Dict.keys pages = (Dict.keys acc ++ Dict.keys items)%list.
Proof.
  revert acc w. induction items as [| [page path] items IH]; intros acc w Hnd.
  - cbn. intros H. injection H as <- <-. now rewrite !app_nil_r.
  - cbn [ocr_pages_plain]. rewrite M_bind_run, ocr_page_unfold.
    destruct (transcriber svc path (outside w)) as [[| | content] s1];
      try discriminate.
    assert (Hfresh : page ∉ Dict.keys acc).
    { apply NoDup_app in Hnd as (_ & Hdisj & _). intros Hin.
      apply (Hdisj _ Hin). now left. }
    intros H. apply IH in H as [Hlog Hkeys].
    + rewrite Hlog, Hkeys, setitem_fresh_keys by exact Hfresh.
      cbn [log map snd Dict.keys fst]. now rewrite <- !app_assoc.
    + rewrite setitem_fresh_keys by exact Hfresh.
      now rewrite <- app_assoc.
Qed.

Lemma ocr_plain_unfold doc w :
  ocr_pdf_to_pages svc doc w
  = let (images, s1) := renderer svc doc (outside w) in
    match images with
    | Ok page_images =>
        ocr_pages_plain svc (Dict.sorted_items page_images) []
          {| outside := s1; cache := cache w; log := log w |}
    | Raise e =>
        (Raise e, {| outside := s1; cache := cache w; log := log w |})
    end.
Proof.
  unfold ocr_pdf_to_pages, export_pdf_pages_as_images.
  rewrite !M_bind_run. unfold call, lift.
  destruct (renderer svc doc (outside w)) as [[images | e] s1]; reflexivity.
Qed.

(** [ocr_pdf_to_pages] neither reads nor writes the cache. When the pages
    cannot be rendered it raises before any call; when it returns it has
    called the service once for every rendered page, in ascending order of
    the page ids, and its result has one entry per page in that order. *)
Theorem plain_transcription_calls_every_page doc w :
  cache (snd (ocr_pdf_to_pages svc doc w)) = cache w
  /\ (forall e s1,
         renderer svc doc (outside w) = (Raise e, s1) ->
         ocr_pdf_to_pages svc doc w
         = (Raise e, {| outside := s1; cache := cache w; log := log w |}))
  /\ (forall images s1 pages w',
         renderer svc doc (outside w) = (Ok images, s1) ->
         NoDup (Dict.keys images) ->
         ocr_pdf_to_pages svc doc w = (Ok pages, w') ->
         log w'
         = (log w ++ map (fun item => OcrCall (snd item))
                         (Dict.sorted_items images))%list
         /\ Dict.keys pages = Dict.sorted_keys images).
Proof.
  split; [| split].
  - rewrite ocr_plain_unfold.
    destruct (renderer svc doc (outside w)) as [[images | e] s1];
      [| reflexivity].
    now rewrite ocr_pages_plain_cache.
  - intros e s1 Hr. now rewrite ocr_plain_unfold, Hr.
  - intros images s1 pages w' Hr Hnd. rewrite ocr_plain_unfold, Hr.
    intros H. apply ocr_pages_plain_calls in H as [Hlog Hkeys].
    + split; [exact Hlog |]. rewrite Hkeys. cbn.
      now apply sorted_items_keys.
    + cbn. now rewrite (keys_perm _ _ (sorted_items_perm images)).
Qed.

Lemma ocr_pages_agree doc items acc wc wp :
  outside wc = outside wp ->
  NoDup (Dict.keys items) ->
  Forall (fun item => cache wc !! (doc, fst item) = None) items ->
  fst (ocr_pages svc doc items acc wc) = fst (ocr_pages_plain svc items acc wp)
  /\ outside (snd (ocr_pages svc doc items acc wc))
     = outside (snd (ocr_pages_plain svc items acc wp))
  /\ exists calls,
      ocr_calls (log (snd (ocr_pages svc doc items acc wc)))
      = (ocr_calls (log wc) ++ calls)%list
      /\ ocr_calls (log (snd (ocr_pages_plain svc items acc wp)))
         = (ocr_calls (log wp) ++ calls)%list.
Proof.
  revert acc wc wp.
  induction items as [| [page path] items IH]; intros acc wc wp Hout Hnd Hall.
  - cbn. repeat split; [exact Hout |]. exists []. now rewrite !app_nil_r.
  - apply NoDup_cons in Hnd as [Hpage Hnd].
    apply Forall_cons_1 in Hall as [Hc Hall]. cbn [fst] in Hc.
    cbn [ocr_pages ocr_pages_plain]. rewrite !M_bind_run.
    rewrite (cached_page_text_miss _ _ _ _ _ Hc), ocr_page_unfold, Hout.
    destruct (transcriber svc path (outside wp)) as [[| | content] s1].
    + cbn [fst snd outside log]. repeat split. exists [path].
      rewrite !ocr_calls_app. split; reflexivity.
    + cbn [fst snd outside log]. repeat split. exists [path].
      rewrite !ocr_calls_app. split; reflexivity.
    + edestruct
        (IH (Dict.setitem acc page (Text.strip content))
            {| outside := s1;
               cache := <[(doc, page) := Text.strip content]> (cache wc);
               log := (log wc ++ [OcrCall path; CacheWrite doc page])%list |}
            {| outside := s1; cache := cache wp;
               log := (log wp ++ [OcrCall path])%list |})
        as (Hres & Hout' & calls & Hc1 & Hc2).
      * reflexivity.
      * exact Hnd.
      * cbn [cache]. apply Forall_forall. intros [p' path'] Hin. cbn [fst].
        rewrite lookup_insert_ne.
        -- rewrite Forall_forall in Hall. apply (Hall _ Hin).
        -- intros E. injection E as ->. apply Hpage.
           apply (list_elem_of_fmap_2 fst _ (p', path')), Hin.
      * split; [exact Hres |]. split; [exact Hout' |].
        exists (path :: calls). rewrite Hc1, Hc2. cbn [log].
        rewrite !ocr_calls_app. cbn. now rewrite <- !app_assoc.
Qed.

(** On a document none of whose pages has a cache entry, the cached
    transcription does what the plain one does: the same result or the same
    exception, the same calls in the same order, the same state of the
    services. *)
Theorem first_cached_run_is_plain_run doc w :
  (forall page, cache w !! (doc, page) = None) ->
  (forall images s1,
      renderer svc doc (outside w) = (Ok images, s1) ->
      NoDup (Dict.keys images)) ->
  fst (ocr_pdf_to_pages_cached svc doc w) = fst (ocr_pdf_to_pages svc doc w)
  /\ outside (snd (ocr_pdf_to_pages_cached svc doc w))
     = outside (snd (ocr_pdf_to_pages svc doc w))
  /\ ocr_calls (log (snd (ocr_pdf_to_pages_cached svc doc w)))
     = ocr_calls (log (snd (ocr_pdf_to_pages svc doc w))).
Proof.
  intros Hnone Hdict. rewrite ocr_unfold, ocr_plain_unfold.
  destruct (renderer svc doc (outside w)) as [[images | e] s1] eqn:Hr;
    [| now cbn].
  specialize (Hdict images s1 eq_refl).
  destruct (ocr_pages_agree doc (Dict.sorted_items images) []
              {| outside := s1; cache := cache w; log := log w |}
              {| outside := s1; cache := cache w; log := log w |})
    as (Hres & Hout & calls & Hc1 & Hc2).
  - reflexivity.
  - now rewrite (keys_perm _ _ (sorted_items_perm images)).
  - apply Forall_forall. intros item _. apply Hnone.
  - split; [exact Hres |]. split; [exact Hout |]. now rewrite Hc1, Hc2.
Qed.

End Runs.

Lemma cache_entries_are_kept_witness :
  cache after_first_run !! ("1704", 1%Z) = Some "Rent   2 10 0"
  /\ cache (snd (ocr_pdf_to_pages_cached two_scans "1704" after_first_run))
       !! ("1704", 1%Z) = Some "Rent   2 10 0".
Proof.
  assert (H : cache after_first_run !! ("1704", 1%Z) = Some "Rent   2 10 0")
    by (vm_compute; reflexivity).
  split; [exact H |].
  exact (proj1 (cache_entries_are_kept two_scans "1704" after_first_run
                  ("1704", 1%Z)) _ H).
Defined.

(** ** Paths *)

Lemma app_String c s t : String c s ++ t = String c (s ++ t).
Proof. reflexivity. Qed.

Lemma app_empty_l s : "" ++ s = s.
Proof. reflexivity. Qed.

Lemma app_empty_r s : s ++ "" = s.
Proof.
  induction s as [| c s IH]; [reflexivity |]. now rewrite app_String, IH.
Qed.

Lemma app_assoc_str s t u : (s ++ t) ++ u = s ++ t ++ u.
Proof.
  induction s as [| c s IH]; [reflexivity |]. now rewrite !app_String, IH.
Qed.

Lemma length_app_str s t :
  String.length (s ++ t) = (String.length s + String.length t)%nat.
Proof.
  induction s as [| c s IH]; [reflexivity |].
  rewrite app_String. cbn. now rewrite IH.
Qed.

(** Equal strings with equal ends have equal beginnings. *)
Lemma app_inv_tail_str s1 s2 t : s1 ++ t = s2 ++ t -> s1 = s2.
Proof.
  revert s2. induction s1 as [| c s1 IH]; intros [| c' s2] H.
  - reflexivity.
  - apply (f_equal String.length) in H.
    rewrite app_empty_l, length_app_str in H. cbn [String.length] in H. lia.
  - apply (f_equal String.length) in H.
    rewrite app_empty_l, length_app_str in H. cbn [String.length] in H. lia.
  - rewrite !app_String in H. injection H as -> H. f_equal. now apply IH.
Qed.

Lemma lacks_app c s t : lacks c (s ++ t) = lacks c s && lacks c t.
Proof.
  induction s as [| a s IH]; [reflexivity |].
  rewrite app_String. cbn. now rewrite IH, andb_assoc.
Qed.

Lemma ends_with_sep_app s t :
  t <> "" -> Path.ends_with_sep (s ++ t) = Path.ends_with_sep t.
Proof.
  intros Ht. induction s as [| c s IH]; [reflexivity |].
  rewrite app_String. cbn [Path.ends_with_sep].
  destruct (s ++ t) eqn:E; [| exact IH].
  destruct s; [| discriminate E]. now rewrite app_empty_l in E.
Qed.

Lemma ends_with_sep_lacks s :
  lacks "/" s = true -> Path.ends_with_sep s = false.
Proof.
  induction s as [| c s IH]; [reflexivity |]. cbn [lacks Path.ends_with_sep].
  intros H. apply andb_prop in H as [Hc Hs].
  destruct s; [now apply negb_true_iff in Hc | now apply IH].
Qed.

Lemma prefix_sep_lacks s : lacks "/" s = true -> String.prefix "/" s = false.
Proof.
  destruct s as [| c s]; [reflexivity |]. cbn [lacks]. intros H.
  apply andb_prop in H as [Hc _]. apply negb_true_iff, Ascii.eqb_neq in Hc.
  destruct (String.prefix "/" (String c s)) eqn:E; [| reflexivity].
  apply prefix_iff in E as [rest E]. rewrite app_String in E.
  injection E as -> _. contradiction.
Qed.

(** A relative component is appended behind one separator. *)
Lemma join2_with_sep path b :
  String.prefix "/" b = false -> Path.join2 path b = with_sep path ++ b.
Proof.
  intros Hb. unfold Path.join2, with_sep. rewrite Hb.
  destruct (String.eqb path "" || Path.ends_with_sep path);
    [reflexivity | now rewrite app_assoc_str].
Qed.

Lemma with_sep_name s t :
  t <> "" -> lacks "/" t = true -> with_sep (s ++ t) = s ++ t ++ "/".
Proof.
  intros Ht Hl. unfold with_sep.
  rewrite (ends_with_sep_app s t Ht), (ends_with_sep_lacks t Hl), orb_false_r.
  destruct (String.eqb_spec (s ++ t) "") as [E | _];
    [| now rewrite app_assoc_str].
  destruct s; [now rewrite app_empty_l in E | discriminate E].
Qed.

Lemma with_sep_idem s : with_sep (s ++ "/") = s ++ "/".
Proof.
  unfold with_sep. rewrite (ends_with_sep_app s "/") by discriminate.
  cbn. now rewrite orb_true_r.
Qed.










(** Two strings that agree up to their first separator. *)
Lemma first_sep_split a b r r' :
  lacks "/" a = true -> lacks "/" b = true ->
  a ++ String "/" r = b ++ String "/" r' -> a = b /\ r = r'.
Proof.
  revert b. induction a as [| x a IH]; intros [| y b] Ha Hb H.
  - rewrite !app_empty_l in H. injection H as ->. auto.
  - rewrite app_empty_l, app_String in H. injection H as <- _.
    discriminate Hb.
  - rewrite app_empty_l, app_String in H. injection H as -> _.
    discriminate Ha.
  - rewrite !app_String in H. injection H as -> H.
    cbn [lacks] in Ha, Hb.
    apply andb_prop in Ha as [_ Ha]. apply andb_prop in Hb as [_ Hb].
    destruct (IH b Ha Hb H) as [-> ->]. auto.
Qed.

(** The cache file of a page: the interim directory, the document id as a
    directory of its own unless it is empty, and the file of the page. *)
Lemma cache_path_shape root doc page :
  no_sep doc = true ->
  cache_path root doc page
  = (with_sep (with_sep root ++ "data") ++ "interim/")
    ++ (if String.eqb doc "" then "" else doc ++ "/")
    ++ "ocr_text/page_" ++ pretty page ++ ".txt".
Proof.
  intros Hd. unfold cache_path, ocr_cache_dir, Path.join. cbn [fold_left].
  rewrite (join2_with_sep root "data") by reflexivity.
  rewrite (join2_with_sep _ "interim") by reflexivity.
  rewrite (join2_with_sep _ doc) by now apply prefix_sep_lacks.
  rewrite (join2_with_sep _ "ocr_text") by reflexivity.
  rewrite (join2_with_sep _ ("page_" ++ _)) by reflexivity.
  rewrite (with_sep_name _ "interim") by (discriminate || reflexivity).
  rewrite (with_sep_name _ "ocr_text") by (discriminate || reflexivity).
  destruct (String.eqb_spec doc "") as [-> | Hne].
  - rewrite app_empty_r.
    rewrite <- (app_assoc_str _ "interim" "/"), with_sep_idem.
    now rewrite !app_assoc_str.
  - rewrite <- (app_assoc_str _ "interim" "/").
    rewrite (with_sep_name _ doc Hne Hd).
    now rewrite !app_assoc_str.
Qed.

(** Two pages share a cache file only if they are the same page of the same
    document: keying the cache by document id and page id loses nothing. *)
Theorem cache_files_are_distinct root doc1 page1 doc2 page2 :
  no_sep doc1 = true ->
  no_sep doc2 = true ->
  cache_path root doc1 page1 = cache_path root doc2 page2 ->
  doc1 = doc2 /\ page1 = page2.
Proof.
  intros H1 H2. rewrite !cache_path_shape by assumption.
  intros H. apply String.app_inj in H.
  assert (Hpage : forall (p q : Z) r,
             "ocr_text/page_" ++ pretty p ++ ".txt"
             = r ++ "ocr_text/page_" ++ pretty q ++ ".txt" ->
             lacks "/" r = true -> r = "" /\ p = q).
  { intros p q r E Hr.
    change ("ocr_text" ++ String "/" ("page_" ++ pretty p ++ ".txt")
            = r ++ "ocr_text/page_" ++ pretty q ++ ".txt") in E.
    destruct r as [| c r].
    - rewrite app_empty_l in E.
      apply (String.app_inj "ocr_text/page_") in E.
      apply app_inv_tail_str in E. split; [reflexivity |].
      now apply (inj pretty).
    - exfalso.
      change ("ocr_text/page_" ++ pretty q ++ ".txt")
        with ("ocr_text" ++ String "/" ("page_" ++ pretty q ++ ".txt")) in E.
      rewrite <- (app_assoc_str (String c r)) in E.
      apply first_sep_split in E as [E _]; [| reflexivity |].
      + apply (f_equal String.length) in E.
        rewrite length_app_str in E. cbn in E. lia.
      + rewrite lacks_app, Hr. reflexivity. }
  destruct (String.eqb_spec doc1 "") as [-> | Hn1],
           (String.eqb_spec doc2 "") as [-> | Hn2].
  - rewrite !app_empty_l in H. destruct (Hpage page1 page2 "") as [_ ->];
      [exact H | reflexivity | auto].
  - exfalso. rewrite app_empty_l, app_assoc_str in H.
    change (doc2 ++ "/" ++ "ocr_text/page_" ++ pretty page2 ++ ".txt")
      with (doc2 ++ String "/" ("ocr_text/page_" ++ pretty page2 ++ ".txt"))
      in H.
    change ("ocr_text/page_" ++ pretty page1 ++ ".txt")
      with ("ocr_text" ++ String "/" ("page_" ++ pretty page1 ++ ".txt"))
      in H.
    apply first_sep_split in H as [_ H]; [| reflexivity | exact H2].
    discriminate H.
  - exfalso. rewrite app_empty_l, app_assoc_str in H.
    change (doc1 ++ "/" ++ "ocr_text/page_" ++ pretty page1 ++ ".txt")
      with (doc1 ++ String "/" ("ocr_text/page_" ++ pretty page1 ++ ".txt"))
      in H.
    change ("ocr_text/page_" ++ pretty page2 ++ ".txt")
      with ("ocr_text" ++ String "/" ("page_" ++ pretty page2 ++ ".txt"))
      in H.
    apply first_sep_split in H as [_ H]; [| exact H1 | reflexivity].
    discriminate H.
  - rewrite !app_assoc_str in H.
    change (doc1 ++ String "/" ("ocr_text/page_" ++ pretty page1 ++ ".txt")
            = doc2 ++ String "/"
                ("ocr_text/page_" ++ pretty page2 ++ ".txt")) in H.
    apply first_sep_split in H as [-> H]; [| exact H1 | exact H2].
    split; [reflexivity |].
    destruct (Hpage page1 page2 "") as [_ ->]; [exact H | reflexivity | auto].
Qed.

Lemma cache_files_are_distinct_witness :
  cache_path "/srv/ledger" "1704" 2
  = "/srv/ledger/data/interim/1704/ocr_text/page_2.txt"
  /\ cache_path "/srv/ledger" "1704" 2 <> cache_path "/srv/ledger" "1712" 2.
Proof.
  split; [vm_compute; reflexivity |].
  intros E.
  destruct (cache_files_are_distinct "/srv/ledger" "1704" 2 "1712" 2
              eq_refl eq_refl E) as [H _].
  discriminate H.
Defined.

(** ** The loader *)

Lemma page_numbers_from_lower i n k :
  k ∈ page_numbers_from i n -> (i <= k)%Z.
Proof.
  revert i. induction n as [| n IH]; intros i; cbn; [inversion 1 |].
  intros H. apply elem_of_cons in H as [-> | H]; [lia |].
  apply IH in H. lia.
Qed.

Lemma page_numbers_from_sorted i n :
  StronglySorted Z.lt (page_numbers_from i n).
Proof.
  revert i. induction n as [| n IH]; intros i; cbn; constructor; [apply IH |].
  apply Forall_forall. intros k Hk. apply page_numbers_from_lower in Hk. lia.
Qed.

Lemma sorted_lt_NoDup (l : list Z) : StronglySorted Z.lt l -> NoDup l.
Proof.
  induction 1 as [| a l Hs IH Hall]; constructor; [| exact IH].
  intros Hin. rewrite Forall_forall in Hall. specialize (Hall a Hin). lia.
Qed.

Lemma enumerate_from_keys {A} i (xs : list A) :
  Dict.keys (Py.enumerate_from i xs) = page_numbers_from i (List.length xs).
Proof.
  revert i. induction xs as [| x xs IH]; intros i; cbn; [reflexivity |].
  f_equal. apply IH.
Qed.

(** A dict whose keys are listed in ascending order is its own sorted
    listing. *)
Lemma sorted_items_fixed {V} (d : list (Z * V)) :
  StronglySorted Z.lt (Dict.keys d) -> Dict.sorted_items d = d.
Proof.
  intros Hs. pose proof (sorted_lt_NoDup _ Hs) as Hnd.
  apply (StronglySorted_unique_strong Dict.key_le).
  - intros [k1 v1] [k2 v2] H1 H2 Hle Hge. unfold Dict.key_le in Hle, Hge.
    cbn in Hle, Hge. assert (k1 = k2) as -> by lia. f_equal.
    rewrite sorted_items_perm in H1.
    pose proof (getitem_elem d k2 v1 Hnd H1) as E1.
    pose proof (getitem_elem d k2 v2 Hnd H2) as E2. congruence.
  - apply sorted_items_sorted.
  - clear Hnd. unfold Dict.keys in Hs.
    induction d as [| a d IH]; [constructor |].
    cbn in Hs. apply StronglySorted_inv in Hs as [Hs Hall].
    constructor; [now apply IH |].
    rewrite List.Forall_map in Hall. eapply Forall_impl; [exact Hall |].
    intros x Hx. unfold Dict.key_le. cbn in Hx. lia.
  - apply sorted_items_perm.
Qed.

(** Both loops of the loader append one entry per page, in the order of the
    pages. *)
Lemma export_pages_app out_dir i xs acc :
  (forall k, k ∈ Dict.keys acc -> (k < i)%Z) ->
  Loader.export_pages out_dir (Py.enumerate_from i xs) acc
  = (acc ++ map (fun ix => (fst ix, image_path out_dir (fst ix)))
              (Py.enumerate_from i xs))%list.
Proof.
  revert i acc. induction xs as [| x xs IH]; intros i acc Hacc; cbn.
  - now rewrite app_nil_r.
  - rewrite setitem_fresh by (intros Hin; apply Hacc in Hin; lia).
    rewrite IH.
    + now rewrite <- app_assoc.
    + intros k Hk. unfold Dict.keys in Hk. rewrite fmap_app in Hk.
      apply elem_of_app in Hk as [Hk | Hk].
      * apply Hacc in Hk. lia.
      * apply list_elem_of_singleton in Hk. cbn in Hk. lia.
Qed.

Lemma load_pages_app i xs acc :
  (forall k, k ∈ Dict.keys acc -> (k < i)%Z) ->
  Loader.load_pages (Py.enumerate_from i xs) acc
  = (acc ++ map (fun ix => (fst ix, text_or_empty (snd ix)))
              (Py.enumerate_from i xs))%list.
Proof.
  revert i acc. induction xs as [| x xs IH]; intros i acc Hacc; cbn.
  - now rewrite app_nil_r.
  - rewrite setitem_fresh by (intros Hin; apply Hacc in Hin; lia).
    rewrite IH.
    + rewrite <- app_assoc. cbn. do 3 f_equal.
      destruct x as [t |]; [| reflexivity]. cbn.
      now destruct (String.eqb_spec t "") as [-> | _].
    + intros k Hk. unfold Dict.keys in Hk. rewrite fmap_app in Hk.
      apply elem_of_app in Hk as [Hk | Hk].
      * apply Hacc in Hk. lia.
      * apply list_elem_of_singleton in Hk. cbn in Hk. lia.
Qed.

Lemma keys_map_fst {A V} (f : Z * A -> V) (l : list (Z * A)) :
  Dict.keys (map (fun ix => (fst ix, f ix)) l) = Dict.keys l.
Proof.
  unfold Dict.keys. induction l as [| a l IH]; cbn; [reflexivity |].
  now rewrite IH.
Qed.

Lemma enumerate_from_snd {A} i (xs : list A) :
  map snd (Py.enumerate_from i xs) = xs.
Proof.
  revert i. induction xs as [| x xs IH]; intros i; cbn; [reflexivity |].
  now rewrite IH.
Qed.

Lemma image_path_inj out_dir (i j : Z) :
  image_path out_dir i = image_path out_dir j -> i = j.
Proof.
  unfold image_path, Path.join. cbn [fold_left].
  rewrite !(join2_with_sep _ ("page_" ++ _)) by reflexivity.
  intros H. apply String.app_inj in H.
  apply (String.app_inj "page_") in H. apply app_inv_tail_str in H.
  now apply (inj pretty).
Qed.

(** [export_pdf_pages_as_images] raises exactly when the PDF is not there.
    Otherwise it numbers the pages from 1 in the order of the document: the
    page ids of its result are distinct and ascending as listed, every page
    has its own image file, and the file of page [i] is [page_i.png] in the
    interim directory of the document. *)
Theorem exported_pages_are_numbered root files doc :
  match files !! Loader.get_pdf_path root doc with
  | None =>
      Loader.export_pdf_pages_as_images root files doc
      = Raise FileNotFoundError
  | Some pdf_pages =>
      exists images,
        Loader.export_pdf_pages_as_images root files doc = Ok images
        /\ Dict.keys images = page_numbers (List.length pdf_pages)
        /\ StronglySorted Z.lt (Dict.keys images)
        /\ NoDup (Dict.keys images)
        /\ Dict.sorted_items images = images
        /\ NoDup (map snd images)
        /\ forall i path,
            (i, path) ∈ images ->
            path = image_path (Path.join root ["data"; "interim"; doc]) i
  end.
Proof.
  unfold Loader.export_pdf_pages_as_images. cbv zeta.
  destruct (files !! Loader.get_pdf_path root doc) as [pdf_pages |];
    [| reflexivity].
  eexists. split; [reflexivity |].
  rewrite export_pages_app by (intros k Hk; inversion Hk).
  rewrite app_nil_l.
  set (out_dir := Path.join root ["data"; "interim"; doc]).
  assert (Hkeys : Dict.keys
            (map (fun ix : Z * option string =>
                    (fst ix, image_path out_dir (fst ix)))
                 (Py.enumerate_from 1 pdf_pages))
          = page_numbers (List.length pdf_pages)).
  { rewrite (keys_map_fst (fun ix : Z * option string =>
               image_path out_dir (fst ix))).
    apply enumerate_from_keys. }
  assert (Hsorted : StronglySorted Z.lt (page_numbers (List.length pdf_pages)))
    by apply page_numbers_from_sorted.
  split; [exact Hkeys |]. rewrite Hkeys.
  split; [exact Hsorted |].
  split; [now apply sorted_lt_NoDup |].
  split; [apply sorted_items_fixed; now rewrite Hkeys |].
  split.
  - rewrite map_map. cbn [snd].
    rewrite <- (map_map fst (image_path out_dir)).
    change (map fst (Py.enumerate_from 1 pdf_pages))
      with (Dict.keys (Py.enumerate_from 1 pdf_pages)).
    rewrite enumerate_from_keys.
    apply (NoDup_fmap_2_strong _).
    + intros i j _ _. apply image_path_inj.
    + apply sorted_lt_NoDup, page_numbers_from_sorted.
  - intros i path Hin. apply list_elem_of_fmap in Hin as ([k x] & E & _).
    now injection E as -> ->.
Qed.

(** [load_pdf_as_pages] raises exactly when the PDF is not there. Otherwise
    it numbers the pages from 1 in the order of the document and keeps every
    page: one that yields no text comes as the empty string. Handed to
    [process_document], the pages are processed in the order of the
    document. *)
Theorem loaded_pages_are_numbered root files doc :
  match files !! Loader.get_pdf_path root doc with
  | None =>
      Loader.load_pdf_as_pages root files doc = Raise FileNotFoundError
  | Some pdf_pages =>
      exists pages,
        Loader.load_pdf_as_pages root files doc = Ok pages
        /\ Dict.keys pages = page_numbers (List.length pdf_pages)
        /\ map snd pages = map text_or_empty pdf_pages
        /\ NoDup (Dict.keys pages)
        /\ forall S (svc : Services S) B w,
            process_document svc B doc pages w
            = pages_in_turn svc B doc pages w
  end.
Proof.
  unfold Loader.load_pdf_as_pages. cbv zeta.
  destruct (files !! Loader.get_pdf_path root doc) as [pdf_pages |];
    [| reflexivity].
  eexists. split; [reflexivity |].
  rewrite load_pages_app by (intros k Hk; inversion Hk).
  rewrite app_nil_l.
  assert (Hkeys : Dict.keys
            (map (fun ix : Z * option string =>
                    (fst ix, text_or_empty (snd ix)))
                 (Py.enumerate_from 1 pdf_pages))
          = page_numbers (List.length pdf_pages)).
  { rewrite (keys_map_fst (fun ix : Z * option string =>
               text_or_empty (snd ix))).
    apply enumerate_from_keys. }
  assert (Hsorted : StronglySorted Z.lt (page_numbers (List.length pdf_pages)))
    by apply page_numbers_from_sorted.
  split; [exact Hkeys |].
  split.
  { rewrite map_map. cbn [snd].
    rewrite <- (map_map snd text_or_empty). now rewrite enumerate_from_snd. }
  split; [rewrite Hkeys; now apply sorted_lt_NoDup |].
  intros S svc B w. rewrite process_document_in_turn.
  - rewrite sorted_items_fixed; [reflexivity | now rewrite Hkeys].
  - rewrite Hkeys. now apply sorted_lt_NoDup.
Qed.

(** With the renderer of [loader.py], the pages a cached transcription
    returns are numbered from 1 in the order of the document, one entry per
    page of the PDF, and [process_document] goes through them in that
    order. *)
Theorem transcribed_pages_are_numbered {S} (svc : Services S) root files doc
    w s1 pdf_pages pages w' :
  renderer svc doc (outside w)
  = (Loader.export_pdf_pages_as_images root files doc, s1) ->
  files !! Loader.get_pdf_path root doc = Some pdf_pages ->
  ocr_pdf_to_pages_cached svc doc w = (Ok pages, w') ->
  Dict.keys pages = page_numbers (List.length pdf_pages)
  /\ forall B w2,
      process_document svc B doc pages w2 = pages_in_turn svc B doc pages w2.
Proof.
  intros Hr Hfile. rewrite ocr_unfold, Hr.
  unfold Loader.export_pdf_pages_as_images. cbv zeta. rewrite Hfile.
  rewrite export_pages_app by (intros k Hk; inversion Hk).
  rewrite app_nil_l.
  set (images := map _ (Py.enumerate_from 1 pdf_pages)).
  assert (Hkeys : Dict.keys images = page_numbers (List.length pdf_pages)).
  { unfold images.
    rewrite (keys_map_fst (fun ix : Z * option string =>
               image_path (Path.join root ["data"; "interim"; doc])
                          (fst ix))).
    apply enumerate_from_keys. }
  assert (Hsorted : StronglySorted Z.lt (Dict.keys images))
    by (rewrite Hkeys; apply page_numbers_from_sorted).
  rewrite (sorted_items_fixed images Hsorted).
  intros H. apply ocr_pages_keys in H;
    [| cbn; now apply sorted_lt_NoDup].
  cbn in H. rewrite Hkeys in H. split; [exact H |].
  assert (Hs : StronglySorted Z.lt (Dict.keys pages))
    by (rewrite H; apply page_numbers_from_sorted).
  intros B w2. rewrite process_document_in_turn by now apply sorted_lt_NoDup.
  now rewrite sorted_items_fixed.
Qed.

(** ** The prompts *)

Lemma clash_differs old a s rest :
  clash old a = true -> a ++ s <> old ++ rest.
Proof.
  revert a. induction old as [| x old IH]; intros [| y a]; cbn [clash];
    try discriminate.
  intros H E. rewrite !app_String in E. injection E as -> E.
  rewrite Ascii.eqb_refl in H. cbn in H. exact (IH a H E).
Qed.

Lemma clash_prefix old a s :
  clash old a = true -> String.prefix old (a ++ s) = false.
Proof.
  intros H. destruct (String.prefix old (a ++ s)) eqn:E; [| reflexivity].
  apply prefix_iff in E as [rest E]. now apply clash_differs in E.
Qed.

Lemma replace_from_pass old new a s :
  passes old a = true ->
  Str.replace_from 0 old new (a ++ s) = a ++ Str.replace_from 0 old new s.
Proof.
  induction a as [| c a IH]; [reflexivity |]. cbn [passes]. intros H.
  apply andb_prop in H as [Hc Ha].
  pose proof (clash_prefix old (String c a) s Hc) as Hp.
  rewrite !app_String in *. cbn [Str.replace_from]. rewrite Hp.
  now rewrite (IH Ha).
Qed.

Lemma replace_from_skip old new x s :
  Str.replace_from (String.length x) old new (x ++ s)
  = Str.replace_from 0 old new s.
Proof.
  induction x as [| c x IH]; [reflexivity |].
  rewrite app_String. cbn [String.length Str.replace_from]. exact IH.
Qed.

Lemma replace_from_hit old new s :
  old <> "" ->
  Str.replace_from 0 old new (old ++ s) = new ++ Str.replace_from 0 old new s.
Proof.
  destruct old as [| c old]; [contradiction |]. intros _.
  assert (Hp : String.prefix (String c old) (String c old ++ s) = true)
    by (apply prefix_iff; now exists s).
  rewrite app_String in *. cbn [Str.replace_from]. rewrite Hp.
  replace (String.length (String c old) - 1)%nat with (String.length old)
    by (cbn [String.length]; lia).
  now rewrite replace_from_skip.
Qed.

(** One substitution over a template in pieces: the pieces spelt [old] are
    replaced, the others are passed over. *)
Lemma replace_render old new (f g : piece -> string) pieces :
  old <> "" ->
  Forall (fun p => (f p = old /\ g p = new)
                   \/ (passes old (f p) = true /\ g p = f p)) pieces ->
  Str.replace old new (render f pieces) = render g pieces.
Proof.
  intros Hold Hall.
  assert (E : Str.replace old new (render f pieces)
              = Str.replace_from 0 old new (render f pieces))
    by (destruct old; [contradiction | reflexivity]).
  rewrite E. clear E.
  induction Hall as [| p pieces [[Hf Hg] | [Hf Hg]] _ IH]; [reflexivity | |];
    cbn [render].
  - rewrite Hf, Hg, replace_from_hit by exact Hold. now rewrite IH.
  - rewrite Hg, replace_from_pass by exact Hf. now rewrite IH.
Qed.

Lemma brace_free_passes old t :
  brace_free t = true -> passes (String "{" old) t = true.
Proof.
  unfold brace_free. induction t as [| c t IH]; [reflexivity |].
  cbn [lacks passes clash]. intros H. apply andb_prop in H as [Hc Ht].
  rewrite (IH Ht), andb_true_r, Ascii.eqb_sym. now rewrite Hc.
Qed.

Lemma digit_no_brace n : Ascii.eqb (pretty_N_char n) "{" = false.
Proof.
  unfold pretty_N_char. destruct n as [| p]; [reflexivity |].
  do 4 (try destruct p as [p | p |]); reflexivity.
Qed.

Lemma pretty_N_go_brace_free x s :
  brace_free s = true -> brace_free (pretty_N_go x s) = true.
Proof.
  revert s. induction (N.lt_wf_0 x) as [x _ IH]. intros s Hs.
  destruct (decide (x = 0%N)) as [-> | Hx]; [now rewrite pretty_N_go_0 |].
  rewrite pretty_N_go_step by lia. apply IH.
  - apply N.div_lt; lia.
  - unfold brace_free in *. cbn [lacks]. now rewrite digit_no_brace, Hs.
Qed.

Lemma pretty_brace_free (z : Z) : brace_free (pretty z) = true.
Proof.
  assert (Hn : forall n : N, brace_free (pretty n) = true).
  { intros n. unfold pretty, pretty_N.
    destruct (decide (n = 0%N)); [reflexivity |].
    now apply pretty_N_go_brace_free. }
  destruct z as [| p | p]; [reflexivity | apply (Hn (Npos p)) |].
  change (pretty (Z.neg p)) with ("-" ++ pretty (Npos p)).
  unfold brace_free. rewrite lacks_app. exact (Hn (Npos p)).
Qed.

(** The classifier prompt is the template with the document id, the page id
    in decimal and the page text where their placeholders stood, the text
    between the placeholders untouched and the page text put in as it is,
    whatever it holds. This is so for a template whose text between the
    placeholders has no opening brace and a document id without one. *)
Theorem classifier_prompt_filled pieces doc page text :
  Forall (fun p => plain_brace_free p = true) pieces ->
  brace_free doc = true ->
  build_classifier_prompt (render token pieces) doc page text
  = render (classifier_values doc page text) pieces.
Proof.
  intros Hplain Hdoc. unfold build_classifier_prompt.
  pose proof (pretty_brace_free page) as Hpage.
  rewrite (replace_render "{{DOC_ID}}" doc token
             (fun p => match p with DocId => doc | _ => token p end))
    by (try discriminate; piece_step Hplain brace_free_passes).
  rewrite (replace_render "{{PAGE_ID}}" (pretty page) _
             (fun p => match p with
                       | DocId => doc
                       | PageId => pretty page
                       | _ => token p
                       end))
    by (try discriminate; piece_step Hplain brace_free_passes).
  apply replace_render; [discriminate |]. piece_step Hplain brace_free_passes.
Qed.

Lemma classifier_prompt_filled_witness :
  build_classifier_prompt "Document {{DOC_ID}}, page {{PAGE_ID}}: {{PAGE_TEXT}}"
                          "1704" 12 "{{DOC_ID}} Rent 2 10 0"
  = "Document 1704, page 12: {{DOC_ID}} Rent 2 10 0".
Proof.
  exact (classifier_prompt_filled
           [Plain "Document "; DocId; Plain ", page "; PageId; Plain ": ";
            PageText]
           "1704" 12 "{{DOC_ID}} Rent 2 10 0"
           ltac:(repeat constructor) eq_refl).
Defined.

(** The extraction prompt is the template with the five values of the page
    where their placeholders stood, the page text put in as it is. This is
    so when neither the text between the placeholders nor the document id,
    the page type or the overview holds an opening brace. *)
Theorem extraction_prompt_filled pieces meta text :
  Forall (fun p => plain_brace_free p = true) pieces ->
  brace_free (meta_doc_id meta) = true ->
  brace_free (page_type meta) = true ->
  brace_free (financial_structure_overview meta) = true ->
  build_extraction_prompt (render token pieces) meta text
  = render (extraction_values meta text) pieces.
Proof.
  intros Hplain Hdoc Hkind Hover. unfold build_extraction_prompt.
  pose proof (pretty_brace_free (meta_page_id meta)) as Hpage.
  rewrite (replace_render "{{DOC_ID}}" (meta_doc_id meta) token
             (fun p => match p with
                       | DocId => meta_doc_id meta
                       | _ => token p
                       end))
    by (try discriminate; piece_step Hplain brace_free_passes).
  rewrite (replace_render "{{PAGE_ID}}" (pretty (meta_page_id meta)) _
             (fun p => match p with
                       | DocId => meta_doc_id meta
                       | PageId => pretty (meta_page_id meta)
                       | _ => token p
                       end))
    by (try discriminate; piece_step Hplain brace_free_passes).
  rewrite (replace_render "{{PAGE_TYPE}}" (page_type meta) _
             (fun p => match p with
                       | DocId => meta_doc_id meta
                       | PageId => pretty (meta_page_id meta)
                       | PageKind => page_type meta
                       | _ => token p
                       end))
    by (try discriminate; piece_step Hplain brace_free_passes).
  rewrite (replace_render "{{FINANCIAL_STRUCTURE_OVERVIEW}}"
             (financial_structure_overview meta) _
             (fun p => match p with
                       | DocId => meta_doc_id meta
                       | PageId => pretty (meta_page_id meta)
                       | PageKind => page_type meta
                       | Overview => financial_structure_overview meta
                       | _ => token p
                       end))
    by (try discriminate; piece_step Hplain brace_free_passes).
  apply replace_render; [discriminate |]. piece_step Hplain brace_free_passes.
Qed.

(** The substitutions follow one another on the text as it stands: a value
    put in by an earlier one is read by the later ones. An overview that
    spells the placeholder of the page text does not reach the prompt; the
    page text stands in its place. *)
Theorem overview_is_read_again pieces meta text :
  Forall (fun p => plain_brace_free p = true) pieces ->
  brace_free (meta_doc_id meta) = true ->
  brace_free (page_type meta) = true ->
  financial_structure_overview meta = "{{PAGE_TEXT}}" ->
  build_extraction_prompt (render token pieces) meta text
  = render (fun p => match p with
                     | Overview => text
                     | _ => extraction_values meta text p
                     end) pieces.
Proof.
  intros Hplain Hdoc Hkind Hover. unfold build_extraction_prompt.
  rewrite Hover.
  pose proof (pretty_brace_free (meta_page_id meta)) as Hpage.
  rewrite (replace_render "{{DOC_ID}}" (meta_doc_id meta) token
             (fun p => match p with
                       | DocId => meta_doc_id meta
                       | _ => token p
                       end))
    by (try discriminate; piece_step Hplain brace_free_passes).
  rewrite (replace_render "{{PAGE_ID}}" (pretty (meta_page_id meta)) _
             (fun p => match p with
                       | DocId => meta_doc_id meta
                       | PageId => pretty (meta_page_id meta)
                       | _ => token p
                       end))
    by (try discriminate; piece_step Hplain brace_free_passes).
  rewrite (replace_render "{{PAGE_TYPE}}" (page_type meta) _
             (fun p => match p with
                       | DocId => meta_doc_id meta
                       | PageId => pretty (meta_page_id meta)
                       | PageKind => page_type meta
                       | _ => token p
                       end))
    by (try discriminate; piece_step Hplain brace_free_passes).
  rewrite (replace_render "{{FINANCIAL_STRUCTURE_OVERVIEW}}"
             "{{PAGE_TEXT}}" _
             (fun p => match p with
                       | DocId => meta_doc_id meta
                       | PageId => pretty (meta_page_id meta)
                       | PageKind => page_type meta
                       | Overview => "{{PAGE_TEXT}}"
                       | _ => token p
                       end))
    by (try discriminate; piece_step Hplain brace_free_passes).
  apply replace_render; [discriminate |]. piece_step Hplain brace_free_passes.
Qed.

Lemma replace_from_absent old new s :
  Text.contains old s = false -> Str.replace_from 0 old new s = s.
Proof.
  induction s as [| c s IH]; [reflexivity |].
  cbn [Text.contains Str.replace_from]. intros H.
  apply orb_false_elim in H as [Hp Hs]. now rewrite Hp, (IH Hs).
Qed.

Lemma replace_absent old new s :
  Text.contains old s = false -> Str.replace old new s = s.
Proof.
  intros H. destruct old as [| c old]; [now destruct s |].
  now apply replace_from_absent.
Qed.

(** A template that spells none of the placeholders is the prompt, for
    every page. *)
Theorem prompt_without_placeholders template :
  (Text.contains "{{DOC_ID}}" template = false ->
   Text.contains "{{PAGE_ID}}" template = false ->
   Text.contains "{{PAGE_TEXT}}" template = false ->
   forall doc page text,
     build_classifier_prompt template doc page text = template)
  /\ (Text.contains "{{DOC_ID}}" template = false ->
      Text.contains "{{PAGE_ID}}" template = false ->
      Text.contains "{{PAGE_TYPE}}" template = false ->
      Text.contains "{{FINANCIAL_STRUCTURE_OVERVIEW}}" template = false ->
      Text.contains "{{PAGE_TEXT}}" template = false ->
      forall meta text, build_extraction_prompt template meta text = template).
Proof.
  split.
  - intros H1 H2 H3 doc page text. unfold build_classifier_prompt.
    now rewrite (replace_absent _ _ _ H1), (replace_absent _ _ _ H2),
      (replace_absent _ _ _ H3).
  - intros H1 H2 H3 H4 H5 meta text. unfold build_extraction_prompt.
    now rewrite (replace_absent _ _ _ H1), (replace_absent _ _ _ H2),
      (replace_absent _ _ _ H3), (replace_absent _ _ _ H4),
      (replace_absent _ _ _ H5).
Qed.

Lemma extraction_prompt_filled_witness :
  build_extraction_prompt (render token extraction_pieces) columns_page
                          "Rent {{PAGE_ID}}"
  = "Full_Balance_Sheet 12 of 1704. Two columns. Rent {{PAGE_ID}}".
Proof.
  exact (extraction_prompt_filled extraction_pieces columns_page
           "Rent {{PAGE_ID}}" ltac:(repeat constructor)
           eq_refl eq_refl eq_refl).
Defined.

Lemma overview_is_read_again_witness :
  build_extraction_prompt "Overview: {{FINANCIAL_STRUCTURE_OVERVIEW}}"
    leaking_page "Rent 2 10 0"
  = "Overview: Rent 2 10 0".
Proof.
  exact (overview_is_read_again [Plain "Overview: "; Overview] leaking_page
           "Rent 2 10 0" ltac:(repeat constructor) eq_refl eq_refl eq_refl).
Defined.

Lemma prompt_without_placeholders_witness :
  build_classifier_prompt "Classify the page." "1704" 1 "Rent 2 10 0"
  = "Classify the page.".
Proof.
  exact (proj1 (prompt_without_placeholders "Classify the page.")
               eq_refl eq_refl eq_refl "1704" 1%Z "Rent 2 10 0").
Defined.

(** ** The batch *)

Lemma classified_docs_app l1 l2 :
  classified_docs (l1 ++ l2)%list
  = (classified_docs l1 ++ classified_docs l2)%list.
Proof. apply omap_app. Qed.

Section BatchRuns.

Context {S : Type} (svc : Services S) (B : Builtins).

Lemma process_pages_cache doc pages ids ms rs w :
  cache (snd (process_pages svc B doc pages ids ms rs w)) = cache w.
Proof.
  revert ms rs w. induction ids as [| k ids IH]; intros ms rs w;
    [reflexivity |].
  cbn [process_pages]. rewrite (M_bind_run (lift _)). unfold lift.
  destruct (Dict.getitem pages k) as [text | e]; [| reflexivity].
  rewrite M_bind_run.
  destruct (process_single_page_frame svc B doc k text w) as (Hc & _).
  destruct (process_single_page svc B doc k text w) as [[first | e] w1];
    cbn [snd] in Hc; [| exact Hc].
  now rewrite IH.
Qed.

Lemma process_pages_classified doc pages ids ms rs w res w' :
  process_pages svc B doc pages ids ms rs w = (Ok res, w') ->
  classified_docs (log w')
  = (classified_docs (log w) ++ replicate (List.length ids) doc)%list.
Proof.
  revert ms rs w. induction ids as [| k ids IH]; intros ms rs w.
  - cbn. intros H. injection H as _ <-. now rewrite app_nil_r.
  - cbn [process_pages]. rewrite (M_bind_run (lift _)). unfold lift.
    destruct (Dict.getitem pages k) as [text | e]; [| discriminate].
    rewrite M_bind_run.
    destruct (process_single_page_run svc B doc k text w)
      as (meta & w0 & _ & _ & Hlog & _).
    destruct (process_single_page svc B doc k text w) as [[first | e] w1];
      [| discriminate].
    cbn [snd] in Hlog. intros H. apply IH in H. rewrite H, Hlog.
    rewrite classified_docs_app. cbn. now rewrite <- app_assoc.
Qed.

Lemma cached_page_text_classified doc page path w :
  classified_docs (log (snd (cached_page_text svc doc page path w)))
  = classified_docs (log w).
Proof.
  destruct (cache w !! (doc, page)) as [t |] eqn:Hc.
  - now rewrite (cached_page_text_hit _ _ _ _ _ _ Hc).
  - rewrite (cached_page_text_miss _ _ _ _ _ Hc).
    destruct (transcriber svc path (outside w)) as [[| | content] s1];
      cbn [snd log]; rewrite classified_docs_app; cbn;
      now rewrite app_nil_r.
Qed.

Lemma ocr_run_classified doc w :
  classified_docs (log (snd (ocr_pdf_to_pages_cached svc doc w)))
  = classified_docs (log w).
Proof.
  rewrite ocr_unfold.
  destruct (renderer svc doc (outside w)) as [[images | e] s1];
    [| reflexivity].
  change (classified_docs (log w))
    with (classified_docs
            (log {| outside := s1; cache := cache w; log := log w |})).
  generalize {| outside := s1; cache := cache w; log := log w |}.
  generalize (@nil (Z * string)).
  induction (Dict.sorted_items images) as [| [page path] items IH];
    intros acc w0; [reflexivity |].
  cbn [ocr_pages]. rewrite M_bind_run.
  pose proof (cached_page_text_classified doc page path w0) as Hc.
  destruct (cached_page_text svc doc page path w0) as [[text | e] w1];
    cbn [snd] in Hc; [| exact Hc].
  now rewrite IH.
Qed.

(** The loop over a list of documents in two parts. *)
Lemma process_docs_app docs1 docs2 ms rs w :
  process_docs svc B (docs1 ++ docs2)%list ms rs w
  = match process_docs svc B docs1 ms rs w with
    | (Ok tables, w1) => process_docs svc B docs2 (fst tables) (snd tables) w1
    | (Raise e, w1) => (Raise e, w1)
    end.
Proof.
  revert ms rs w. induction docs1 as [| doc docs1 IH]; intros ms rs w;
    [reflexivity |].
  cbn [app process_docs]. rewrite !M_bind_run.
  destruct (ocr_pdf_to_pages_cached svc doc w) as [[pages | e] w1];
    [| reflexivity].
  rewrite !M_bind_run.
  destruct (process_document svc B doc pages w1) as [[processed | e] w2];
    [| reflexivity].
  apply IH.
Qed.

Lemma process_docs_cache docs ms rs w k t :
  cache w !! k = Some t ->
  cache (snd (process_docs svc B docs ms rs w)) !! k = Some t.
Proof.
  revert ms rs w. induction docs as [| doc docs IH]; intros ms rs w Hk;
    [exact Hk |].
  cbn [process_docs]. rewrite M_bind_run.
  pose proof (proj1 (ocr_run_cache svc doc w) k t Hk) as Hk1.
  destruct (ocr_pdf_to_pages_cached svc doc w) as [[pages | e] w1];
    cbn [snd] in Hk1; [| exact Hk1].
  rewrite M_bind_run.
  pose proof (process_pages_cache doc pages (Dict.sorted_keys pages) [] [] w1)
    as Hc.
  fold (process_document svc B doc pages) in Hc.
  destruct (process_document svc B doc pages w1) as [[processed | e] w2];
    cbn [snd] in Hc.
  - apply IH. now rewrite Hc.
  - cbn [snd]. now rewrite Hc.
Qed.

Lemma process_docs_classified docs ms rs w tables w' :
  process_docs svc B docs ms rs w = (Ok tables, w') ->
  exists counts,
    List.length counts = List.length docs
    /\ classified_docs (log w')
       = (classified_docs (log w) ++ by_document docs counts)%list.
Proof.
  revert ms rs w. induction docs as [| doc docs IH]; intros ms rs w.
  - cbn. intros H. injection H as _ <-. exists []. now rewrite app_nil_r.
  - cbn [process_docs]. rewrite M_bind_run.
    pose proof (ocr_run_classified doc w) as Ho.
    destruct (ocr_pdf_to_pages_cached svc doc w) as [[pages | e] w1];
      [| discriminate].
    cbn [snd] in Ho. rewrite M_bind_run.
    destruct (process_document svc B doc pages w1) as [[processed | e] w2]
      eqn:Ep; [| discriminate].
    apply process_pages_classified in Ep.
    intros H. apply IH in H as (counts & Hlen & Hlog).
    exists (List.length (Dict.sorted_keys pages) :: counts). split.
    + cbn. now rewrite Hlen.
    + rewrite Hlog, Ep, Ho. cbn [by_document]. now rewrite <- app_assoc.
Qed.

Context (desk : Desk S) (root : string).

Lemma batch_unfold name w :
  process_all_pdfs_to_excel svc B desk root name w
  = let (globbed, s1) := finder desk (outside w) in
    let w0 := {| outside := s1; cache := cache w; log := log w |} in
    match list_doc_ids_from_raw globbed with
    | [] => (Raise FileNotFoundError, w0)
    | doc :: docs =>
        match process_docs svc B (doc :: docs) [] [] w0 with
        | (Ok tables, w1) =>
            let (written, s2) :=
              writer desk (Path.join (Path.join root ["data"; "processed"])
                                     [name])
                     (snd tables) (fst tables) (outside w1) in
            (match written with
             | Ok _ =>
                 Ok (Path.join (Path.join root ["data"; "processed"]) [name])
             | Raise e => Raise e
             end,
             {| outside := s2; cache := cache w1; log := log w1 |})
        | (Raise e, w1) => (Raise e, w1)
        end
    end.
Proof.
  unfold process_all_pdfs_to_excel. rewrite M_bind_run. unfold call at 1.
  destruct (finder desk (outside w)) as [globbed s1]. cbv zeta.
  destruct (list_doc_ids_from_raw globbed) as [| doc docs]; [reflexivity |].
  rewrite M_bind_run.
  destruct (process_docs svc B (doc :: docs) [] []
              {| outside := s1; cache := cache w; log := log w |})
    as [[tables | e] w1]; [| reflexivity].
  rewrite M_bind_run. unfold call.
  destruct (writer desk _ (snd tables) (fst tables) (outside w1))
    as [[[] | e] s2]; reflexivity.
Qed.

(** The batch stops at the first failure and writes nothing then. With no
    PDF to be found it raises [FileNotFoundError] before any call. When the
    transcription or the processing of a document raises, the batch raises
    that exception in the state the failing step left: the documents after
    it are not begun, and the rows of those before it are not written. *)
Theorem batch_stops_at_first_failure name w :
  (forall s1,
      finder desk (outside w) = ([], s1) ->
      process_all_pdfs_to_excel svc B desk root name w
      = (Raise FileNotFoundError,
         {| outside := s1; cache := cache w; log := log w |}))
  /\ (forall globbed s1 done doc rest tables w1,
         finder desk (outside w) = (globbed, s1) ->
         list_doc_ids_from_raw globbed = (done ++ doc :: rest)%list ->
         process_docs svc B done [] []
           {| outside := s1; cache := cache w; log := log w |}
         = (Ok tables, w1) ->
         (forall e w2,
             ocr_pdf_to_pages_cached svc doc w1 = (Raise e, w2) ->
             process_all_pdfs_to_excel svc B desk root name w
             = (Raise e, w2))
         /\ (forall pages w2 e w3,
                ocr_pdf_to_pages_cached svc doc w1 = (Ok pages, w2) ->
                process_document svc B doc pages w2 = (Raise e, w3) ->
                process_all_pdfs_to_excel svc B desk root name w
                = (Raise e, w3))).
Proof.
  split.
  - intros s1 Hf. now rewrite batch_unfold, Hf.
  - intros globbed s1 done doc rest tables w1 Hf Hids Hdone.
    assert (Hrun : forall e w2,
               process_docs svc B [doc] (fst tables) (snd tables) w1
               = (Raise e, w2) ->
               process_all_pdfs_to_excel svc B desk root name w
               = (Raise e, w2)).
    { intros e w2 Hdoc. rewrite batch_unfold, Hf. cbv zeta. rewrite Hids.
      destruct (done ++ doc :: rest)%list as [| d ds] eqn:E;
        [now destruct done |].
      rewrite <- E.
      change (doc :: rest) with ([doc] ++ rest)%list.
      rewrite app_assoc, process_docs_app, process_docs_app, Hdone, Hdoc.
      reflexivity. }
    split.
    + intros e w2 Ho. apply Hrun. cbn [process_docs].
      now rewrite M_bind_run, Ho.
    + intros pages w2 e w3 Ho Hp. apply Hrun. cbn [process_docs].
      now rewrite M_bind_run, Ho, M_bind_run, Hp.
Qed.

(** Whether the batch returns or raises, no cache entry that was there is
    lost or changed: what was transcribed before a failure need not be
    transcribed again. *)
Theorem batch_keeps_cache name w k t :
  cache w !! k = Some t ->
  cache (snd (process_all_pdfs_to_excel svc B desk root name w)) !! k
  = Some t.
Proof.
  intros Hk. rewrite batch_unfold.
  destruct (finder desk (outside w)) as [globbed s1]. cbv zeta.
  destruct (list_doc_ids_from_raw globbed) as [| doc docs]; [exact Hk |].
  pose proof (process_docs_cache (doc :: docs) [] []
                {| outside := s1; cache := cache w; log := log w |} k t Hk)
    as Hc.
  destruct (process_docs svc B (doc :: docs) [] [] _) as [[tables | e] w1];
    cbn [snd] in Hc; [| exact Hc].
  now destruct (writer desk _ (snd tables) (fst tables) (outside w1))
    as [written s2].
Qed.

(** A batch that returns gives the path of the workbook under
    [data/processed], and it has gone through the documents one after the
    other in the order of their ids as found: the classification calls of a
    document stand together, before those of the next. *)
Theorem batch_goes_document_by_document name w globbed s1 path w' :
  finder desk (outside w) = (globbed, s1) ->
  process_all_pdfs_to_excel svc B desk root name w = (Ok path, w') ->
  path = Path.join (Path.join root ["data"; "processed"]) [name]
  /\ exists counts,
      List.length counts = List.length globbed
      /\ classified_docs (log w')
         = (classified_docs (log w)
            ++ by_document (list_doc_ids_from_raw globbed) counts)%list.
Proof.
  intros Hf. rewrite batch_unfold, Hf. cbv zeta.
  assert (Hlen : List.length (list_doc_ids_from_raw globbed)
                 = List.length globbed).
  { unfold list_doc_ids_from_raw. cbv zeta. rewrite length_map.
    apply Permutation_length, merge_sort_Permutation. }
  destruct (list_doc_ids_from_raw globbed) as [| doc docs];
    [discriminate |].
  destruct (process_docs svc B (doc :: docs) [] [] _) as [[tables | e] w1]
    eqn:Ed; [| discriminate].
  apply process_docs_classified in Ed as (counts & Hc & Hlog).
  cbn [log] in Hlog.
  destruct (writer desk _ (snd tables) (fst tables) (outside w1))
    as [[[] | e] s2]; [| discriminate].
  intros H. injection H as <- <-. split; [reflexivity |].
  exists counts. split; [congruence | exact Hlog].
Qed.

End BatchRuns.

(** ** The further properties at concrete inputs *)

Lemma transcription_calls_only_for_missing_witness :
  NoDup (Dict.keys [(2%Z, "page_2.png"); (1%Z, "page_1.png")])
  /\ exists pages w',
      ocr_pdf_to_pages_cached two_scans "1704" half_cached = (Ok pages, w')
      /\ ocr_calls (log w') = ["page_2.png"]
      /\ Dict.keys pages = [1%Z; 2%Z].
Proof.
  assert (Hnd : NoDup (Dict.keys [(2%Z, "page_2.png"); (1%Z, "page_1.png")])).
  { refine (bool_decide_unpack _ _). vm_compute. exact I. }
  split; [exact Hnd |].
  do 2 eexists. split; [vm_compute; reflexivity |].
  destruct (transcription_calls_only_for_missing two_scans "1704" half_cached
              [(2%Z, "page_2.png"); (1%Z, "page_1.png")] tt _ _
              eq_refl Hnd eq_refl) as (Hcalls & Hkeys & _).
  split; [exact Hcalls | exact Hkeys].
Defined.

Lemma plain_transcription_calls_every_page_witness :
  exists pages w',
    ocr_pdf_to_pages two_scans "1704" half_cached = (Ok pages, w')
    /\ log w' = [OcrCall "page_1.png"; OcrCall "page_2.png"]
    /\ cache w' = cache half_cached.
Proof.
  do 2 eexists. split; [vm_compute; reflexivity |].
  destruct (plain_transcription_calls_every_page two_scans "1704" half_cached)
    as (Hcache & _ & Hrun).
  destruct (Hrun [(2%Z, "page_2.png"); (1%Z, "page_1.png")] tt _ _ eq_refl
              ltac:(refine (bool_decide_unpack _ _); vm_compute; exact I)
              eq_refl) as [Hlog _].
  split; [exact Hlog | exact Hcache].
Defined.

Lemma first_cached_run_is_plain_run_witness :
  fst (ocr_pdf_to_pages_cached two_scans "1704" fresh_world)
  = Ok [(1%Z, "Rent   2 10 0"); (2%Z, "Rent   2 10 0")]
  /\ fst (ocr_pdf_to_pages_cached two_scans "1704" fresh_world)
     = fst (ocr_pdf_to_pages two_scans "1704" fresh_world).
Proof.
  split; [vm_compute; reflexivity |].
  apply (first_cached_run_is_plain_run two_scans "1704" fresh_world).
  - intros page. apply lookup_empty.
  - intros images s1 H. injection H as <- _.
    refine (bool_decide_unpack _ _). vm_compute. exact I.
Defined.

Lemma transcribed_pages_are_numbered_witness :
  exists pages w',
    ocr_pdf_to_pages_cached scanning "1704" fresh_world = (Ok pages, w')
    /\ Dict.keys pages = [1%Z; 2%Z]
    /\ ocr_calls (log w')
       = ["/srv/ledger/data/interim/1704/page_1.png";
          "/srv/ledger/data/interim/1704/page_2.png"].
Proof.
  do 2 eexists. split; [vm_compute; reflexivity |].
  split; [| vm_compute; reflexivity].
  refine (proj1 (transcribed_pages_are_numbered scanning "/srv/ledger"
                   ledger_files "1704" fresh_world tt [None; None] _ _
                   eq_refl _ _)).
  - vm_compute. reflexivity.
  - vm_compute. reflexivity.
Defined.

Lemma batch_stops_at_first_failure_witness :
  process_all_pdfs_to_excel offline no_numeral_text
    (fixed_desk ["/srv/ledger/data/raw/1704.pdf"]) "/srv/ledger"
    "all_years_rows.xlsx" fresh_world
  = (Raise FileNotFoundError, fresh_world)
  /\ process_all_pdfs_to_excel scanning no_numeral_text (fixed_desk [])
       "/srv/ledger" "all_years_rows.xlsx" fresh_world
     = (Raise FileNotFoundError, fresh_world).
Proof.
  destruct (batch_stops_at_first_failure offline no_numeral_text
              (fixed_desk ["/srv/ledger/data/raw/1704.pdf"]) "/srv/ledger"
              "all_years_rows.xlsx" fresh_world) as [_ Hdoc].
  destruct (Hdoc ["/srv/ledger/data/raw/1704.pdf"] tt [] "1704" [] _ _
              eq_refl eq_refl eq_refl) as [Hocr _].
  split.
  - apply Hocr. reflexivity.
  - apply (proj1 (batch_stops_at_first_failure scanning no_numeral_text
                    (fixed_desk []) "/srv/ledger" "all_years_rows.xlsx"
                    fresh_world)).
    reflexivity.
Defined.

Lemma batch_keeps_cache_witness :
  cache half_cached !! ("1704", 1%Z) = Some "Tithes 0 5 0"
  /\ cache (snd (process_all_pdfs_to_excel scanning no_numeral_text
                   (fixed_desk ["/srv/ledger/data/raw/1704.pdf"])
                   "/srv/ledger" "all_years_rows.xlsx" half_cached))
       !! ("1704", 1%Z) = Some "Tithes 0 5 0".
Proof.
  assert (H : cache half_cached !! ("1704", 1%Z) = Some "Tithes 0 5 0")
    by (vm_compute; reflexivity).
  split; [exact H |].
  exact (batch_keeps_cache scanning no_numeral_text
           (fixed_desk ["/srv/ledger/data/raw/1704.pdf"]) "/srv/ledger"
           "all_years_rows.xlsx" half_cached _ _ H).
Defined.

Lemma batch_goes_document_by_document_witness :
  exists w',
    process_all_pdfs_to_excel scanning no_numeral_text
      (fixed_desk ["/srv/ledger/data/raw/1704.pdf"]) "/srv/ledger"
      "all_years_rows.xlsx" fresh_world
    = (Ok "/srv/ledger/data/processed/all_years_rows.xlsx", w')
    /\ classified_docs (log w') = ["1704"; "1704"]
    /\ exists counts,
        List.length counts = 1%nat
        /\ classified_docs (log w') = by_document ["1704"] counts.
Proof.
  pose (w' := snd (process_all_pdfs_to_excel scanning no_numeral_text
                     (fixed_desk ["/srv/ledger/data/raw/1704.pdf"])
                     "/srv/ledger" "all_years_rows.xlsx" fresh_world)).
  assert (Hrun : process_all_pdfs_to_excel scanning no_numeral_text
                   (fixed_desk ["/srv/ledger/data/raw/1704.pdf"])
                   "/srv/ledger" "all_years_rows.xlsx" fresh_world
                 = (Ok "/srv/ledger/data/processed/all_years_rows.xlsx", w'))
    by (vm_compute; reflexivity).
  exists w'. split; [exact Hrun |].
  split; [vm_compute; reflexivity |].
  destruct (batch_goes_document_by_document scanning no_numeral_text
              (fixed_desk ["/srv/ledger/data/raw/1704.pdf"]) "/srv/ledger"
              "all_years_rows.xlsx" fresh_world
              ["/srv/ledger/data/raw/1704.pdf"] tt _ _ eq_refl Hrun)
    as (_ & counts & Hlen & Hlog).
  exists counts. split; [exact Hlen | exact Hlog].
Defined.
